(** * Maji Ndogo: field and weather data pipelines

    A shallow embedding of [data_ingestion.py], [field_data_processor.py]
    and [weather_data_processor.py].

    The pandas objects are modelled by their contents: a DataFrame is the
    ordered list of its columns, each a label with the list of its cells.
    A finite number is held by its exact value, a rational ([Q]); the two
    infinities are cells of their own and NaN is pandas' null.  No arithmetic
    is done on numbers here except [abs], which is exact: the mean, which
    rounds, is left to the library.  Library calls whose result depends on
    the outside world or on another library ([pd.read_sql_query],
    [pd.read_csv], [re.search], [float], the mean of a group) are arguments
    of the functions that use them. *)

From Stdlib Require Import List String Bool Arith Lia ZArith QArith Qabs.
From Equations Require Import Equations.
Import ListNotations.

Local Open Scope list_scope.
Local Open Scope nat_scope.
Local Open Scope string_scope.

(** ** Python values and exceptions *)

(** A cell of a table: a finite number, a string, pandas' null (None /
    NaN), or an infinity. *)
Inductive Cell : Type :=
| Num (q : Q)
| Str (s : string)
| Null
| Inf (negative : bool).

(** A Python float: a finite one by its exact value, an infinity, or NaN. *)
Inductive Float : Type :=
| Finite (q : Q)
| Infinity (negative : bool)
| NaN.

(** The cell a float is in a column. *)
Definition float_cell (x : Float) : Cell :=
  match x with
  | Finite q => Num q
  | Infinity b => Inf b
  | NaN => Null
  end.

Definition cell_eqb (a b : Cell) : bool :=
  match a, b with
  | Num x, Num y => Qeq_bool x y
  | Str s, Str t => String.eqb s t
  | Null, Null => true
  | Inf x, Inf y => Bool.eqb x y
  | _, _ => false
  end.

Definition is_null (c : Cell) : bool :=
  match c with Null => true | _ => false end.

Inductive exn : Type :=
| KeyError (key : string)
| ValueError (msg : string)
| TypeError (msg : string)
| IndexError
| AttributeError
| StopIteration
| ReError
| EmptyDataError
| OtherError (msg : string).

(** The result of evaluating a Python expression or call. *)
Inductive outcome (A : Type) : Type :=
| Return (a : A)
| Raise (e : exn).
Arguments Return {A} a.
Arguments Raise {A} e.

Definition obind {A B} (o : outcome A) (k : A -> outcome B) : outcome B :=
  match o with
  | Return a => k a
  | Raise e => Raise e
  end.

(** ** Logging

    A logger is modelled by the calls made on it, oldest first.  Which of
    them a handler prints is decided by the logging configuration. *)
Inductive Level : Type := DEBUG | INFO | WARNING | ERROR.
Definition LogRecord : Type := (Level * string)%type.

Definition emit (logs : list LogRecord) (lvl : Level) (msg : string)
  : list LogRecord :=
  List.app logs [(lvl, msg)].

(** ** Python dictionaries (insertion ordered, one entry per key) *)
Section Dict.
Context {K V : Type} (eqb : K -> K -> bool).

Definition dict : Type := list (K * V).

Fixpoint dict_get (d : dict) (k : K) : option V :=
  match d with
  | [] => None
  | (k', v) :: d' => if eqb k' k then Some v else dict_get d' k
  end.

(** [d[k] = v]: overwrite in place, or append a new entry. *)
Fixpoint dict_set (d : dict) (k : K) (v : V) : dict :=
  match d with
  | [] => [(k, v)]
  | (k', v') :: d' =>
      if eqb k' k then (k', v) :: d' else (k', v') :: dict_set d' k v
  end.

Definition dict_keys (d : dict) : list K := map fst d.
Definition dict_values (d : dict) : list V := map snd d.

(** [d.get(k, default)] *)
Definition dict_get_default (d : dict) (k : K) (default : V) : V :=
  match dict_get d k with
  | Some v => v
  | None => default
  end.
End Dict.
Arguments dict K V : clear implicits.

(** [xs[0]] *)
Definition index0 {A} (xs : list A) : outcome A :=
  match xs with
  | [] => Raise IndexError
  | x :: _ => Return x
  end.

(** ** DataFrames *)
Definition Series : Type := list Cell.
Definition DataFrame : Type := list (string * Series).

(** [df.columns] *)
Definition columns (d : DataFrame) : list string := map fst d.

(** [name in df.columns] *)
Definition in_columns (name : string) (d : DataFrame) : bool :=
  existsb (String.eqb name) (columns d).

(** [len(df)]: every column of a DataFrame has the length of its index. *)
Definition nrows (d : DataFrame) : nat :=
  match d with
  | [] => 0
  | (_, s) :: _ => List.length s
  end.

(** [df.empty]: some axis has length 0. *)
Definition df_empty (d : DataFrame) : bool :=
  Nat.eqb (List.length d) 0 || Nat.eqb (nrows d) 0.

(** The data of the columns labelled [name], left to right (one column
    when labels are unique). *)
Definition columns_named (d : DataFrame) (name : string) : list Series :=
  map snd (filter (fun c => String.eqb (fst c) name) d).

(** [df.rename(columns=mapper)]: every label that is a key of [mapper] is
    replaced; labels that are not keys stay, and keys that are not labels are
    ignored ([errors='ignore'] is the default).  The data is not touched. *)
Definition rename_label (mapper : dict string string) (l : string) : string :=
  dict_get_default String.eqb mapper l l.

Definition rename (d : DataFrame) (mapper : dict string string) : DataFrame :=
  map (fun c => (rename_label mapper (fst c), snd c)) d.

(** [df[name]]: the column labelled [name]. *)
Definition getitem (d : DataFrame) (name : string) : outcome Series :=
  match find (fun c => String.eqb (fst c) name) d with
  | Some c => Return (snd c)
  | None => Raise (KeyError name)
  end.

(** [df[name] = s]: replace the data of the column labelled [name], or add
    the column at the end when there is none. *)
Fixpoint setitem (d : DataFrame) (name : string) (s : Series) : DataFrame :=
  match d with
  | [] => [(name, s)]
  | (l, s') :: d' =>
      if String.eqb l name then (l, s) :: d' else (l, s') :: setitem d' name s
  end.

(** [df.drop(columns=name)] *)
Definition drop (d : DataFrame) (name : string) : outcome DataFrame :=
  if in_columns name d
  then Return (filter (fun c => negb (String.eqb (fst c) name)) d)
  else Raise (KeyError name).

Definition abs_cell (c : Cell) : outcome Cell :=
  match c with
  | Num q => Return (Num (Qabs q))
  | Null => Return Null
  | Inf _ => Return (Inf false)
  | Str _ => Raise (TypeError "bad operand type for abs(): 'str'")
  end.

(** [s.abs()] *)
Fixpoint Series_abs (s : Series) : outcome Series :=
  match s with
  | [] => Return []
  | c :: s' =>
      obind (abs_cell c) (fun c' =>
      obind (Series_abs s') (fun r => Return (c' :: r)))
  end.

(** [s.apply(f)] for a function that does not raise. *)
Definition Series_apply (f : Cell -> Cell) (s : Series) : Series := map f s.

(** *** [pd.merge(left, right, on=key, how='left')] *)

(** The positions of [rk], in order, whose cell equals [c]. *)
Fixpoint matches_from (j : nat) (rk : Series) (c : Cell) : list nat :=
  match rk with
  | [] => []
  | x :: rk' =>
      if cell_eqb x c then j :: matches_from (S j) rk' c
      else matches_from (S j) rk' c
  end.

(** The rows of the result: each left row, in order, once per matching right
    row, or once with no right row when nothing matches. *)
Fixpoint left_join_from (i : nat) (lk rk : Series) : list (nat * option nat) :=
  match lk with
  | [] => []
  | c :: lk' =>
      match matches_from 0 rk c with
      | [] => [(i, None)]
      | js => map (fun j => (i, Some j)) js
      end ++ left_join_from (S i) lk' rk
  end.

Definition left_join_indexers (lk rk : Series) : list (nat * option nat) :=
  left_join_from 0 lk rk.

Definition take (s : Series) (ix : list nat) : Series :=
  map (fun i => nth i s Null) ix.

Definition take_or_null (s : Series) (ix : list (option nat)) : Series :=
  map (fun oj => match oj with Some j => nth j s Null | None => Null end) ix.

Definition has_label (l : string) (d : DataFrame) : bool :=
  existsb (String.eqb l) (columns d).

(** A label other than the key that both frames carry gets a suffix. *)
Definition suffixed (key suffix : string) (other : DataFrame) (l : string) : string :=
  if negb (String.eqb l key) && has_label l other then l ++ suffix else l.

Definition merge_left (left right : DataFrame) (key : string) : outcome DataFrame :=
  obind (getitem right key) (fun rk =>
  obind (getitem left key) (fun lk =>
    let ix := left_join_indexers lk rk in
    let lcols :=
      map (fun c => (suffixed key "_x" right (fst c), take (snd c) (map fst ix))) left in
    let rcols :=
      map (fun c => (suffixed key "_y" left (fst c), take_or_null (snd c) (map snd ix)))
          (filter (fun c => negb (String.eqb (fst c) key)) right) in
    Return (lcols ++ rcols)%list)).

(** ** data_ingestion *)
Module DataIngestion.

Definition exn_str (e : exn) : string :=
  match e with
  | KeyError k => "'" ++ k ++ "'"
  | ValueError m | TypeError m | OtherError m => m
  | _ => ""
  end.

Definition is_ValueError (e : exn) : bool :=
  match e with ValueError _ => true | _ => false end.

(** [query_data(engine, sql_query)].  [read_sql_query] is what
    [engine.connect()] followed by [pd.read_sql_query] does for this engine
    and query: a table, or an exception.  The second component is what the
    module logger is sent. *)
Definition query_data (read_sql_query : outcome DataFrame)
  : outcome DataFrame * list LogRecord :=
  let handle (e : exn) (logs : list LogRecord) :=
    if is_ValueError e
    then (Raise e, emit logs ERROR ("SQL query failed. Error: " ++ exn_str e))
    else (Raise e,
          emit logs ERROR
            ("An error occurred while querying the database. Error: " ++ exn_str e)) in
  match read_sql_query with
  | Raise e => handle e []
  | Return d =>
      if df_empty d then
        let msg := "The query returned an empty DataFrame." in
        handle (ValueError msg) [(ERROR, msg)]
      else (Return d, [(INFO, "Query executed successfully.")])
  end.

(** [read_from_web_CSV(URL)], with [read_csv] what [pd.read_csv(URL)] does. *)
Definition read_from_web_CSV (read_csv : outcome DataFrame)
  : outcome DataFrame * list LogRecord :=
  match read_csv with
  | Return d => (Return d, [(INFO, "CSV file read successfully from the web.")])
  | Raise EmptyDataError =>
      (Raise EmptyDataError,
       [(ERROR, "The URL does not point to a valid CSV file. Please check the URL and try again.")])
  | Raise e =>
      (Raise e, [(ERROR, "Failed to read CSV from the web. Error: " ++ exn_str e)])
  end.

End DataIngestion.

(** ** FieldDataProcessor *)
Module Field.

Record FieldDataProcessor : Type := mk {
  db_path : string;
  sql_query : string;
  columns_to_rename : dict string string;
  values_to_rename : dict Cell Cell;
  weather_map_data : string;
  df : option DataFrame;
  logger : list LogRecord
}.

Definition set_df (st : FieldDataProcessor) (d : option DataFrame) :=
  mk (db_path st) (sql_query st) (columns_to_rename st) (values_to_rename st)
     (weather_map_data st) d (logger st).

Definition log (lvl : Level) (msg : string) (st : FieldDataProcessor) :=
  mk (db_path st) (sql_query st) (columns_to_rename st) (values_to_rename st)
     (weather_map_data st) (df st) (emit (logger st) lvl msg).

(** How many labels are at least as long as the candidate: the candidates
    the loop can still collide with. *)
Definition collisions_left (cols : list string) (temp_name : string) : nat :=
  List.length (filter (fun c => Nat.leb (String.length temp_name) (String.length c)) cols).

Lemma length_append (s t : string) :
  String.length (s ++ t) = String.length s + String.length t.
Proof. induction s as [|a s IH]; simpl; [reflexivity | now rewrite IH]. Qed.

Lemma existsb_eqb_In (s : string) (l : list string) :
  existsb (String.eqb s) l = true <-> In s l.
Proof.
  rewrite existsb_exists. split.
  - intros [x [Hx He]]. apply String.eqb_eq in He. now subst.
  - intros H. exists s. split; [exact H | apply String.eqb_refl].
Qed.

Lemma collisions_left_decreases (cols : list string) (t : string) :
  existsb (String.eqb t) cols = true ->
  collisions_left cols (t ++ "_") < collisions_left cols t.
Proof.
  intros H. apply existsb_eqb_In in H.
  unfold collisions_left. rewrite length_append. simpl.
  induction cols as [|c cols IH]; [contradiction|].
  assert (Hle : forall l : list string,
    List.length (filter (fun c => Nat.leb (String.length t + 1) (String.length c)) l)
    <= List.length (filter (fun c => Nat.leb (String.length t) (String.length c)) l)).
  { induction l as [|x l IHl]; simpl; [lia|].
    destruct (Nat.leb (String.length t + 1) (String.length x)) eqn:E1;
      destruct (Nat.leb (String.length t) (String.length x)) eqn:E2; simpl; try lia.
    apply Nat.leb_le in E1. apply Nat.leb_gt in E2. lia. }
  simpl. destruct H as [->|H].
  - replace (Nat.leb (String.length t + 1) (String.length t)) with false
      by (symmetry; apply Nat.leb_gt; lia).
    rewrite Nat.leb_refl. simpl. specialize (Hle cols). lia.
  - specialize (IH H).
    destruct (Nat.leb (String.length t + 1) (String.length c)) eqn:E1;
      destruct (Nat.leb (String.length t) (String.length c)) eqn:E2; simpl; try lia.
    apply Nat.leb_le in E1. apply Nat.leb_gt in E2. lia.
Qed.

Definition inspect {A} (a : A) : {b : A | a = b} := exist _ a eq_refl.

(** [while temp_name in self.df.columns: temp_name += "_"] *)
Equations? while_in_columns (cols : list string) (temp_name : string) : string
  by wf (collisions_left cols temp_name) lt :=
  while_in_columns cols temp_name
    with inspect (existsb (String.eqb temp_name) cols) := {
    | exist _ true Hin := while_in_columns cols (temp_name ++ "_");
    | exist _ false _ := temp_name }.
Proof. now apply collisions_left_decreases. Qed.

Definition rename_columns (st : FieldDataProcessor)
  : outcome unit * FieldDataProcessor :=
  match index0 (dict_keys (columns_to_rename st)) with
  | Raise e => (Raise e, st)
  | Return column1 =>
  match index0 (dict_values (columns_to_rename st)) with
  | Raise e => (Raise e, st)
  | Return column2 =>
  match df st with
  | None => (Raise AttributeError, st)
  | Some d =>
      let temp_name := while_in_columns (columns d) "__temp_name_for_swap__" in
      let d1 :=
        rename d (dict_set String.eqb (dict_set String.eqb [] column1 temp_name)
                           column2 column1) in
      let d2 := rename d1 (dict_set String.eqb [] temp_name column2) in
      (Return tt,
       log INFO ("Swapped columns: " ++ column1 ++ " with " ++ column2)
           (set_df st (Some d2)))
  end end end.

(** [apply_corrections(column_name, abs_column)]: the body names the two
    columns itself. *)
Definition apply_corrections (column_name abs_column : string)
    (st : FieldDataProcessor) : outcome unit * FieldDataProcessor :=
  match df st with
  | None => (Raise (TypeError "'NoneType' object is not subscriptable"), st)
  | Some d =>
  match obind (getitem d "Elevation") Series_abs with
  | Raise e => (Raise e, st)
  | Return elevation =>
      let d1 := setitem d "Elevation" elevation in
      match getitem d1 "Crop_type" with
      | Raise e => (Raise e, set_df st (Some d1))
      | Return crop_type =>
          let d2 :=
            setitem d1 "Crop_type"
              (Series_apply
                 (fun crop => dict_get_default cell_eqb (values_to_rename st) crop crop)
                 crop_type) in
          (Return tt, set_df st (Some d2))
      end
  end end.

(** [weather_station_mapping()], with [web url] what [pd.read_csv(url)]
    does. *)
Definition weather_station_mapping (web : string -> outcome DataFrame)
    (st : FieldDataProcessor) : outcome DataFrame * FieldDataProcessor :=
  match fst (DataIngestion.read_from_web_CSV (web (weather_map_data st))) with
  | Raise e => (Raise e, st)
  | Return meta =>
  match df st with
  | None =>
      (Raise (TypeError "Can only merge Series or DataFrame objects, a <class 'NoneType'> was passed"),
       st)
  | Some d =>
  match merge_left d meta "Field_ID" with
  | Raise e => (Raise e, st)
  | Return merged =>
  match drop merged "Unnamed: 0" with
  | Raise e => (Raise e, set_df st (Some merged))
  | Return d' => (Return d', set_df st (Some d'))
  end end end end.

End Field.

(** ** Grouped means and their pivot *)

(** The order pandas sorts group keys in: numbers before strings, numbers by
    value, strings by code point. *)
Definition cell_leb (a b : Cell) : bool :=
  match a, b with
  | Num x, Num y => Qle_bool x y
  | Inf true, (Num _ | Inf _) => true
  | Num _, Inf false => true
  | Inf false, Inf false => true
  | Num _, Inf true => false
  | Inf false, (Num _ | Inf true) => false
  | (Num _ | Inf _), (Str _ | Null) => true
  | Str _, (Num _ | Inf _) => false
  | Str s, Str t => String.leb s t
  | Str _, Null => true
  | Null, Null => true
  | Null, _ => false
  end.

Definition Key : Type := (Cell * Cell)%type.

Definition key_eqb (a b : Key) : bool :=
  cell_eqb (fst a) (fst b) && cell_eqb (snd a) (snd b).

Definition key_leb (a b : Key) : bool :=
  if cell_eqb (fst a) (fst b) then cell_leb (snd a) (snd b)
  else cell_leb (fst a) (fst b).

Section SortUniq.
Context {A : Type} (eqb leb : A -> A -> bool).

(** Insert [x] into a sorted list that has no two equal elements. *)
Fixpoint insert_uniq (x : A) (l : list A) : list A :=
  match l with
  | [] => [x]
  | y :: l' =>
      if eqb y x then y :: l'
      else if leb x y then x :: y :: l'
      else y :: insert_uniq x l'
  end.

Definition sort_uniq (l : list A) : list A :=
  fold_left (fun acc x => insert_uniq x acc) l [].

(** The distinct elements, in order of first appearance. *)
Fixpoint uniq (l : list A) : list A :=
  match l with
  | [] => []
  | x :: l' => x :: filter (fun y => negb (eqb x y)) (uniq l')
  end.

(** Whether some element of [l] equals [q]. *)
Definition mem (q : A) (l : list A) : bool := existsb (fun y => eqb y q) l.

Fixpoint index_of (x : A) (l : list A) : option nat :=
  match l with
  | [] => None
  | y :: l' =>
      if eqb y x then Some 0
      else match index_of x l' with Some i => Some (S i) | None => None end
  end.
End SortUniq.

(** The floats of a column, nulls left out. *)
Definition floats (s : Series) : list Float :=
  flat_map (fun c => match c with
                     | Num q => [Finite q]
                     | Inf b => [Infinity b]
                     | _ => []
                     end) s.

Definition has_str (s : Series) : bool :=
  existsb (fun c => match c with Str _ => true | _ => false end) s.

(** [.mean()] of one group: nulls are skipped, a group with no number gives
    NaN, text cannot be averaged.  [mean vs] is the float pandas computes as
    the mean of the floats [vs], a list that is not empty, taken in row
    order: a sum and a division in binary floating point. *)
Definition group_mean (mean : list Float -> Float) (s : Series) : outcome Cell :=
  if has_str s then Raise (TypeError "agg function failed [how->mean,dtype->object]")
  else match floats s with
       | [] => Return Null
       | vs => Return (float_cell (mean vs))
       end.

(** A Series indexed by pairs, as [groupby([a, b])[v].mean()] returns it. *)
Definition KeyedSeries : Type := list (Key * Cell).

Fixpoint outcome_map {A B} (f : A -> outcome B) (l : list A) : outcome (list B) :=
  match l with
  | [] => Return []
  | x :: l' =>
      obind (f x) (fun y => obind (outcome_map f l') (fun r => Return (y :: r)))
  end.

(** The rows as (key, value) pairs, without the rows whose key has a null:
    [groupby] drops them. *)
Definition keyed_rows (a b v : Series) : list (Key * Cell) :=
  filter (fun r => negb (is_null (fst (fst r))) && negb (is_null (snd (fst r))))
         (combine (combine a b) v).

Definition group_values (rows : list (Key * Cell)) (k : Key) : Series :=
  map snd (filter (fun r => key_eqb (fst r) k) rows).

(** [df.groupby(by=[a, b])[v].mean()]: one entry per distinct pair of
    non-null keys, sorted by key. *)
Definition groupby_mean (mean : list Float -> Float) (d : DataFrame)
    (a b v : string) : outcome KeyedSeries :=
  obind (getitem d a) (fun ka =>
  obind (getitem d b) (fun kb =>
  match getitem d v with
  | Raise _ => Raise (KeyError ("Column not found: " ++ v))
  | Return vs =>
      let rows := keyed_rows ka kb vs in
      outcome_map
        (fun k => obind (group_mean mean (group_values rows k))
                        (fun m => Return (k, m)))
        (sort_uniq key_eqb key_leb (map fst rows))
  end)).

(** A table with row and column labels, as [unstack] returns it. *)
Record PivotTable : Type := mkPivot {
  row_labels : list Cell;
  col_labels : list Cell;
  cells : list (list Cell)
}.

Definition keyed_get (s : KeyedSeries) (k : Key) : Cell :=
  match find (fun e => key_eqb (fst e) k) s with
  | Some e => snd e
  | None => Null
  end.

(** [s.unstack()]: the first key labels the rows, the second the columns;
    a pair that has no entry gives a null cell. *)
Definition unstack (s : KeyedSeries) : PivotTable :=
  let rows := uniq cell_eqb (map (fun e => fst (fst e)) s) in
  let cols := sort_uniq cell_eqb cell_leb (map (fun e => snd (fst e)) s) in
  mkPivot rows cols
    (map (fun r => map (fun c => keyed_get s (r, c)) cols) rows).

(** The cell at row [r] and column [c], when the table has both labels. *)
Definition pivot_cell (t : PivotTable) (r c : Cell) : option Cell :=
  match index_of cell_eqb r (row_labels t), index_of cell_eqb c (col_labels t) with
  | Some i, Some j => Some (nth j (nth i (cells t) []) Null)
  | _, _ => None
  end.

(** ** WeatherDataProcessor *)
Module Weather.

(** What [re.search(pattern, message)] does: it raises (an invalid pattern,
    a message that is not text), finds no match ([None]), or finds a match,
    which carries [match.groups()], where a group that did not take part is
    [None]. *)
Inductive re_result : Type :=
| ReRaise (e : exn)
| ReNoMatch
| ReMatch (groups : list (option string)).

Record WeatherDataProcessor : Type := mk {
  weather_station_data : string;
  patterns : dict string string;
  weather_df : option DataFrame;
  logger : list LogRecord
}.

Definition set_weather_df (st : WeatherDataProcessor) (d : option DataFrame) :=
  mk (weather_station_data st) (patterns st) d (logger st).

Definition log (lvl : Level) (msg : string) (st : WeatherDataProcessor) :=
  mk (weather_station_data st) (patterns st) (weather_df st)
     (emit (logger st) lvl msg).

Definition weather_station_mapping (web : string -> outcome DataFrame)
    (st : WeatherDataProcessor) : outcome unit * WeatherDataProcessor :=
  match fst (DataIngestion.read_from_web_CSV (web (weather_station_data st))) with
  | Raise e => (Raise e, st)
  | Return d =>
      (Return tt,
       log INFO "Successfully loaded weather station data from the web."
           (set_weather_df st (Some d)))
  end.

Section Extract.
(** [re_search pattern message] is Python's [re.search]; [float s] is the
    float [float(s)] returns (a finite one, an infinity or NaN), or [None]
    when it raises ValueError. *)
Variable re_search : string -> Cell -> re_result.
Variable float : string -> option Float.

(** [next(x for x in groups if x is not None)] *)
Fixpoint next_not_None (groups : list (option string)) : outcome string :=
  match groups with
  | [] => Raise StopIteration
  | Some x :: _ => Return x
  | None :: groups' => next_not_None groups'
  end.

Definition to_float (s : string) : outcome Float :=
  match float s with
  | Some v => Return v
  | None => Raise (ValueError ("could not convert string to float: '" ++ s ++ "'"))
  end.

(** The loop over [self.patterns.items()]. *)
Fixpoint extract_loop (items : list (string * string)) (message : Cell)
    (logs : list LogRecord)
  : outcome (option string * option Float) * list LogRecord :=
  match items with
  | [] => (Return (None, None), emit logs DEBUG "No measurement match found.")
  | (key, pattern) :: items' =>
      match re_search pattern message with
      | ReRaise e => (Raise e, logs)
      | ReNoMatch => extract_loop items' message logs
      | ReMatch groups =>
          let logs' := emit logs DEBUG ("Measurement extracted: " ++ key) in
          (obind (next_not_None groups) (fun x =>
           obind (to_float x) (fun v => Return (Some key, Some v))),
           logs')
      end
  end.

Definition extract_measurement (message : Cell) (st : WeatherDataProcessor)
  : outcome (option string * option Float) * WeatherDataProcessor :=
  let (r, logs) := extract_loop (patterns st) message (logger st) in
  (r, mk (weather_station_data st) (patterns st) (weather_df st) logs).

(** [series.apply(self.extract_measurement)]: the calls in row order; the
    first exception ends it. *)
Fixpoint apply_extract (s : Series) (st : WeatherDataProcessor)
  : outcome (list (option string * option Float)) * WeatherDataProcessor :=
  match s with
  | [] => (Return [], st)
  | m :: s' =>
      match extract_measurement m st with
      | (Raise e, st1) => (Raise e, st1)
      | (Return r, st1) =>
          match apply_extract s' st1 with
          | (Raise e, st2) => (Raise e, st2)
          | (Return rs, st2) => (Return (r :: rs), st2)
          end
      end
  end.

Definition kind_cell (k : option string) : Cell :=
  match k with Some s => Str s | None => Null end.
Definition value_cell (v : option Float) : Cell :=
  match v with Some x => float_cell x | None => Null end.

Definition process_messages (st : WeatherDataProcessor)
  : outcome (option DataFrame) * WeatherDataProcessor :=
  match weather_df st with
  | Some d =>
      match getitem d "Message" with
      | Raise e => (Raise e, st)
      | Return messages =>
          match apply_extract messages st with
          | (Raise e, st1) => (Raise e, st1)
          | (Return [], st1) =>
              (Raise (ValueError "not enough values to unpack (expected 2, got 0)"), st1)
          | (Return result, st1) =>
              let d1 := setitem d "Measurement" (map (fun r => kind_cell (fst r)) result) in
              let d2 := setitem d1 "Value" (map (fun r => value_cell (snd r)) result) in
              let st2 := log INFO "Messages processed and measurements extracted."
                             (set_weather_df st1 (Some d2)) in
              (Return (Some d2), st2)
          end
      end
  | None =>
      (Return None,
       log WARNING "weather_df is not initialized, skipping message processing." st)
  end.
End Extract.

(** [calculate_means()], with [mean] the mean pandas computes of the floats
    of one group. *)
Definition calculate_means (mean : list Float -> Float) (st : WeatherDataProcessor)
  : outcome (option PivotTable) * WeatherDataProcessor :=
  match weather_df st with
  | Some d =>
      match groupby_mean mean d "Weather_station_ID" "Measurement" "Value" with
      | Raise e => (Raise e, st)
      | Return means =>
          (Return (Some (unstack means)), log INFO "Mean values calculated." st)
      end
  | None =>
      (Return None,
       log WARNING "weather_df is not initialized, cannot calculate means." st)
  end.

Section Process.
Variable re_search : string -> Cell -> re_result.
Variable float : string -> option Float.

Definition process (web : string -> outcome DataFrame) (st : WeatherDataProcessor)
  : outcome unit * WeatherDataProcessor :=
  match weather_station_mapping web st with
  | (Raise e, st1) => (Raise e, st1)
  | (Return _, st1) =>
      match process_messages re_search float st1 with
      | (Raise e, st2) => (Raise e, st2)
      | (Return _, st2) => (Return tt, log INFO "Data processing completed." st2)
      end
  end.
End Process.

End Weather.

(** ** The logger registry

    [logging.getLogger(name)] gives the one logger of that name, so all
    processors of a class share the logger that [initialize_logging]
    configures.  [initialize_logging] is the same in both classes. *)
Module Logging.

(** A [StreamHandler] with its format string. *)
Inductive Handler : Type := StreamHandler (format : string).

(** A logger: [level] is [None] while the level is NOTSET. *)
Record Logger : Type := mk {
  propagate : bool;
  disabled : bool;
  level : option Level;
  handlers : list Handler
}.

(** A logger as [getLogger] creates it. *)
Definition new_logger : Logger := mk true false None [].

Definition level_number (l : Level) : nat :=
  match l with DEBUG => 10 | INFO => 20 | WARNING => 30 | ERROR => 40 end.

(** [logger.isEnabledFor(lvl)], with [root] the level a NOTSET logger takes
    from the root logger. *)
Definition is_enabled_for (root : Level) (lg : Logger) (lvl : Level) : bool :=
  negb (disabled lg)
  && Nat.leb (level_number (match level lg with Some l => l | None => root end))
             (level_number lvl).

(** How many times an enabled record is written: once per handler of the
    logger while it does not propagate. *)
Definition copies_written (lg : Logger) : nat := List.length (handlers lg).

Section Init.
(** [upper s] is Python's [s.upper()]. *)
Variable upper : string -> string.

Definition initialize_logging (logging_level : string) (lg : Logger) : Logger :=
  let lg1 := mk false (disabled lg) (level lg) (handlers lg) in
  let configure (log_level : Level) : Logger :=
    let lg2 := mk (propagate lg1) (disabled lg1) (Some log_level) (handlers lg1) in
    match handlers lg2 with
    | [] =>
        mk (propagate lg2) (disabled lg2) (level lg2)
           [StreamHandler "%(asctime)s - %(name)s - %(levelname)s - %(message)s"]
    | _ => lg2
    end in
  if String.eqb (upper logging_level) "DEBUG" then configure DEBUG
  else if String.eqb (upper logging_level) "INFO" then configure INFO
  else if String.eqb (upper logging_level) "NONE"
       then mk (propagate lg1) true (level lg1) (handlers lg1)
  else configure INFO.
End Init.

(** Upper case of the ASCII letters, for the level names used below. *)
Definition ascii_upper (c : Ascii.ascii) : Ascii.ascii :=
  let n := Ascii.nat_of_ascii c in
  if Nat.leb 97 n && Nat.leb n 122 then Ascii.ascii_of_nat (n - 32) else c.

Fixpoint upper_ascii (s : string) : string :=
  match s with
  | EmptyString => EmptyString
  | String c s' => String (ascii_upper c) (upper_ascii s')
  end.

End Logging.

(** ** Database engines and the whole field pipeline *)
Module FieldRun.

(** The exceptions [create_db_engine] tells apart, beside those of [exn]. *)
Inductive py_exn : Type :=
| Exn (e : exn)
| ImportError (msg : string)
| UnboundLocalError (name : string).

Inductive result (A : Type) : Type :=
| Ok (a : A)
| Err (e : py_exn).
Arguments Ok {A} a.
Arguments Err {A} e.

Definition of_outcome {A} (o : outcome A) : result A :=
  match o with
  | Return a => Ok a
  | Raise e => Err (Exn e)
  end.

Definition py_exn_str (e : py_exn) : string :=
  match e with
  | Exn e => DataIngestion.exn_str e
  | ImportError m => m
  | UnboundLocalError n =>
      "cannot access local variable '" ++ n ++ "' where it is not associated with a value"
  end.

(** An engine is known by the path it was created for. *)
Definition Engine : Type := string.

(** What is outside the program: what [create_engine(db_path)] gives, what
    the test [engine.connect()] raises if anything, what connecting and
    [pd.read_sql_query] give for an engine and a query, and what
    [pd.read_csv] gives for a URL. *)
Record World : Type := mkWorld {
  create_engine : string -> result Engine;
  connect : Engine -> option py_exn;
  read_sql_query : Engine -> string -> outcome DataFrame;
  read_csv : string -> outcome DataFrame
}.

(** [create_db_engine(db_path)].  The handler for ImportError raises [e],
    a local name that only the other handler binds. *)
Definition create_db_engine (w : World) (db_path : string)
  : result Engine * list LogRecord :=
  let body : result Engine :=
    match create_engine w db_path with
    | Err e => Err e
    | Ok engine =>
        match connect w engine with
        | Some e => Err e
        | None => Ok engine
        end
    end in
  match body with
  | Ok engine => (Ok engine, [(INFO, "Database engine created successfully.")])
  | Err (ImportError _) =>
      (Err (UnboundLocalError "e"),
       [(ERROR, "SQLAlchemy is required to use this function. Please install it first.")])
  | Err e =>
      (Err e, [(ERROR, "Failed to create database engine. Error: " ++ py_exn_str e)])
  end.

(** A FieldDataProcessor with its [engine] attribute. *)
Record Instance : Type := mkInstance {
  engine : option Engine;
  fields : Field.FieldDataProcessor
}.

Definition ingest_sql_data (w : World) (i : Instance)
  : result DataFrame * Instance :=
  match fst (create_db_engine w (Field.db_path (fields i))) with
  | Err e => (Err e, i)
  | Ok en =>
      let i1 := mkInstance (Some en) (fields i) in
      match fst (DataIngestion.query_data
                   (read_sql_query w en (Field.sql_query (fields i)))) with
      | Raise e => (Err (Exn e), i1)
      | Return d =>
          (Ok d,
           mkInstance (Some en)
             (Field.log INFO "Sucessfully loaded data."
                (Field.set_df (fields i) (Some d))))
      end
  end.

Definition lift {A} (r : outcome A * Field.FieldDataProcessor) (i : Instance)
  : result A * Instance :=
  (of_outcome (fst r), mkInstance (engine i) (snd r)).

(** [process()]: the four stages in order; it has no return statement. *)
Definition process (w : World) (i : Instance) : result unit * Instance :=
  match ingest_sql_data w i with
  | (Err e, i1) => (Err e, i1)
  | (Ok _, i1) =>
  match lift (Field.rename_columns (fields i1)) i1 with
  | (Err e, i2) => (Err e, i2)
  | (Ok _, i2) =>
  match lift (Field.apply_corrections "Crop_type" "Elevation" (fields i2)) i2 with
  | (Err e, i3) => (Err e, i3)
  | (Ok _, i3) =>
  match lift (Field.weather_station_mapping (read_csv w) (fields i3)) i3 with
  | (Err e, i4) => (Err e, i4)
  | (Ok _, i4) => (Ok tt, i4)
  end end end end.

End FieldRun.

(** * Vocabulary of the statements and sample data *)

Definition swap_label (a b l : string) : string :=
  if String.eqb l a then b else if String.eqb l b then a else l.

Definition relabel (f : string -> string) (d : DataFrame) : DataFrame :=
  map (fun c => (f (fst c), snd c)) d.

Definition swap_table : DataFrame :=
  [("Annual_yield", [Str "cassava"; Str "tea"]);
   ("__temp_name_for_swap__", [Num 1; Num 2]);
   ("Crop_type", [Num 0.5; Num 0.7]);
   ("__temp_name_for_swap___", [Null; Null])].

Definition swap_processor : Field.FieldDataProcessor :=
  Field.mk "sqlite:///Maji_Ndogo_farm_survey_small.db" "SELECT 1"
    [("Annual_yield", "Crop_type")] [] "" (Some swap_table) [].

Definition cell_abs (c : Cell) : Cell :=
  match c with
  | Num q => Num (Qabs q)
  | Inf _ => Inf false
  | _ => c
  end.

(** Whether two cells hold the same value: the same number, the same text,
    the same infinity, or both null. *)
Definition same_cell (a b : Cell) : bool :=
  match a, b with
  | Num x, Num y => match (x ?= y)%Q with Eq => true | _ => false end
  | Str s, Str t => if string_dec s t then true else false
  | Null, Null => true
  | Inf false, Inf false | Inf true, Inf true => true
  | _, _ => false
  end.

(** [y] is what the map [m] makes of [x]: the value of the first entry whose
    key is [x], or [x] itself when no entry has that key. *)
Definition renamed (m : dict Cell Cell) (x y : Cell) : Prop :=
  (exists pre k post,
     m = (pre ++ (k, y) :: post)%list /\ same_cell k x = true /\
     forall e, In e pre -> same_cell (fst e) x = false) \/
  (y = x /\ forall e, In e m -> same_cell (fst e) x = false).

Definition survey_table : DataFrame :=
  [("Field_ID", [Num 1; Num 2; Num 3; Num 4]);
   ("Elevation", [Num (-786.0558); Num 0; Num 201.3; Null]);
   ("Crop_type", [Str "cassaval"; Str "tea"; Str "wheatn"; Str "cassava "]);
   ("Rainfall", [Num (-3); Num 2; Num 5; Num 7])].

Definition survey_processor : Field.FieldDataProcessor :=
  Field.mk "" "" [("Annual_yield", "Crop_type")]
    [(Str "cassaval", Str "cassava"); (Str "wheatn", Str "wheat");
     (Str "teaa", Str "tea")]
    "" (Some survey_table) [].

(** A survey table with a text among the elevations. *)
Definition text_elevation_table : DataFrame :=
  [("Field_ID", [Num 1; Num 2]);
   ("Elevation", [Num (-3); Str "n/a"]);
   ("Crop_type", [Str "cassaval"; Str "tea"])].

Definition text_elevation_processor : Field.FieldDataProcessor :=
  Field.mk "" "" [("Annual_yield", "Crop_type")]
    [(Str "cassaval", Str "cassava")] "" (Some text_elevation_table) [].

Definition no_regex : string -> Cell -> Weather.re_result := fun _ _ => Weather.ReNoMatch.
Definition no_float : string -> option Float := fun _ => None.

Definition fresh_weather_processor : Weather.WeatherDataProcessor :=
  Weather.mk "https://example.org/Weather_station_data.csv"
    [("Temperature", "(\d+(\.\d+)?)\s?C"); ("Humidity", "(\d+(\.\d+)?)\s?%")]
    None [].

Definition loaded_table : DataFrame :=
  [("Weather_station_ID", [Num 0; Num 0; Num 1]);
   ("Message",
    [Str "Temperature reading: 13.96 C"; Str "Humidity 60%"; Str "no data"])].

Definition loaded_weather_processor : Weather.WeatherDataProcessor :=
  Weather.mk "https://example.org/Weather_station_data.csv"
    [("Temperature", "(\d+(\.\d+)?)\s?C"); ("Humidity", "(\d+(\.\d+)?)\s?%")]
    (Some loaded_table)
    [(INFO, "Successfully loaded weather station data from the web.")].

(** What Python's [re.search] and [float] give at the patterns, messages and
    captures of the examples below. *)
Definition sample_re_search (pattern : string) (message : Cell) : Weather.re_result :=
  match message with
  | Str m =>
      if String.eqb pattern "temp: ([\d.]+)C" then
        if String.eqb m "Station A reports temp: 22.5C" then Weather.ReMatch [Some "22.5"]
        else if String.eqb m "temp: 0.1C" then Weather.ReMatch [Some "0.1"]
        else if String.eqb m "temp: 10C" then Weather.ReMatch [Some "10"]
        else if String.eqb m "temp: 20C" then Weather.ReMatch [Some "20"]
        else if String.eqb m "temp: 30C" then Weather.ReMatch [Some "30"]
        else if String.eqb m "temp: .C" then Weather.ReMatch [Some "."]
        else Weather.ReNoMatch
      else if String.eqb pattern "humidity: (\d+)%" then
        if String.eqb m "Station A reports humidity: 60%" then Weather.ReMatch [Some "60"]
        else Weather.ReNoMatch
      else if String.eqb pattern "(\d+)mm|(\d+) millimetres" then
        if String.eqb m "rain: 12 millimetres" then Weather.ReMatch [None; Some "12"]
        else Weather.ReNoMatch
      else if String.eqb pattern "level: (\w+)" then
        if String.eqb m "level: nan" then Weather.ReMatch [Some "nan"]
        else if String.eqb m "level: inf" then Weather.ReMatch [Some "inf"]
        else Weather.ReNoMatch
      else Weather.ReNoMatch
  | _ => Weather.ReRaise (TypeError "expected string or bytes-like object")
  end.

(** The float nearest to one tenth, and the next float above it. *)
Definition tenth : Q := 3602879701896397 # 36028797018963968.
Definition above_tenth : Q := 7205759403792795 # 72057594037927936.

Definition sample_float (s : string) : option Float :=
  if String.eqb s "22.5" then Some (Finite 22.5)
  else if String.eqb s "60" then Some (Finite 60)
  else if String.eqb s "10" then Some (Finite 10)
  else if String.eqb s "20" then Some (Finite 20)
  else if String.eqb s "30" then Some (Finite 30)
  else if String.eqb s "12" then Some (Finite 12)
  else if String.eqb s "0.1" then Some (Finite tenth)
  else if String.eqb s "nan" then Some NaN
  else if String.eqb s "inf" then Some (Infinity false)
  else None.

(** What the mean of pandas gives at the groups of the examples below: a
    single float is its own mean, 10, 20 and 30 give 20, and three times the
    float nearest to one tenth give the float above it. *)
Definition sample_mean (vs : list Float) : Float :=
  match vs with
  | [Finite a] => Finite a
  | [Finite a; Finite b; Finite c] =>
      if Qeq_bool a 10 && Qeq_bool b 20 && Qeq_bool c 30 then Finite 20
      else if Qeq_bool a tenth && Qeq_bool b tenth && Qeq_bool c tenth
           then Finite above_tenth
      else NaN
  | _ => NaN
  end.

Definition scenario_patterns : dict string string :=
  [("temp", "temp: ([\d.]+)C"); ("humidity", "humidity: (\d+)%");
   ("rain", "(\d+)mm|(\d+) millimetres")].

Definition scenario_processor (d : option DataFrame) : Weather.WeatherDataProcessor :=
  Weather.mk "https://example.org/Weather_station_data.csv" scenario_patterns d [].

(** How many cells of [rk] equal [c]. *)
Definition match_count (rk : Series) (c : Cell) : nat :=
  List.length (filter (fun x => cell_eqb x c) rk).

Definition field_table : DataFrame :=
  [("Field_ID", [Num 40734; Num 30629; Num 39924]);
   ("Elevation", [Num 786.0558; Num 674.3341; Num 826.5339]);
   ("Crop_type", [Str "cassava"; Str "tea"; Str "wheat"])].

Definition mapping_table : DataFrame :=
  [("Unnamed: 0", [Num 0; Num 1]);
   ("Field_ID", [Num 30629; Num 40734]);
   ("Weather_station", [Num 0; Num 4])].

Definition single_field_table : DataFrame :=
  [("Field_ID", [Num 1]); ("Elevation", [Num 786.0558])].

Definition repeated_mapping_table : DataFrame :=
  [("Unnamed: 0", [Num 0; Num 1]); ("Field_ID", [Num 1; Num 1]);
   ("Weather_station", [Num 0; Num 4])].

Definition mapping_processor (d : DataFrame) : Field.FieldDataProcessor :=
  Field.mk "" "" [("Annual_yield", "Crop_type")] []
    "https://example.org/Weather_data_field_mapping.csv" (Some d) [].

(** The mean of a group without text. *)
Definition mean_cell (mean : list Float -> Float) (s : Series) : Cell :=
  match floats s with
  | [] => Null
  | vs => float_cell (mean vs)
  end.

(** The floats in the 'Value' cells of the rows whose station is [s] and
    whose kind is [k], in row order: the extracted values of the pair. *)
Fixpoint extracted_values (stations kinds values : Series) (s k : Cell)
  : list Float :=
  match stations, kinds, values with
  | a :: stations', b :: kinds', v :: values' =>
      let rest := extracted_values stations' kinds' values' s k in
      if same_cell a s then
        if same_cell b k then
          match v with
          | Num q => Finite q :: rest
          | Inf n => Infinity n :: rest
          | _ => rest
          end
        else rest
      else rest
  | _, _, _ => []
  end.

Definition means_of (mean : list Float -> Float) (rows : list (Key * Cell))
  : KeyedSeries :=
  map (fun key => (key, mean_cell mean (group_values rows key)))
      (sort_uniq key_eqb key_leb (map fst rows)).

(** Three readings of one tenth of a degree at one station, and a reading
    that is not a number. *)
Definition reading_patterns : dict string string :=
  [("temp", "temp: ([\d.]+)C"); ("level", "level: (\w+)")].

Definition reading_processor (d : option DataFrame) : Weather.WeatherDataProcessor :=
  Weather.mk "https://example.org/Weather_station_data.csv" reading_patterns d [].

Definition tenth_table : DataFrame :=
  [("Weather_station_ID", [Str "A"; Str "A"; Str "A"; Str "A"]);
   ("Message",
    [Str "temp: 0.1C"; Str "temp: 0.1C"; Str "temp: 0.1C"; Str "level: nan"])].

Definition tenth_processed_table : DataFrame :=
  [("Weather_station_ID", [Str "A"; Str "A"; Str "A"; Str "A"]);
   ("Message",
    [Str "temp: 0.1C"; Str "temp: 0.1C"; Str "temp: 0.1C"; Str "level: nan"]);
   ("Measurement", [Str "temp"; Str "temp"; Str "temp"; Str "level"]);
   ("Value", [Num tenth; Num tenth; Num tenth; Null])].


Definition scenario_table : DataFrame :=
  [("Weather_station_ID", [Str "A"; Str "A"; Str "B"; Str "B"; Str "B"; Str "B"]);
   ("Message",
    [Str "Station A reports temp: 22.5C"; Str "Station A reports humidity: 60%";
     Str "temp: 10C"; Str "temp: 20C"; Str "temp: 30C"; Str "no reading today"])].

Definition scenario_processed : Weather.WeatherDataProcessor :=
  snd (Weather.process_messages sample_re_search sample_float
         (scenario_processor (Some scenario_table))).

Definition scenario_processed_table : DataFrame :=
  [("Weather_station_ID", [Str "A"; Str "A"; Str "B"; Str "B"; Str "B"; Str "B"]);
   ("Message",
    [Str "Station A reports temp: 22.5C"; Str "Station A reports humidity: 60%";
     Str "temp: 10C"; Str "temp: 20C"; Str "temp: 30C"; Str "no reading today"]);
   ("Measurement",
    [Str "temp"; Str "humidity"; Str "temp"; Str "temp"; Str "temp"; Null]);
   ("Value", [Num 22.5; Num 60; Num 10; Num 20; Num 30; Null])].

(** * Further vocabulary and sample data *)

(** A world whose database gives [d] for every query and whose web gives
    [meta] for every URL. *)
Definition sample_world (d meta : DataFrame) : FieldRun.World :=
  FieldRun.mkWorld (fun p => FieldRun.Ok p) (fun _ => None)
    (fun _ _ => Return d) (fun _ => Return meta).

Definition farm_table : DataFrame :=
  [("Field_ID", [Num 40734; Num 30629; Num 39924]);
   ("Elevation", [Num (-786.0558); Num 674.3341; Num 826.5339]);
   ("Annual_yield", [Str "cassaval"; Str "tea"; Str "wheatn"]);
   ("Crop_type", [Num 0.75; Num 0.5; Num 0.25])].

Definition farm_instance (renames : dict string string) : FieldRun.Instance :=
  FieldRun.mkInstance None
    (Field.mk "sqlite:///Maji_Ndogo_farm_survey_small.db"
       "SELECT * FROM geographic_features"
       renames
       [(Str "cassaval", Str "cassava"); (Str "wheatn", Str "wheat");
        (Str "teaa", Str "tea")]
       "https://example.org/Weather_data_field_mapping.csv" None []).

Definition unparsable_table : DataFrame :=
  [("Weather_station_ID", [Str "A"; Str "A"]);
   ("Message", [Str "Station A reports temp: 22.5C"; Str "temp: .C"])].

(** The table the join returns, spelled out. *)
Definition joined (d meta : DataFrame) (lk rk : Series) : DataFrame :=
  filter (fun c => negb (String.eqb (fst c) "Unnamed: 0"))
    (map (fun c => (suffixed "Field_ID" "_x" meta (fst c),
                    take (snd c) (map fst (left_join_indexers lk rk)))) d
     ++ map (fun c => (suffixed "Field_ID" "_y" d (fst c),
                       take_or_null (snd c) (map snd (left_join_indexers lk rk))))
          (filter (fun c => negb (String.eqb (fst c) "Field_ID")) meta))%list.

(** [initialize_logging] once for each processor created, in order. *)
Definition initialize_all (upper : string -> string) (levels : list string)
    (lg : Logging.Logger) : Logging.Logger :=
  fold_left (fun l lvl => Logging.initialize_logging upper lvl l) levels lg.

(** [n] underscores. *)
Fixpoint underscores (n : nat) : string :=
  match n with
  | 0 => ""
  | S n' => "_" ++ underscores n'
  end.

(** * Properties *)
(** ** Column swap *)

Lemma while_in_columns_fresh (cols : list string) (t : string) :
  existsb (String.eqb (Field.while_in_columns cols t)) cols = false.
Proof.
  funelim (Field.while_in_columns cols t).
  - assumption.
  - assumption.
Qed.

Lemma while_in_columns_not_In (cols : list string) (t : string) :
  ~ In (Field.while_in_columns cols t) cols.
Proof.
  intros H. apply Field.existsb_eqb_In in H.
  rewrite while_in_columns_fresh in H. discriminate.
Qed.

Lemma rename_label_swap (a b t l : string) :
  l <> t -> a <> t ->
  rename_label (dict_set String.eqb [] t b)
    (rename_label (dict_set String.eqb (dict_set String.eqb [] a t) b a) l)
  = swap_label a b l.
Proof.
  intros Hl Ha. unfold swap_label, rename_label, dict_get_default. simpl.
  destruct (String.eqb_spec a b) as [->|Hab]; simpl.
  - destruct (String.eqb_spec b l) as [->|Hbl]; simpl.
    + rewrite String.eqb_refl.
      destruct (String.eqb_spec t l); congruence.
    + destruct (String.eqb_spec t l); [congruence|].
      destruct (String.eqb_spec l b); congruence.
  - destruct (String.eqb_spec a l) as [->|Hal]; simpl.
    + rewrite String.eqb_refl. rewrite String.eqb_refl. reflexivity.
    + destruct (String.eqb_spec l a); [congruence|].
      destruct (String.eqb_spec b l) as [->|Hbl]; simpl.
      * rewrite String.eqb_refl.
        destruct (String.eqb_spec t a); congruence.
      * destruct (String.eqb_spec l b); [congruence|].
        destruct (String.eqb_spec t l); congruence.
Qed.

Lemma rename_twice_relabel (d : DataFrame) (a b t : string) :
  In a (columns d) -> ~ In t (columns d) ->
  rename (rename d (dict_set String.eqb (dict_set String.eqb [] a t) b a))
         (dict_set String.eqb [] t b)
  = relabel (swap_label a b) d.
Proof.
  intros Ha Ht. unfold rename, relabel. rewrite map_map.
  apply map_ext_in. intros [l s] Hin. simpl. f_equal.
  apply rename_label_swap.
  - intros ->. apply Ht. apply (in_map fst) in Hin. exact Hin.
  - intros ->. contradiction.
Qed.

Lemma columns_named_relabel_swap (d : DataFrame) (a b : string) :
  columns_named (relabel (swap_label a b) d) a = columns_named d b.
Proof.
  unfold columns_named, relabel.
  induction d as [|[l s] d IH]; simpl; [reflexivity|].
  unfold swap_label at 1.
  destruct (String.eqb_spec l a) as [->|Hla].
  - destruct (String.eqb_spec a b) as [->|Hab].
    + rewrite String.eqb_refl. simpl. now rewrite IH.
    + destruct (String.eqb_spec b a); [congruence|]. exact IH.
  - destruct (String.eqb_spec l b) as [->|Hlb].
    + rewrite String.eqb_refl. simpl. now rewrite IH.
    + destruct (String.eqb_spec l a); [congruence|]. exact IH.
Qed.

Lemma swap_label_sym (a b l : string) : swap_label a b l = swap_label b a l.
Proof.
  unfold swap_label.
  destruct (String.eqb_spec l a), (String.eqb_spec l b); congruence.
Qed.

Lemma columns_named_relabel_other (d : DataFrame) (a b n : string) :
  n <> a -> n <> b ->
  columns_named (relabel (swap_label a b) d) n = columns_named d n.
Proof.
  intros Ha Hb. unfold columns_named, relabel.
  induction d as [|[l s] d IH]; simpl; [reflexivity|].
  unfold swap_label at 1.
  destruct (String.eqb_spec l a) as [->|Hla].
  - destruct (String.eqb_spec b n); [congruence|].
    destruct (String.eqb_spec a n); [congruence|]. exact IH.
  - destruct (String.eqb_spec l b) as [->|Hlb].
    + destruct (String.eqb_spec a n); [congruence|].
      destruct (String.eqb_spec b n); [congruence|]. exact IH.
    + destruct (String.eqb_spec l n); simpl; now rewrite IH.
Qed.

Lemma relabel_nth_error (f : string -> string) (d : DataFrame) (i : nat) :
  nth_error (relabel f d) i
  = option_map (fun c => (f (fst c), snd c)) (nth_error d i).
Proof. unfold relabel. apply nth_error_map. Qed.

(** What [rename_columns] does to a loaded table whose first directive names
    an existing column first. *)
Lemma rename_columns_relabels (st : Field.FieldDataProcessor) (d : DataFrame)
    (a b : string) (rest : dict string string) :
  Field.df st = Some d ->
  Field.columns_to_rename st = (a, b) :: rest ->
  In a (columns d) ->
  Field.rename_columns st
  = (Return tt,
     Field.log INFO ("Swapped columns: " ++ a ++ " with " ++ b)
       (Field.set_df st (Some (relabel (swap_label a b) d)))).
Proof.
  intros Hd Hc Ha. unfold Field.rename_columns. rewrite Hc, Hd.
  cbn [dict_keys dict_values map fst snd index0].
  rewrite rename_twice_relabel; [reflexivity | exact Ha |].
  apply while_in_columns_not_In.
Qed.

(** C1. On a table that has two distinct columns [a] and [b], with [(a, b)]
    the directive, [rename_columns] completes and exchanges the two: the
    columns labelled [a] afterwards hold what those labelled [b] held and
    the other way round, every column keeps its position and its data, and a
    column with any other label keeps its label too.  Nothing is assumed
    about the other labels, so columns named with the temporary marker may
    be present. *)
Theorem rename_columns_swaps (st : Field.FieldDataProcessor) (d : DataFrame)
    (a b : string) (rest : dict string string) :
  Field.df st = Some d ->
  Field.columns_to_rename st = (a, b) :: rest ->
  a <> b -> In a (columns d) -> In b (columns d) ->
  exists st' d',
    Field.rename_columns st = (Return tt, st') /\
    Field.df st' = Some d' /\
    columns_named d' a = columns_named d b /\
    columns_named d' b = columns_named d a /\
    map snd d' = map snd d /\
    (forall i l s, nth_error d i = Some (l, s) -> l <> a -> l <> b ->
                   nth_error d' i = Some (l, s)) /\
    (forall n, n <> a -> n <> b -> columns_named d' n = columns_named d n).
Proof.
  intros Hd Hc Hab Ha Hb.
  eexists. exists (relabel (swap_label a b) d).
  split; [apply (rename_columns_relabels st d a b rest Hd Hc Ha)|].
  split; [reflexivity|].
  split; [apply columns_named_relabel_swap|].
  split.
  { replace (relabel (swap_label a b) d) with (relabel (swap_label b a) d).
    - apply columns_named_relabel_swap.
    - unfold relabel. apply map_ext. intros c. now rewrite swap_label_sym. }
  split.
  { unfold relabel. rewrite map_map. reflexivity. }
  split.
  { intros i l s Hi Hla Hlb. rewrite relabel_nth_error, Hi. simpl.
    unfold swap_label.
    destruct (String.eqb_spec l a); [congruence|].
    destruct (String.eqb_spec l b); [congruence|]. reflexivity. }
  intros n Hna Hnb. now apply columns_named_relabel_other.
Qed.

Lemma rename_columns_swaps_witness :
  exists st' d',
    Field.rename_columns swap_processor = (Return tt, st') /\
    Field.df st' = Some d' /\
    columns_named d' "Annual_yield" = columns_named swap_table "Crop_type" /\
    columns_named d' "Crop_type" = columns_named swap_table "Annual_yield" /\
    map snd d' = map snd swap_table /\
    (forall i l s, nth_error swap_table i = Some (l, s) ->
                   l <> "Annual_yield" -> l <> "Crop_type" ->
                   nth_error d' i = Some (l, s)) /\
    (forall n, n <> "Annual_yield" -> n <> "Crop_type" ->
               columns_named d' n = columns_named swap_table n).
Proof.
  apply (rename_columns_swaps swap_processor swap_table
           "Annual_yield" "Crop_type" []).
  - reflexivity.
  - reflexivity.
  - discriminate.
  - simpl. auto.
  - simpl. auto.
Defined.

(** The table the swap leaves behind on [swap_table]: the third candidate
    for the temporary name is the first that is free. *)
Example rename_columns_swap_table :
  Field.df (snd (Field.rename_columns swap_processor))
  = Some [("Crop_type", [Str "cassava"; Str "tea"]);
          ("__temp_name_for_swap__", [Num 1; Num 2]);
          ("Annual_yield", [Num 0.5; Num 0.7]);
          ("__temp_name_for_swap___", [Null; Null])].
Proof. vm_compute. reflexivity. Qed.

(** C6. A directive that names a column the table does not have does not
    make [rename_columns] raise: it returns, and the name that was missing
    has become a label of the table. *)
Theorem rename_columns_missing_column_returns :
  Field.rename_columns
    (Field.mk "" "" [("Crop_type", "Annual_yield")] [] ""
       (Some [("Field_ID", [Num 1]); ("Crop_type", [Num 0.5])]) [])
  = (Return tt,
     Field.mk "" "" [("Crop_type", "Annual_yield")] [] ""
       (Some [("Field_ID", [Num 1]); ("Annual_yield", [Num 0.5])])
       [(INFO, "Swapped columns: Crop_type with Annual_yield")])
  /\
  Field.rename_columns
    (Field.mk "" "" [("Crop_type", "Annual_yield")] [] ""
       (Some [("Field_ID", [Num 1]); ("Annual_yield", [Str "tea"])]) [])
  = (Return tt,
     Field.mk "" "" [("Crop_type", "Annual_yield")] [] ""
       (Some [("Field_ID", [Num 1]); ("Crop_type", [Str "tea"])])
       [(INFO, "Swapped columns: Crop_type with Annual_yield")]).
Proof. split; vm_compute; reflexivity. Qed.

(** ** Corrections *)

Lemma getitem_setitem_same (d : DataFrame) (n : string) (s : Series) :
  getitem (setitem d n s) n = Return s.
Proof.
  unfold getitem. induction d as [|[l s'] d IH]; simpl.
  - now rewrite String.eqb_refl.
  - destruct (String.eqb l n) eqn:E; simpl; rewrite E; [reflexivity | exact IH].
Qed.

Lemma getitem_setitem_other (d : DataFrame) (n m : string) (s : Series) :
  n <> m -> getitem (setitem d n s) m = getitem d m.
Proof.
  intros Hnm. unfold getitem. induction d as [|[l s'] d IH]; simpl.
  - destruct (String.eqb_spec n m); [congruence | reflexivity].
  - destruct (String.eqb_spec l n) as [->|Hln]; simpl.
    + destruct (String.eqb_spec n m); [congruence | reflexivity].
    + destruct (String.eqb_spec l m); [reflexivity | exact IH].
Qed.

Lemma getitem_in_columns (d : DataFrame) (n : string) (s : Series) :
  getitem d n = Return s -> In n (columns d).
Proof.
  unfold getitem. induction d as [|[l s'] d IH]; simpl; [discriminate|].
  destruct (String.eqb_spec l n) as [->|Hln]; [auto|].
  intros H. right. now apply IH.
Qed.

Lemma columns_setitem (d : DataFrame) (n : string) (s : Series) :
  In n (columns d) -> columns (setitem d n s) = columns d.
Proof.
  induction d as [|[l s'] d IH]; simpl; [contradiction|].
  destruct (String.eqb_spec l n) as [->|Hln]; simpl; [reflexivity|].
  intros [H|H]; [congruence|]. f_equal. now apply IH.
Qed.


Lemma Series_abs_numeric (s : Series) :
  has_str s = false -> Series_abs s = Return (map cell_abs s).
Proof.
  induction s as [|c s IH]; simpl; [reflexivity|].
  destruct c; simpl; try discriminate; intros H; rewrite (IH H); reflexivity.
Qed.

Lemma Series_abs_text (s : Series) :
  has_str s = true -> exists msg, Series_abs s = Raise (TypeError msg).
Proof.
  unfold has_str. induction s as [|c s IH]; [discriminate|].
  cbn [existsb Series_abs]. destruct c as [q|t| |n]; cbn [abs_cell obind orb].
  - intros H. destruct (IH H) as [msg ->]. eexists. reflexivity.
  - intros _. eexists. reflexivity.
  - intros H. destruct (IH H) as [msg ->]. eexists. reflexivity.
  - intros H. destruct (IH H) as [msg ->]. eexists. reflexivity.
Qed.

Lemma has_str_map_cell_abs (s : Series) :
  has_str (map cell_abs s) = has_str s.
Proof.
  unfold has_str. induction s as [|c s IH]; [reflexivity|].
  cbn [map existsb]. rewrite IH. destruct c; reflexivity.
Qed.

Lemma Qabs_idem (q : Q) : Qabs (Qabs q) = Qabs q.
Proof. destruct q as [n d]. simpl. now rewrite Z.abs_idemp. Qed.

Lemma Qabs_nonneg_same (q : Q) : (0 <= q)%Q -> Qabs q = q.
Proof.
  destruct q as [n d]. unfold Qle. simpl. intros H.
  rewrite Z.abs_eq; [reflexivity | lia].
Qed.

Lemma cell_abs_idem (c : Cell) : cell_abs (cell_abs c) = cell_abs c.
Proof. destruct c; simpl; try reflexivity. now rewrite Qabs_idem. Qed.

(** What [apply_corrections] does when both columns are there and the
    elevations hold no text. *)
Lemma apply_corrections_returns (cn ac : string) (st : Field.FieldDataProcessor)
    (d : DataFrame) (elevation crop : Series) :
  Field.df st = Some d ->
  getitem d "Elevation" = Return elevation ->
  getitem d "Crop_type" = Return crop ->
  has_str elevation = false ->
  Field.apply_corrections cn ac st
  = (Return tt,
     Field.set_df st
       (Some (setitem (setitem d "Elevation" (map cell_abs elevation)) "Crop_type"
                (map (fun c => dict_get_default cell_eqb (Field.values_to_rename st) c c)
                     crop)))).
Proof.
  intros Hd He Hc Hs. unfold Field.apply_corrections. rewrite Hd, He.
  cbn [obind]. rewrite (Series_abs_numeric _ Hs).
  rewrite getitem_setitem_other by discriminate. rewrite Hc. reflexivity.
Qed.

Lemma same_cell_eqb (a b : Cell) : same_cell a b = cell_eqb a b.
Proof.
  destruct a as [x|s| |[]], b as [y|t| |[]]; simpl; try reflexivity.
  - destruct (Qeq_bool x y) eqn:E.
    + apply Qeq_bool_iff in E. apply Qeq_alt in E. now rewrite E.
    + destruct (x ?= y)%Q eqn:C; try reflexivity.
      apply Qeq_alt in C. apply Qeq_bool_iff in C. congruence.
  - destruct (string_dec s t) as [->|Hn].
    + now rewrite String.eqb_refl.
    + symmetry. now apply String.eqb_neq.
Qed.

Lemma no_text_has_str (s : Series) :
  (forall t, ~ In (Str t) s) -> has_str s = false.
Proof.
  unfold has_str. induction s as [|c s IH]; [reflexivity|].
  intros H. cbn [existsb]. rewrite IH.
  - destruct c; try reflexivity. exfalso. apply (H s0). now left.
  - intros t Ht. apply (H t). now right.
Qed.

Lemma text_has_str (s : Series) (t : string) :
  In (Str t) s -> has_str s = true.
Proof.
  unfold has_str. intros H. apply existsb_exists. exists (Str t). now split.
Qed.

Lemma Qabs_nonpos_opp (q : Q) : (q <= 0)%Q -> Qabs q = (- q)%Q.
Proof.
  destruct q as [n d]. unfold Qle, Qopp. simpl. intros H.
  rewrite Z.abs_neq; [reflexivity | lia].
Qed.

Lemma dict_get_default_renamed (m : dict Cell Cell) (x : Cell) :
  renamed m x (dict_get_default cell_eqb m x x).
Proof.
  unfold dict_get_default.
  induction m as [|[k v] m IH]; simpl.
  - right. split; [reflexivity|]. intros e [].
  - destruct (cell_eqb k x) eqn:E.
    + left. exists [], k, m. split; [reflexivity|].
      split; [now rewrite same_cell_eqb|]. intros e [].
    + destruct IH as [(pre & k' & post & Hm & Hk & Hpre) | [Hy Hall]].
      * left. exists ((k, v) :: pre), k', post.
        split; [simpl; f_equal; exact Hm|]. split; [exact Hk|].
        intros e [<-|He]; [simpl; now rewrite same_cell_eqb | now apply Hpre].
      * right. split; [exact Hy|].
        intros e [<-|He]; [simpl; now rewrite same_cell_eqb | now apply Hall].
Qed.

(** C5. On a table with an 'Elevation' column and a 'Crop_type' column:
    when no elevation is a text, [apply_corrections] returns; every
    elevation that was a number is then its absolute value, so one that was
    zero or positive is unchanged and one that was negative has changed
    sign, an infinite one is the positive infinity, a null one is still
    null; every crop type is replaced by the value of the first entry of the
    value-rename map that has it as key, and is left as it was when no entry
    has; and a second run leaves the elevations as the first run made them.
    When some elevation is a text, the call raises TypeError and the
    processor is as it was. *)
Theorem apply_corrections_normalizes (cn ac : string)
    (st : Field.FieldDataProcessor) (d : DataFrame) (elevation crop : Series) :
  Field.df st = Some d ->
  getitem d "Elevation" = Return elevation ->
  getitem d "Crop_type" = Return crop ->
  ((forall t, ~ In (Str t) elevation) ->
   exists st1 d1 elevation1 crop1,
     Field.apply_corrections cn ac st = (Return tt, st1) /\
     Field.df st1 = Some d1 /\
     getitem d1 "Elevation" = Return elevation1 /\
     getitem d1 "Crop_type" = Return crop1 /\
     Forall2 (fun x y =>
                match x with
                | Num q => y = Num (Qabs q) /\
                           ((0 <= q)%Q -> y = x) /\
                           ((q <= 0)%Q -> y = Num (- q))
                | Inf _ => y = Inf false
                | _ => y = x
                end) elevation elevation1 /\
     Forall2 (renamed (Field.values_to_rename st)) crop crop1 /\
     exists st2 d2,
       Field.apply_corrections cn ac st1 = (Return tt, st2) /\
       Field.df st2 = Some d2 /\
       getitem d2 "Elevation" = Return elevation1) /\
  ((exists t, In (Str t) elevation) ->
   exists msg, Field.apply_corrections cn ac st = (Raise (TypeError msg), st)).
Proof.
  intros Hd He Hc. split.
  - intros Hno. pose proof (no_text_has_str _ Hno) as Hs.
    pose proof (apply_corrections_returns cn ac st d elevation crop Hd He Hc Hs) as H1.
    set (crop1 := map (fun c => dict_get_default cell_eqb (Field.values_to_rename st) c c)
                      crop) in *.
    set (d1 := setitem (setitem d "Elevation" (map cell_abs elevation)) "Crop_type" crop1)
      in *.
    assert (He1 : getitem d1 "Elevation" = Return (map cell_abs elevation)).
    { unfold d1. rewrite getitem_setitem_other by discriminate.
      apply getitem_setitem_same. }
    assert (Hc1 : getitem d1 "Crop_type" = Return crop1).
    { unfold d1. apply getitem_setitem_same. }
    exists (Field.set_df st (Some d1)), d1, (map cell_abs elevation), crop1.
    split; [exact H1|]. split; [reflexivity|].
    split; [exact He1|]. split; [exact Hc1|].
    split.
    { clear. induction elevation as [|x s IH]; simpl; constructor; [|exact IH].
      destruct x as [q|t| |n]; simpl; try reflexivity.
      split; [reflexivity|]. split; intros Hq.
      - now rewrite Qabs_nonneg_same.
      - now rewrite Qabs_nonpos_opp. }
    split.
    { unfold crop1. clear. induction crop as [|x s IH]; simpl; constructor; [|exact IH].
      apply dict_get_default_renamed. }
    pose proof (apply_corrections_returns cn ac (Field.set_df st (Some d1)) d1
                  (map cell_abs elevation) crop1 eq_refl He1 Hc1) as H2.
    rewrite has_str_map_cell_abs in H2. specialize (H2 Hs).
    eexists. eexists. split; [exact H2|]. split; [reflexivity|].
    rewrite getitem_setitem_other by discriminate.
    rewrite getitem_setitem_same. f_equal.
    rewrite map_map. apply map_ext. intros c. apply cell_abs_idem.
  - intros [t Ht]. pose proof (text_has_str _ _ Ht) as Hs.
    unfold Field.apply_corrections. rewrite Hd, He. cbn [obind].
    destruct (Series_abs_text _ Hs) as [msg ->]. exists msg. reflexivity.
Qed.

Lemma apply_corrections_normalizes_witness :
  (exists st1 d1 elevation1 crop1,
     Field.apply_corrections "Crop_type" "Elevation" survey_processor
       = (Return tt, st1) /\
     Field.df st1 = Some d1 /\
     getitem d1 "Elevation" = Return elevation1 /\
     getitem d1 "Crop_type" = Return crop1 /\
     Forall2 (fun x y =>
                match x with
                | Num q => y = Num (Qabs q) /\
                           ((0 <= q)%Q -> y = x) /\
                           ((q <= 0)%Q -> y = Num (- q))
                | Inf _ => y = Inf false
                | _ => y = x
                end) [Num (-786.0558); Num 0; Num 201.3; Null] elevation1 /\
     Forall2 (renamed (Field.values_to_rename survey_processor))
       [Str "cassaval"; Str "tea"; Str "wheatn"; Str "cassava "] crop1 /\
     exists st2 d2,
       Field.apply_corrections "Crop_type" "Elevation" st1 = (Return tt, st2) /\
       Field.df st2 = Some d2 /\
       getitem d2 "Elevation" = Return elevation1).
Proof.
  apply (apply_corrections_normalizes "Crop_type" "Elevation"
           survey_processor survey_table
           [Num (-786.0558); Num 0; Num 201.3; Null]
           [Str "cassaval"; Str "tea"; Str "wheatn"; Str "cassava "]
           eq_refl eq_refl eq_refl).
  intros t [H|[H|[H|[H|[]]]]]; discriminate H.
Defined.

(** C5, with a text among the elevations: the table has both columns, yet
    [apply_corrections] raises TypeError, and the elevations are not made
    absolute nor the crop types replaced. *)
Lemma apply_corrections_text_elevation_unchanged :
  getitem text_elevation_table "Elevation" = Return [Num (-3); Str "n/a"] /\
  getitem text_elevation_table "Crop_type" = Return [Str "cassaval"; Str "tea"] /\
  Field.values_to_rename text_elevation_processor
  = [(Str "cassaval", Str "cassava")] /\
  fst (Field.apply_corrections "Crop_type" "Elevation" text_elevation_processor)
  = Raise (TypeError "bad operand type for abs(): 'str'") /\
  Field.df (snd (Field.apply_corrections "Crop_type" "Elevation"
                   text_elevation_processor))
  = Some text_elevation_table.
Proof. repeat split. Qed.

Example apply_corrections_survey_table :
  Field.df (snd (Field.apply_corrections "Crop_type" "Elevation" survey_processor))
  = Some [("Field_ID", [Num 1; Num 2; Num 3; Num 4]);
          ("Elevation", [Num 786.0558; Num 0; Num 201.3; Null]);
          ("Crop_type", [Str "cassava"; Str "tea"; Str "wheat"; Str "cassava "]);
          ("Rainfall", [Num (-3); Num 2; Num 5; Num 7])].
Proof. vm_compute. reflexivity. Qed.



(** ** Queries *)

(** C9. A query whose result has no rows makes [query_data] raise (a
    ValueError, from whichever of the two axes is empty); a query whose
    result has rows gets that result back. *)
Theorem query_data_empty_result_raises (d : DataFrame) :
  fst (DataIngestion.query_data (Return d))
  = if Nat.eqb (nrows d) 0
    then Raise (ValueError "The query returned an empty DataFrame.")
    else Return d.
Proof.
  unfold DataIngestion.query_data, df_empty.
  destruct d as [|[l s] d]; simpl; [reflexivity|].
  destruct (Nat.eqb (List.length s) 0); reflexivity.
Qed.

Example query_data_empty_table :
  DataIngestion.query_data (Return [("Field_ID", []); ("Elevation", [])])
  = (Raise (ValueError "The query returned an empty DataFrame."),
     [(ERROR, "The query returned an empty DataFrame.");
      (ERROR, "SQL query failed. Error: The query returned an empty DataFrame.")]).
Proof. reflexivity. Qed.

(** ** The weather pipeline before it is loaded or processed *)

(** C8. With no table loaded, [process_messages] and [calculate_means]
    both return [None] without raising; each sends one warning to the logger
    and changes nothing else of the processor. *)
Theorem uninitialized_pipeline_warns
    (re_search : string -> Cell -> Weather.re_result) (float : string -> option Float)
    (mean : list Float -> Float) (st : Weather.WeatherDataProcessor) :
  Weather.weather_df st = None ->
  exists st1 st2,
    Weather.process_messages re_search float st = (Return None, st1) /\
    Weather.calculate_means mean st = (Return None, st2) /\
    Weather.logger st1
      = (Weather.logger st
           ++ [(WARNING, "weather_df is not initialized, skipping message processing.")])%list /\
    Weather.logger st2
      = (Weather.logger st
           ++ [(WARNING, "weather_df is not initialized, cannot calculate means.")])%list /\
    Weather.weather_df st1 = None /\ Weather.weather_df st2 = None /\
    Weather.patterns st1 = Weather.patterns st /\
    Weather.patterns st2 = Weather.patterns st /\
    Weather.weather_station_data st1 = Weather.weather_station_data st /\
    Weather.weather_station_data st2 = Weather.weather_station_data st.
Proof.
  intros H. unfold Weather.process_messages, Weather.calculate_means. rewrite H.
  eexists. eexists. split; [reflexivity|]. split; [reflexivity|].
  simpl. rewrite H. repeat split; reflexivity.
Qed.

Lemma uninitialized_pipeline_warns_witness :
  exists st1 st2,
    Weather.process_messages no_regex no_float fresh_weather_processor
      = (Return None, st1) /\
    Weather.calculate_means sample_mean fresh_weather_processor = (Return None, st2) /\
    Weather.logger st1
      = [(WARNING, "weather_df is not initialized, skipping message processing.")] /\
    Weather.logger st2
      = [(WARNING, "weather_df is not initialized, cannot calculate means.")] /\
    Weather.weather_df st1 = None /\ Weather.weather_df st2 = None /\
    Weather.patterns st1 = Weather.patterns fresh_weather_processor /\
    Weather.patterns st2 = Weather.patterns fresh_weather_processor /\
    Weather.weather_station_data st1
      = Weather.weather_station_data fresh_weather_processor /\
    Weather.weather_station_data st2
      = Weather.weather_station_data fresh_weather_processor.
Proof.
  apply (uninitialized_pipeline_warns no_regex no_float sample_mean
           fresh_weather_processor).
  reflexivity.
Defined.

Lemma getitem_missing (d : DataFrame) (n : string) :
  ~ In n (columns d) -> getitem d n = Raise (KeyError n).
Proof.
  unfold getitem. induction d as [|[l s] d IH]; simpl; [reflexivity|].
  intros H. destruct (String.eqb_spec l n) as [->|Hln]; [tauto|].
  apply IH. tauto.
Qed.

Lemma getitem_present (d : DataFrame) (n : string) :
  In n (columns d) -> exists s, getitem d n = Return s.
Proof.
  unfold getitem. induction d as [|[l s] d IH]; simpl; [contradiction|].
  intros H. destruct (String.eqb_spec l n) as [->|Hln]; [eauto|].
  apply IH. destruct H; [congruence | assumption].
Qed.

(** C10. With a table loaded that has no 'Measurement' column (the state
    before [process_messages]), [calculate_means] raises a KeyError for the
    first grouping column that is missing; it logs nothing and the processor
    is as it was: the warning path is taken for an unloaded table only. *)
Theorem calculate_means_unprocessed_raises (mean : list Float -> Float)
    (st : Weather.WeatherDataProcessor) (d : DataFrame) :
  Weather.weather_df st = Some d ->
  ~ In "Measurement" (columns d) ->
  Weather.calculate_means mean st
  = (Raise (KeyError (if in_columns "Weather_station_ID" d
                      then "Measurement" else "Weather_station_ID")),
     st).
Proof.
  intros Hd Hm. unfold Weather.calculate_means, groupby_mean. rewrite Hd.
  destruct (in_columns "Weather_station_ID" d) eqn:E; unfold in_columns in E.
  - apply Field.existsb_eqb_In in E.
    destruct (getitem_present _ _ E) as [s Hs]. rewrite Hs. cbn [obind].
    rewrite (getitem_missing _ _ Hm). reflexivity.
  - assert (Hn : ~ In "Weather_station_ID" (columns d)).
    { intros H. apply Field.existsb_eqb_In in H. congruence. }
    rewrite (getitem_missing _ _ Hn). reflexivity.
Qed.

Lemma calculate_means_unprocessed_raises_witness :
  Weather.calculate_means sample_mean loaded_weather_processor
  = (Raise (KeyError "Measurement"), loaded_weather_processor).
Proof.
  apply (calculate_means_unprocessed_raises sample_mean loaded_weather_processor
           loaded_table).
  - reflexivity.
  - simpl. intros [H|[H|H]]; [discriminate | discriminate | exact H].
Defined.

(** ** Measurement extraction *)

Section ExtractProperties.
Variable re_search : string -> Cell -> Weather.re_result.
Variable float : string -> option Float.

Lemma extract_loop_skips (pre items : list (string * string)) (message : Cell)
    (logs : list LogRecord) :
  (forall kp, In kp pre -> re_search (snd kp) message = Weather.ReNoMatch) ->
  Weather.extract_loop re_search float (pre ++ items)%list message logs
  = Weather.extract_loop re_search float items message logs.
Proof.
  induction pre as [|[k p] pre IH]; intros H; [reflexivity|].
  pose proof (H (k, p) (or_introl eq_refl)) as Hk. simpl in Hk.
  simpl. rewrite Hk. apply IH.
  intros kp Hin. apply H. now right.
Qed.

Lemma next_not_None_first (n : nat) (x : string) (rest : list (option string)) :
  Weather.next_not_None (repeat None n ++ Some x :: rest)%list = Return x.
Proof. induction n as [|n IH]; simpl; [reflexivity | exact IH]. Qed.

Lemma next_not_None_absent (n : nat) :
  Weather.next_not_None (repeat None n) = Raise StopIteration.
Proof. induction n as [|n IH]; simpl; [reflexivity | exact IH]. Qed.

Lemma fst_extract_measurement (message : Cell) (st : Weather.WeatherDataProcessor) :
  fst (Weather.extract_measurement re_search float message st)
  = fst (Weather.extract_loop re_search float (Weather.patterns st) message
           (Weather.logger st)).
Proof.
  unfold Weather.extract_measurement.
  destruct (Weather.extract_loop _ _ _ _ _). reflexivity.
Qed.

(** C2 (amended). Let the rules before [(kind, pattern)] find no match in
    the message and let [pattern] match with groups [groups].  If the first
    group that is not [None] is [x] and [float x] is [v], the result is
    [(kind, v)]; if [float] rejects [x] the call raises ValueError; if every
    group is [None] (or there is none) it raises StopIteration.  In no case
    is a later rule tried.  If no rule matches, the result is
    [(None, None)]. *)
Theorem extract_measurement_first_match (st : Weather.WeatherDataProcessor)
    (m : string) :
  (forall pre kind pattern post groups,
     Weather.patterns st = (pre ++ (kind, pattern) :: post)%list ->
     (forall kp, In kp pre -> re_search (snd kp) (Str m) = Weather.ReNoMatch) ->
     re_search pattern (Str m) = Weather.ReMatch groups ->
     (forall n x rest v,
        groups = (repeat None n ++ Some x :: rest)%list -> float x = Some v ->
        fst (Weather.extract_measurement re_search float (Str m) st)
        = Return (Some kind, Some v)) /\
     (forall n x rest,
        groups = (repeat None n ++ Some x :: rest)%list -> float x = None ->
        exists msg,
          fst (Weather.extract_measurement re_search float (Str m) st)
          = Raise (ValueError msg)) /\
     (forall n,
        groups = repeat None n ->
        fst (Weather.extract_measurement re_search float (Str m) st)
        = Raise StopIteration)) /\
  ((forall kp, In kp (Weather.patterns st) ->
               re_search (snd kp) (Str m) = Weather.ReNoMatch) ->
   fst (Weather.extract_measurement re_search float (Str m) st)
   = Return (None, None)).
Proof.
  split.
  - intros pre kind pattern post groups Hp Hpre Hm.
    rewrite fst_extract_measurement, Hp, (extract_loop_skips _ _ _ _ Hpre).
    simpl. rewrite Hm. cbn [fst].
    repeat split.
    + intros n x rest v -> Hv. rewrite next_not_None_first. cbn [obind].
      unfold Weather.to_float. rewrite Hv. reflexivity.
    + intros n x rest -> Hv. rewrite next_not_None_first. cbn [obind].
      unfold Weather.to_float. rewrite Hv. eexists. reflexivity.
    + intros n ->. rewrite next_not_None_absent. reflexivity.
  - intros H. rewrite fst_extract_measurement.
    rewrite <- (app_nil_r (Weather.patterns st)).
    rewrite (extract_loop_skips _ _ _ _ H). reflexivity.
Qed.
End ExtractProperties.

Lemma extract_measurement_first_match_witness :
  fst (Weather.extract_measurement sample_re_search sample_float
         (Str "rain: 12 millimetres") (scenario_processor None))
    = Return (Some "rain", Some (Finite 12)) /\
  fst (Weather.extract_measurement sample_re_search sample_float
         (Str "no reading today") (scenario_processor None))
    = Return (None, None).
Proof.
  split.
  - destruct (extract_measurement_first_match sample_re_search sample_float
                (scenario_processor None) "rain: 12 millimetres") as [H _].
    destruct (H [("temp", "temp: ([\d.]+)C"); ("humidity", "humidity: (\d+)%")]
                "rain" "(\d+)mm|(\d+) millimetres" [] [None; Some "12"])
      as [Hv _].
    + reflexivity.
    + intros kp [<-|[<-|[]]]; reflexivity.
    + reflexivity.
    + apply (Hv 1 "12" [] (Finite 12)); reflexivity.
  - destruct (extract_measurement_first_match sample_re_search sample_float
                (scenario_processor None) "no reading today") as [_ H].
    apply H. intros kp [<-|[<-|[<-|[]]]]; reflexivity.
Defined.

(** C2 as it was stated fails where the capture is not a number: the pattern
    matches, and the call raises instead of returning a kind and a value. *)
Lemma extract_measurement_unparsable_capture :
  sample_re_search "temp: ([\d.]+)C" (Str "temp: .C") = Weather.ReMatch [Some "."] /\
  fst (Weather.extract_measurement sample_re_search sample_float
         (Str "temp: .C") (scenario_processor None))
  = Raise (ValueError "could not convert string to float: '.'").
Proof. split; reflexivity. Qed.

(** ** Left join *)

Lemma matches_from_length (j : nat) (rk : Series) (c : Cell) :
  List.length (matches_from j rk c) = match_count rk c.
Proof.
  unfold match_count. revert j.
  induction rk as [|x rk IH]; intros j; simpl; [reflexivity|].
  destruct (cell_eqb x c); simpl; now rewrite IH.
Qed.

Lemma list_sum_cons (a : nat) (l : list nat) : list_sum (a :: l) = a + list_sum l.
Proof. reflexivity. Qed.

Lemma left_join_from_length (i : nat) (lk rk : Series) :
  List.length (left_join_from i lk rk)
  = list_sum (map (fun c => Nat.max 1 (match_count rk c)) lk).
Proof.
  revert i. induction lk as [|c lk IH]; intros i; [reflexivity|].
  cbn [left_join_from map list_sum]. rewrite length_app, IH.
  pose proof (matches_from_length 0 rk c) as Hl.
  destruct (matches_from 0 rk c) as [|j js].
  - rewrite <- Hl. reflexivity.
  - rewrite <- Hl. unfold list_sum. cbn [fold_right List.length].
    rewrite length_map. lia.
Qed.

Lemma list_sum_max1_ge (rk lk : Series) :
  List.length lk <= list_sum (map (fun c => Nat.max 1 (match_count rk c)) lk).
Proof.
  induction lk as [|c lk IH]; [simpl; lia|].
  cbn [map List.length]. rewrite list_sum_cons. lia.
Qed.

Lemma list_sum_max1_unique (rk lk : Series) :
  (forall c, In c lk -> match_count rk c <= 1) ->
  list_sum (map (fun c => Nat.max 1 (match_count rk c)) lk) = List.length lk.
Proof.
  induction lk as [|c lk IH]; intros H; [reflexivity|].
  cbn [map List.length]. rewrite list_sum_cons.
  rewrite IH by (intros; apply H; now right).
  specialize (H c (or_introl eq_refl)). lia.
Qed.

(** Every row of the join comes from a left row, and a left row whose key
    matches nothing comes without a right row. *)
Lemma left_join_from_rows (i : nat) (lk rk : Series) :
  Forall (fun e => exists c, nth_error lk (fst e - i) = Some c /\ i <= fst e /\
                             (match_count rk c = 0 -> snd e = None))
         (left_join_from i lk rk).
Proof.
  revert i. induction lk as [|c lk IH]; intros i; [constructor|].
  cbn [left_join_from]. apply Forall_app. split.
  - pose proof (matches_from_length 0 rk c) as Hl.
    destruct (matches_from 0 rk c) as [|j js].
    + constructor; [|constructor]. exists c. cbn [fst snd].
      rewrite Nat.sub_diag. auto.
    + apply Forall_forall. intros e He. apply in_map_iff in He.
      destruct He as [j' [<- _]]. exists c. cbn [fst snd].
      rewrite Nat.sub_diag. repeat split; auto.
      intros H0. rewrite <- Hl in H0. discriminate.
  - specialize (IH (S i)). eapply Forall_impl; [|exact IH].
    intros e [c' [H1 [H2 H3]]]. exists c'. repeat split; [|lia|exact H3].
    replace (fst e - i) with (S (fst e - S i)) by lia. exact H1.
Qed.

Lemma suffix_x_not_key (l : string) : l ++ "_x" <> "Field_ID".
Proof.
  destruct l as [|a1 [|a2 [|a3 [|a4 [|a5 [|a6 [|a7 l]]]]]]]; simpl; intros H;
    try discriminate H.
  apply (f_equal String.length) in H. simpl in H.
  rewrite Field.length_append in H. simpl in H. lia.
Qed.

Lemma getitem_app_left (d1 d2 : DataFrame) (n : string) (s : Series) :
  getitem d1 n = Return s -> getitem (d1 ++ d2)%list n = Return s.
Proof.
  unfold getitem. induction d1 as [|[l s'] d1 IH]; simpl; [discriminate|].
  destruct (String.eqb l n); [auto | exact IH].
Qed.

Lemma getitem_filter_other (d : DataFrame) (n m : string) :
  n <> m ->
  getitem (filter (fun c => negb (String.eqb (fst c) m)) d) n = getitem d n.
Proof.
  intros Hnm. unfold getitem. induction d as [|[l s] d IH]; simpl; [reflexivity|].
  destruct (String.eqb_spec l m) as [->|Hlm]; simpl.
  - destruct (String.eqb_spec m n); [congruence | exact IH].
  - destruct (String.eqb l n); [reflexivity | exact IH].
Qed.

Lemma suffixed_x_is_key (meta : DataFrame) (l : string) :
  String.eqb (suffixed "Field_ID" "_x" meta l) "Field_ID" = String.eqb l "Field_ID".
Proof.
  unfold suffixed.
  destruct (String.eqb_spec l "Field_ID") as [->|Hl]; [reflexivity|].
  cbn [negb andb]. destruct (has_label l meta).
  - destruct (String.eqb_spec (l ++ "_x") "Field_ID") as [E|_]; [|reflexivity].
    now apply suffix_x_not_key in E.
  - destruct (String.eqb_spec l "Field_ID"); [contradiction | reflexivity].
Qed.

(** The key column of the left part of a merge. *)
Lemma getitem_merged_key (d meta : DataFrame) (lk : Series) (ix : list nat) :
  getitem d "Field_ID" = Return lk ->
  getitem (map (fun c => (suffixed "Field_ID" "_x" meta (fst c), take (snd c) ix)) d)
          "Field_ID"
  = Return (take lk ix).
Proof.
  unfold getitem. induction d as [|[l s] d IH]; cbn [map find fst snd];
    [discriminate|].
  rewrite suffixed_x_is_key.
  destruct (String.eqb l "Field_ID").
  - intros H. injection H as ->. reflexivity.
  - exact IH.
Qed.

Lemma nrows_all_length (d : DataFrame) (n : nat) (name : string) (s : Series) :
  Forall (fun c => List.length (snd c) = n) d ->
  getitem d name = Return s ->
  nrows d = n.
Proof.
  intros Hall Hg. destruct d as [|[l s'] d]; [discriminate|].
  simpl. inversion Hall; subst. reflexivity.
Qed.

Lemma suffixed_absent (key suffix l : string) (other : DataFrame) :
  ~ In l (columns other) -> suffixed key suffix other l = l.
Proof.
  intros H. unfold suffixed, has_label.
  replace (existsb (String.eqb l) (columns other)) with false.
  - now rewrite andb_false_r.
  - symmetry. destruct (existsb (String.eqb l) (columns other)) eqn:E;
      [|reflexivity].
    apply Field.existsb_eqb_In in E. contradiction.
Qed.

Lemma getitem_length (d : DataFrame) (name : string) (s : Series) (n : nat) :
  Forall (fun c => List.length (snd c) = n) d ->
  getitem d name = Return s ->
  List.length s = n.
Proof.
  intros Hall. unfold getitem.
  destruct (find (fun c => String.eqb (fst c) name) d) as [c|] eqn:E;
    [|discriminate].
  intros H. injection H as <-. apply find_some in E.
  rewrite Forall_forall in Hall. apply Hall. tauto.
Qed.

Lemma map_filter_fst {A B} (p : A -> bool) (l : list (A * B)) :
  map fst (filter (fun c => p (fst c)) l) = filter p (map fst l).
Proof.
  induction l as [|c l IH]; simpl; [reflexivity|].
  destruct (p (fst c)); simpl; now rewrite IH.
Qed.

(** C4 (amended). With a field table and a metadata table that both have a
    'Field_ID' column, the artifact column 'Unnamed: 0' in the metadata only,
    [weather_station_mapping] returns the join: each field row appears once
    for every metadata row with its key, and once when there is none.  So the
    join has at least the rows of the field table, and exactly as many when
    no key of the field table occurs twice in the metadata.  In a row whose
    key has no metadata row, every metadata column is null. *)
Theorem weather_station_mapping_left_join
    (web : string -> outcome DataFrame) (st : Field.FieldDataProcessor)
    (d meta : DataFrame) (lk rk : Series) :
  Field.df st = Some d ->
  web (Field.weather_map_data st) = Return meta ->
  Forall (fun c => List.length (snd c) = nrows d) d ->
  getitem d "Field_ID" = Return lk ->
  getitem meta "Field_ID" = Return rk ->
  In "Unnamed: 0" (columns meta) ->
  ~ In "Unnamed: 0" (columns d) ->
  exists d' key' field_part meta_part,
    Field.weather_station_mapping web st = (Return d', Field.set_df st (Some d')) /\
    nrows d' = list_sum (map (fun c => Nat.max 1 (match_count rk c)) lk) /\
    nrows d <= nrows d' /\
    ((forall c, In c lk -> match_count rk c <= 1) -> nrows d' = nrows d) /\
    d' = (field_part ++ meta_part)%list /\
    columns meta_part
      = filter (fun l => negb (String.eqb l "Unnamed: 0"))
          (map (suffixed "Field_ID" "_y" d)
               (filter (fun l => negb (String.eqb l "Field_ID")) (columns meta))) /\
    getitem d' "Field_ID" = Return key' /\
    (forall r c, nth_error key' r = Some c -> match_count rk c = 0 ->
       forall col, In col meta_part -> nth_error (snd col) r = Some Null).
Proof.
  intros Hd Hweb Hall Hlk Hrk Hum Hud.
  unfold Field.weather_station_mapping. rewrite Hweb, Hd.
  cbn [DataIngestion.read_from_web_CSV fst].
  unfold merge_left. rewrite Hrk, Hlk. cbn [obind].
  set (ix := left_join_indexers lk rk).
  set (lcols := map (fun c => (suffixed "Field_ID" "_x" meta (fst c),
                               take (snd c) (map fst ix))) d).
  set (rcols := map (fun c => (suffixed "Field_ID" "_y" d (fst c),
                               take_or_null (snd c) (map snd ix)))
                    (filter (fun c => negb (String.eqb (fst c) "Field_ID")) meta)).
  assert (Hdrop : in_columns "Unnamed: 0" (lcols ++ rcols)%list = true).
  { unfold in_columns, columns. apply Field.existsb_eqb_In.
    rewrite map_app. apply in_or_app. right. unfold rcols. rewrite map_map.
    cbn [fst]. apply in_map_iff in Hum. destruct Hum as [[l s] [Hl Hin]].
    simpl in Hl. subst l. apply in_map_iff. exists ("Unnamed: 0", s). split.
    - cbn [fst]. apply suffixed_absent. exact Hud.
    - apply filter_In. split; [exact Hin | reflexivity]. }
  unfold drop. rewrite Hdrop. rewrite filter_app.
  set (keep := fun c : string * Series => negb (String.eqb (fst c) "Unnamed: 0")).
  assert (Hkey : getitem (filter keep lcols ++ filter keep rcols)%list "Field_ID"
                 = Return (take lk (map fst ix))).
  { apply getitem_app_left. unfold keep.
    rewrite getitem_filter_other by discriminate.
    apply getitem_merged_key. exact Hlk. }
  assert (Hlen : Forall (fun c => List.length (snd c) = List.length ix)
                        (filter keep lcols ++ filter keep rcols)%list).
  { apply Forall_app. split; apply Forall_forall; intros c Hc;
      apply filter_In in Hc; destruct Hc as [Hc _]; apply in_map_iff in Hc;
      destruct Hc as [c0 [<- _]]; cbn [snd]; unfold take, take_or_null;
      now rewrite !length_map. }
  assert (Hrows : nrows (filter keep lcols ++ filter keep rcols)%list
                  = list_sum (map (fun c => Nat.max 1 (match_count rk c)) lk)).
  { rewrite (nrows_all_length _ _ _ _ Hlen Hkey).
    apply left_join_from_length. }
  assert (Hnd : nrows d = List.length lk).
  { symmetry. apply (getitem_length d "Field_ID" lk (nrows d) Hall Hlk). }
  exists (filter keep lcols ++ filter keep rcols)%list, (take lk (map fst ix)),
         (filter keep lcols), (filter keep rcols).
  split; [reflexivity|]. split; [exact Hrows|].
  split; [rewrite Hrows, Hnd; apply list_sum_max1_ge|].
  split; [intros Hu; rewrite Hrows, Hnd; now apply list_sum_max1_unique|].
  split; [reflexivity|].
  split.
  { unfold rcols, keep, columns.
    rewrite (map_filter_fst (fun l => negb (String.eqb l "Unnamed: 0"))).
    rewrite map_map. cbn [fst].
    rewrite <- (map_map fst (suffixed "Field_ID" "_y" d)).
    now rewrite (map_filter_fst (fun l => negb (String.eqb l "Field_ID"))). }
  split; [exact Hkey|].
  intros r c Hr Hc col Hcol.
  apply filter_In in Hcol. destruct Hcol as [Hcol _].
  apply in_map_iff in Hcol. destruct Hcol as [c0 [<- _]]. cbn [snd].
  unfold take in Hr. unfold take_or_null.
  rewrite !nth_error_map in *.
  destruct (nth_error ix r) as [e|] eqn:He; [|discriminate].
  cbn [option_map] in *. injection Hr as Hr.
  pose proof (left_join_from_rows 0 lk rk) as Hf.
  rewrite Forall_forall in Hf. apply nth_error_In in He.
  destruct (Hf e He) as [c' [H1 [_ H3]]].
  rewrite Nat.sub_0_r in H1.
  rewrite (nth_error_nth _ _ Null H1) in Hr. subst c'.
  rewrite (H3 Hc). reflexivity.
Qed.

Lemma weather_station_mapping_left_join_witness :
  exists d' key' field_part meta_part,
    Field.weather_station_mapping (fun _ => Return mapping_table)
        (mapping_processor field_table)
      = (Return d', Field.set_df (mapping_processor field_table) (Some d')) /\
    nrows d'
      = list_sum (map (fun c => Nat.max 1 (match_count [Num 30629; Num 40734] c))
                      [Num 40734; Num 30629; Num 39924]) /\
    nrows field_table <= nrows d' /\
    ((forall c, In c [Num 40734; Num 30629; Num 39924] ->
                match_count [Num 30629; Num 40734] c <= 1) ->
     nrows d' = nrows field_table) /\
    d' = (field_part ++ meta_part)%list /\
    columns meta_part
      = filter (fun l => negb (String.eqb l "Unnamed: 0"))
          (map (suffixed "Field_ID" "_y" field_table)
               (filter (fun l => negb (String.eqb l "Field_ID"))
                       (columns mapping_table))) /\
    getitem d' "Field_ID" = Return key' /\
    (forall r c, nth_error key' r = Some c ->
       match_count [Num 30629; Num 40734] c = 0 ->
       forall col, In col meta_part -> nth_error (snd col) r = Some Null).
Proof.
  apply (weather_station_mapping_left_join (fun _ => Return mapping_table)
           (mapping_processor field_table) field_table mapping_table).
  - reflexivity.
  - reflexivity.
  - repeat constructor.
  - reflexivity.
  - reflexivity.
  - simpl. auto.
  - simpl. intros [H|[H|[H|H]]]; try discriminate H. exact H.
Defined.

Example weather_station_mapping_field_table :
  fst (Field.weather_station_mapping (fun _ => Return mapping_table)
         (mapping_processor field_table))
  = Return [("Field_ID", [Num 40734; Num 30629; Num 39924]);
            ("Elevation", [Num 786.0558; Num 674.3341; Num 826.5339]);
            ("Crop_type", [Str "cassava"; Str "tea"; Str "wheat"]);
            ("Weather_station", [Num 4; Num 0; Null])].
Proof. vm_compute. reflexivity. Qed.

(** C4 as it was stated fails when two metadata rows carry the key of one
    field row: the join has a row for each of them. *)
Lemma weather_station_mapping_repeats_field_row :
  fst (Field.weather_station_mapping (fun _ => Return repeated_mapping_table)
         (mapping_processor single_field_table))
    = Return [("Field_ID", [Num 1; Num 1]);
              ("Elevation", [Num 786.0558; Num 786.0558]);
              ("Weather_station", [Num 0; Num 4])] /\
  nrows single_field_table = 1 /\
  nrows [("Field_ID", [Num 1; Num 1]);
         ("Elevation", [Num 786.0558; Num 786.0558]);
         ("Weather_station", [Num 0; Num 4])] = 2.
Proof. vm_compute. repeat split; reflexivity. Qed.

(** ** Grouped means *)

(** Lists up to an equality test that is an equivalence. *)
Section UpToEqb.
Context {A : Type} (eqb leb : A -> A -> bool).
Hypothesis eqb_left : forall a b c, eqb a b = true -> eqb a c = eqb b c.
Hypothesis eqb_right : forall a b c, eqb b c = true -> eqb a b = eqb a c.

Lemma mem_cons (q y : A) (l : list A) : mem eqb q (y :: l) = eqb y q || mem eqb q l.
Proof. reflexivity. Qed.

Lemma mem_respects (q q' : A) (l : list A) :
  eqb q q' = true -> mem eqb q l = mem eqb q' l.
Proof.
  intros H. unfold mem. induction l as [|y l IH]; simpl; [reflexivity|].
  now rewrite IH, (eqb_right y q q' H).
Qed.

Lemma mem_insert_uniq (q x : A) (l : list A) :
  mem eqb q (insert_uniq eqb leb x l) = eqb x q || mem eqb q l.
Proof.
  induction l as [|y l IH]; [simpl; now rewrite orb_false_r|].
  cbn [insert_uniq]. destruct (eqb y x) eqn:E.
  - rewrite !mem_cons, (eqb_left y x q E). now destruct (eqb x q).
  - destruct (leb x y); [reflexivity|].
    rewrite !mem_cons, IH. destruct (eqb y q), (eqb x q); reflexivity.
Qed.

Lemma mem_fold_insert (q : A) (l acc : list A) :
  mem eqb q (fold_left (fun acc x => insert_uniq eqb leb x acc) l acc)
  = mem eqb q l || mem eqb q acc.
Proof.
  revert acc. induction l as [|x l IH]; intros acc; [reflexivity|].
  cbn [fold_left]. rewrite IH, mem_insert_uniq, mem_cons.
  destruct (eqb x q), (mem eqb q l), (mem eqb q acc); reflexivity.
Qed.

Lemma mem_sort_uniq (q : A) (l : list A) :
  mem eqb q (sort_uniq eqb leb l) = mem eqb q l.
Proof. unfold sort_uniq. rewrite mem_fold_insert. simpl. apply orb_false_r. Qed.

Lemma mem_filter (q : A) (p : A -> bool) (l : list A) :
  (forall y, eqb y q = true -> p y = true) ->
  mem eqb q (filter p l) = mem eqb q l.
Proof.
  intros H. unfold mem. induction l as [|y l IH]; simpl; [reflexivity|].
  destruct (p y) eqn:E; simpl; rewrite IH; [reflexivity|].
  destruct (eqb y q) eqn:E'; [|reflexivity].
  rewrite (H y E') in E. discriminate.
Qed.

Lemma mem_uniq (q : A) (l : list A) : mem eqb q (uniq eqb l) = mem eqb q l.
Proof.
  induction l as [|x l IH]; [reflexivity|].
  cbn [uniq]. rewrite !mem_cons.
  destruct (eqb x q) eqn:E; [reflexivity|]. cbn [orb].
  rewrite mem_filter; [exact IH|].
  intros y Hy. now rewrite (eqb_right x y q Hy), E.
Qed.

Lemma mem_true (q : A) (l : list A) :
  mem eqb q l = true -> exists y, In y l /\ eqb y q = true.
Proof. unfold mem. rewrite existsb_exists. auto. Qed.

Lemma mem_intro (q y : A) (l : list A) :
  In y l -> eqb y q = true -> mem eqb q l = true.
Proof. intros H1 H2. unfold mem. apply existsb_exists. eauto. Qed.

Lemma index_of_mem (q : A) (l : list A) :
  mem eqb q l = true -> exists i, index_of eqb q l = Some i.
Proof.
  unfold mem. induction l as [|y l IH]; simpl; [discriminate|].
  destruct (eqb y q); [eauto|]. simpl. intros H.
  destruct (IH H) as [i ->]. eauto.
Qed.

Lemma index_of_Some (q d : A) (l : list A) (i : nat) :
  index_of eqb q l = Some i ->
  i < List.length l /\ eqb (nth i l d) q = true.
Proof.
  revert i. induction l as [|y l IH]; simpl; intros i; [discriminate|].
  destruct (eqb y q) eqn:E.
  - intros H. injection H as <-. split; [lia | exact E].
  - destruct (index_of eqb q l) as [j|]; [|discriminate].
    intros H. injection H as <-. destruct (IH j eq_refl). split; [lia | assumption].
Qed.

Lemma In_insert_uniq (x y : A) (l : list A) :
  In y (insert_uniq eqb leb x l) -> y = x \/ In y l.
Proof.
  induction l as [|z l IH]; simpl.
  - intros [H|[]]; auto.
  - destruct (eqb z x); [simpl; tauto|].
    destruct (leb x z); simpl; [intros [H|H]; auto|].
    intros [H|H]; [auto|]. destruct (IH H); auto.
Qed.

Lemma In_sort_uniq (y : A) (l : list A) : In y (sort_uniq eqb leb l) -> In y l.
Proof.
  unfold sort_uniq.
  assert (H : forall acc, In y (fold_left (fun acc x => insert_uniq eqb leb x acc) l acc)
                          -> In y l \/ In y acc).
  { induction l as [|x l IH]; intros acc; simpl; [auto|].
    intros Hin. destruct (IH _ Hin) as [H|H]; [auto|].
    destruct (In_insert_uniq _ _ _ H); auto. }
  intros Hin. destruct (H [] Hin) as [?|[]]. assumption.
Qed.

Lemma In_uniq (y : A) (l : list A) : In y (uniq eqb l) -> In y l.
Proof.
  induction l as [|x l IH]; simpl; [auto|].
  intros [H|H]; [now left|]. apply filter_In in H. destruct H as [H _].
  right. exact (IH H).
Qed.
End UpToEqb.

Lemma Qeq_bool_left (a b c : Q) :
  Qeq_bool a b = true -> Qeq_bool a c = Qeq_bool b c.
Proof.
  intros H. apply Qeq_bool_iff in H.
  destruct (Qeq_bool a c) eqn:E1, (Qeq_bool b c) eqn:E2; try reflexivity.
  - apply Qeq_bool_iff in E1. apply Qeq_bool_neq in E2.
    exfalso. apply E2. now rewrite <- H.
  - apply Qeq_bool_iff in E2. apply Qeq_bool_neq in E1.
    exfalso. apply E1. now rewrite H.
Qed.

Lemma Qeq_bool_right (a b c : Q) :
  Qeq_bool b c = true -> Qeq_bool a b = Qeq_bool a c.
Proof.
  intros H. apply Qeq_bool_iff in H.
  destruct (Qeq_bool a b) eqn:E1, (Qeq_bool a c) eqn:E2; try reflexivity.
  - apply Qeq_bool_iff in E1. apply Qeq_bool_neq in E2.
    exfalso. apply E2. now rewrite <- H.
  - apply Qeq_bool_iff in E2. apply Qeq_bool_neq in E1.
    exfalso. apply E1. now rewrite H.
Qed.

Lemma cell_eqb_left (a b c : Cell) :
  cell_eqb a b = true -> cell_eqb a c = cell_eqb b c.
Proof.
  destruct a, b; simpl; try discriminate; intros H.
  - destruct c; simpl; try reflexivity. now apply Qeq_bool_left.
  - apply String.eqb_eq in H. now subst.
  - reflexivity.
  - apply Bool.eqb_prop in H. now subst.
Qed.

Lemma cell_eqb_right (a b c : Cell) :
  cell_eqb b c = true -> cell_eqb a b = cell_eqb a c.
Proof.
  destruct b, c; simpl; try discriminate; intros H.
  - destruct a; simpl; try reflexivity. now apply Qeq_bool_right.
  - apply String.eqb_eq in H. now subst.
  - reflexivity.
  - apply Bool.eqb_prop in H. now subst.
Qed.

Lemma key_eqb_left (a b c : Key) :
  key_eqb a b = true -> key_eqb a c = key_eqb b c.
Proof.
  unfold key_eqb. intros H. apply andb_true_iff in H. destruct H as [H1 H2].
  now rewrite (cell_eqb_left _ _ _ H1), (cell_eqb_left _ _ _ H2).
Qed.

Lemma key_eqb_right (a b c : Key) :
  key_eqb b c = true -> key_eqb a b = key_eqb a c.
Proof.
  unfold key_eqb. intros H. apply andb_true_iff in H. destruct H as [H1 H2].
  now rewrite (cell_eqb_right _ _ _ H1), (cell_eqb_right _ _ _ H2).
Qed.

Lemma cell_eqb_not_null (x s : Cell) :
  cell_eqb x s = true -> s <> Null -> is_null x = false.
Proof. destruct x, s; simpl; congruence. Qed.

Lemma group_mean_numeric (mean : list Float -> Float) (s : Series) :
  has_str s = false -> group_mean mean s = Return (mean_cell mean s).
Proof.
  intros H. unfold group_mean, mean_cell. rewrite H.
  destruct (floats s); reflexivity.
Qed.

Lemma outcome_map_return {A B} (f : A -> outcome B) (g : A -> B) (l : list A) :
  (forall x, In x l -> f x = Return (g x)) ->
  outcome_map f l = Return (map g l).
Proof.
  induction l as [|x l IH]; intros H; [reflexivity|].
  cbn [outcome_map map]. rewrite (H x (or_introl eq_refl)). cbn [obind].
  rewrite IH by (intros; apply H; now right). reflexivity.
Qed.

Lemma has_str_incl (s s' : Series) :
  (forall c, In c s' -> In c s) -> has_str s = false -> has_str s' = false.
Proof.
  intros Hin Hs. unfold has_str in *.
  destruct (existsb _ s') eqn:E; [|reflexivity].
  apply existsb_exists in E. destruct E as [c [Hc Hstr]].
  assert (Ht : existsb (fun c => match c with Str _ => true | _ => false end) s = true).
  { apply existsb_exists. exists c. split; [now apply Hin | exact Hstr]. }
  congruence.
Qed.

Lemma group_values_incl (a b v : Series) (k : Key) (c : Cell) :
  In c (group_values (keyed_rows a b v) k) -> In c v.
Proof.
  unfold group_values, keyed_rows. intros H.
  apply in_map_iff in H. destruct H as [[key x] [<- H]].
  apply filter_In in H. destruct H as [H _].
  apply filter_In in H. destruct H as [H _].
  apply in_combine_r in H. exact H.
Qed.

Lemma groupby_mean_returns (mean : list Float -> Float) (d : DataFrame)
    (a b v : string) (ka kb vs : Series) :
  getitem d a = Return ka -> getitem d b = Return kb -> getitem d v = Return vs ->
  has_str vs = false ->
  groupby_mean mean d a b v = Return (means_of mean (keyed_rows ka kb vs)).
Proof.
  intros Ha Hb Hv Hs. unfold groupby_mean. rewrite Ha, Hb, Hv. cbn [obind].
  apply outcome_map_return. intros key _.
  rewrite group_mean_numeric; [reflexivity|].
  apply (has_str_incl vs); [|exact Hs].
  intros c. apply group_values_incl.
Qed.

Lemma keyed_get_map (g : Key -> Cell) (keys : list Key) (q : Key) :
  keyed_get (map (fun key => (key, g key)) keys) q
  = match find (fun key => key_eqb key q) keys with
    | Some key => g key
    | None => Null
    end.
Proof.
  unfold keyed_get. induction keys as [|key keys IH]; [reflexivity|].
  cbn [map find fst]. destruct (key_eqb key q); [reflexivity | exact IH].
Qed.

Lemma group_values_respects (rows : list (Key * Cell)) (q q' : Key) :
  key_eqb q q' = true -> group_values rows q = group_values rows q'.
Proof.
  intros H. unfold group_values. f_equal. apply filter_ext.
  intros r. now apply key_eqb_right.
Qed.

Lemma group_values_none (rows : list (Key * Cell)) (q : Key) :
  mem key_eqb q (map fst rows) = false -> group_values rows q = [].
Proof.
  unfold group_values, mem. induction rows as [|r rows IH]; [reflexivity|].
  cbn [map existsb filter]. intros H. apply orb_false_iff in H.
  destruct H as [H1 H2]. rewrite H1. now apply IH.
Qed.

Lemma mem_false_intro {A} (eqb : A -> A -> bool) (q : A) (l : list A) :
  (forall y, In y l -> eqb y q = false) -> mem eqb q l = false.
Proof.
  intros H. unfold mem. induction l as [|y l IH]; [reflexivity|].
  cbn [existsb]. rewrite (H y (or_introl eq_refl)).
  apply IH. intros z Hz. apply H. now right.
Qed.

Lemma keyed_get_means (mean : list Float -> Float) (rows : list (Key * Cell))
    (q q' : Key) :
  key_eqb q q' = true ->
  keyed_get (means_of mean rows) q = mean_cell mean (group_values rows q').
Proof.
  intros Hq. unfold means_of. rewrite keyed_get_map.
  rewrite <- (group_values_respects rows q q' Hq).
  destruct (find _ _) as [key|] eqn:E.
  - apply find_some in E. destruct E as [_ E].
    now rewrite (group_values_respects rows key q E).
  - rewrite group_values_none; [reflexivity|].
    rewrite <- (mem_sort_uniq key_eqb key_leb key_eqb_left).
    apply mem_false_intro. intros y Hy. apply (find_none _ _ E y Hy).
Qed.

Lemma map_nth_in {A B} (f : A -> B) (l : list A) (i : nat) (d : A) (d' : B) :
  i < List.length l -> nth i (map f l) d' = f (nth i l d).
Proof.
  revert i. induction l as [|x l IH]; intros i H; simpl in H; [lia|].
  destruct i; [reflexivity|]. simpl. apply IH. lia.
Qed.

Lemma first_keys_means_of (mean : list Float -> Float) (rows : list (Key * Cell)) :
  map (fun e : Key * Cell => fst (fst e)) (means_of mean rows)
  = map fst (sort_uniq key_eqb key_leb (map fst rows)).
Proof. unfold means_of. rewrite map_map. reflexivity. Qed.

Lemma second_keys_means_of (mean : list Float -> Float) (rows : list (Key * Cell)) :
  map (fun e : Key * Cell => snd (fst e)) (means_of mean rows)
  = map snd (sort_uniq key_eqb key_leb (map fst rows)).
Proof. unfold means_of. rewrite map_map. reflexivity. Qed.

(** A cell of the pivot is the mean of its group. *)
Lemma pivot_cell_unstack (mean : list Float -> Float) (rows : list (Key * Cell))
    (s k x : Cell) :
  pivot_cell (unstack (means_of mean rows)) s k = Some x ->
  x = mean_cell mean (group_values rows (s, k)).
Proof.
  unfold pivot_cell, unstack. cbn [row_labels col_labels cells].
  destruct (index_of cell_eqb s _) as [i|] eqn:Ei; [|discriminate].
  destruct (index_of cell_eqb k _) as [j|] eqn:Ej; [|discriminate].
  intros H. injection H as <-.
  destruct (index_of_Some cell_eqb s Null _ _ Ei) as [Hi Hr].
  destruct (index_of_Some cell_eqb k Null _ _ Ej) as [Hj Hc].
  rewrite (map_nth_in _ _ i Null [] Hi).
  rewrite (map_nth_in _ _ j Null Null Hj).
  apply keyed_get_means. unfold key_eqb. cbn [fst snd]. now rewrite Hr, Hc.
Qed.

(** A pair that some row carries has a cell in the pivot. *)
Lemma pivot_cell_exists (mean : list Float -> Float) (rows : list (Key * Cell))
    (s k : Cell) :
  mem key_eqb (s, k) (map fst rows) = true ->
  exists x, pivot_cell (unstack (means_of mean rows)) s k = Some x.
Proof.
  intros H.
  rewrite <- (mem_sort_uniq key_eqb key_leb key_eqb_left) in H.
  apply mem_true in H. destruct H as [key [Hin Hk]].
  unfold key_eqb in Hk. cbn [fst snd] in Hk. apply andb_true_iff in Hk.
  destruct Hk as [Hs Hk].
  unfold pivot_cell, unstack. cbn [row_labels col_labels cells].
  rewrite first_keys_means_of, second_keys_means_of.
  destruct (index_of_mem cell_eqb s
              (uniq cell_eqb (map fst (sort_uniq key_eqb key_leb (map fst rows)))))
    as [i ->].
  { rewrite (mem_uniq cell_eqb cell_eqb_right).
    apply (mem_intro cell_eqb s (fst key)); [now apply in_map | exact Hs]. }
  destruct (index_of_mem cell_eqb k
              (sort_uniq cell_eqb cell_leb
                 (map snd (sort_uniq key_eqb key_leb (map fst rows)))))
    as [j ->].
  { rewrite (mem_sort_uniq cell_eqb cell_leb cell_eqb_left).
    apply (mem_intro cell_eqb k (snd key)); [now apply in_map | exact Hk]. }
  eauto.
Qed.

Lemma filter_filter_implied {A} (p q : A -> bool) (l : list A) :
  (forall x, q x = true -> p x = true) ->
  filter q (filter p l) = filter q l.
Proof.
  intros H. induction l as [|x l IH]; [reflexivity|].
  cbn [filter]. destruct (p x) eqn:Ep.
  - cbn [filter]. now rewrite IH.
  - rewrite IH. destruct (q x) eqn:Eq; [|reflexivity].
    rewrite (H x Eq) in Ep. discriminate.
Qed.

Lemma extracted_values_group (a b v : Series) (s k : Cell) :
  s <> Null -> k <> Null ->
  extracted_values a b v s k = floats (group_values (keyed_rows a b v) (s, k)).
Proof.
  intros Hs Hk. revert b v.
  induction a as [|x a IH]; intros [|y b] [|z v]; try reflexivity.
  cbn [extracted_values]. rewrite (IH b v), !same_cell_eqb.
  unfold keyed_rows, group_values, key_eqb.
  cbn [combine filter fst snd].
  destruct (cell_eqb x s) eqn:Ex.
  - rewrite (cell_eqb_not_null _ _ Ex Hs).
    destruct (cell_eqb y k) eqn:Ey.
    + rewrite (cell_eqb_not_null _ _ Ey Hk).
      cbn [negb andb filter fst snd]. rewrite Ex, Ey.
      cbn [andb map snd]. destruct z; reflexivity.
    + destruct (negb false && negb (is_null y)).
      * cbn [filter fst snd]. rewrite Ex, Ey. reflexivity.
      * reflexivity.
  - destruct (negb (is_null x) && negb (is_null y)).
    + cbn [filter fst snd]. rewrite Ex. reflexivity.
    + reflexivity.
Qed.

Lemma row_labels_are_stations (mean : list Float -> Float) (a b v : Series)
    (r : Cell) :
  In r (row_labels (unstack (means_of mean (keyed_rows a b v)))) -> In r a.
Proof.
  unfold unstack. cbn [row_labels]. rewrite first_keys_means_of. intros H.
  apply In_uniq in H. apply in_map_iff in H. destruct H as [key [<- H]].
  apply In_sort_uniq in H. apply in_map_iff in H.
  destruct H as [[[s0 k0] x] [<- H]].
  unfold keyed_rows in H. apply filter_In in H. destruct H as [H _].
  apply in_combine_l in H. apply in_combine_l in H. exact H.
Qed.

Lemma col_labels_are_kinds (mean : list Float -> Float) (a b v : Series)
    (c : Cell) :
  In c (col_labels (unstack (means_of mean (keyed_rows a b v)))) -> In c b.
Proof.
  unfold unstack. cbn [col_labels]. rewrite second_keys_means_of. intros H.
  apply In_sort_uniq in H. apply in_map_iff in H. destruct H as [key [<- H]].
  apply In_sort_uniq in H. apply in_map_iff in H.
  destruct H as [[[s0 k0] x] [<- H]].
  unfold keyed_rows in H. apply filter_In in H. destruct H as [H _].
  apply in_combine_l in H. apply in_combine_r in H. exact H.
Qed.

(** What [calculate_means] returns on a table that has the three columns and
    no text in 'Value'. *)
Lemma calculate_means_pivot (mean : list Float -> Float)
    (st : Weather.WeatherDataProcessor) (d : DataFrame)
    (stations kinds values : Series) :
  Weather.weather_df st = Some d ->
  getitem d "Weather_station_ID" = Return stations ->
  getitem d "Measurement" = Return kinds ->
  getitem d "Value" = Return values ->
  has_str values = false ->
  exists t,
    Weather.calculate_means mean st
      = (Return (Some t), Weather.log INFO "Mean values calculated." st) /\
    (forall r, In r (row_labels t) -> In r stations) /\
    (forall c, In c (col_labels t) -> In c kinds) /\
    forall s k, s <> Null -> k <> Null ->
      match extracted_values stations kinds values s k with
      | [] => pivot_cell t s k = None \/ pivot_cell t s k = Some Null
      | vs => pivot_cell t s k = Some (float_cell (mean vs))
      end.
Proof.
  intros Hd Ha Hb Hv Hs. unfold Weather.calculate_means.
  rewrite Hd, (groupby_mean_returns mean d _ _ _ stations kinds values Ha Hb Hv Hs).
  eexists. split; [reflexivity|].
  split; [apply row_labels_are_stations|].
  split; [apply col_labels_are_kinds|].
  intros s k Hsn Hkn. rewrite (extracted_values_group _ _ _ s k Hsn Hkn).
  set (rows := keyed_rows stations kinds values).
  destruct (floats (group_values rows (s, k))) as [|q vs] eqn:En.
  - destruct (pivot_cell (unstack (means_of mean rows)) s k) as [x|] eqn:Ep;
      [right | now left].
    apply pivot_cell_unstack in Ep. unfold mean_cell in Ep. rewrite En in Ep.
    now subst x.
  - assert (Hm : mem key_eqb (s, k) (map fst rows) = true).
    { destruct (mem key_eqb (s, k) (map fst rows)) eqn:E; [reflexivity|].
      rewrite (group_values_none rows (s, k) E) in En. discriminate. }
    destruct (pivot_cell_exists mean rows s k Hm) as [x Hx].
    pose proof (pivot_cell_unstack mean rows s k x Hx) as Hmean.
    unfold mean_cell in Hmean. rewrite En in Hmean. subst x. exact Hx.
Qed.

Section Processed.
Variable re_search : string -> Cell -> Weather.re_result.
Variable float : string -> option Float.

Lemma value_cells_numeric (result : list (option string * option Float)) :
  has_str (map (fun r => Weather.value_cell (snd r)) result) = false.
Proof.
  unfold has_str. induction result as [|[k [[q|b|]|]] result IH]; simpl; auto.
Qed.

(** When [process_messages] returns a table, it is the loaded one with the
    'Measurement' and 'Value' columns set from the extraction results. *)
Lemma process_messages_columns (st st' : Weather.WeatherDataProcessor)
    (d0 d : DataFrame) :
  Weather.weather_df st = Some d0 ->
  Weather.process_messages re_search float st = (Return (Some d), st') ->
  exists messages result st1,
    getitem d0 "Message" = Return messages /\
    Weather.apply_extract re_search float messages st = (Return result, st1) /\
    Weather.weather_df st' = Some d /\
    d = setitem (setitem d0 "Measurement"
                   (map (fun r => Weather.kind_cell (fst r)) result))
          "Value" (map (fun r => Weather.value_cell (snd r)) result).
Proof.
  intros Hd. unfold Weather.process_messages. rewrite Hd.
  destruct (getitem d0 "Message") as [messages|e]; [|discriminate].
  destruct (Weather.apply_extract re_search float messages st)
    as [[result|e] st1] eqn:Ha; [|discriminate].
  destruct result as [|r result]; [discriminate|].
  intros H. injection H as H1 H2. subst st'.
  exists messages, (r :: result), st1.
  split; [reflexivity|]. split; [exact Ha|].
  split; [cbn; now f_equal | now symmetry].
Qed.

End Processed.



(** The scenario of the specification, with a second station whose three
    temperatures 10, 20 and 30 average to 20 and which has no humidity. *)
Example calculate_means_scenario :
  fst (Weather.calculate_means sample_mean scenario_processed)
  = Return (Some (mkPivot [Str "A"; Str "B"] [Str "humidity"; Str "temp"]
                          [[Num 60; Num 22.5]; [Null; Num 20]])).
Proof. vm_compute. reflexivity. Qed.

(** * Further properties *)

(** ** data_ingestion *)

(** X1. Whatever [query_data] returns is the table the database gave, and
    that table has at least one row and one column. *)
Theorem query_data_returns_nonempty (r : outcome DataFrame) (d : DataFrame) :
  fst (DataIngestion.query_data r) = Return d ->
  r = Return d /\ 0 < nrows d /\ 0 < List.length d.
Proof.
  unfold DataIngestion.query_data. destruct r as [d0|e].
  - unfold df_empty. destruct d0 as [|[l s] d0].
    + simpl. discriminate.
    + cbn [List.length Nat.eqb orb nrows].
      destruct (List.length s) eqn:E; cbn [Nat.eqb fst].
      * destruct (DataIngestion.is_ValueError _); discriminate.
      * intros H. injection H as <-. cbn [nrows List.length]. rewrite E.
        repeat split; lia.
  - cbn [fst]. destruct (DataIngestion.is_ValueError e); discriminate.
Qed.

Lemma query_data_returns_nonempty_witness :
  Return survey_table = Return survey_table /\
  0 < nrows survey_table /\ 0 < List.length survey_table.
Proof.
  apply (query_data_returns_nonempty (Return survey_table) survey_table).
  reflexivity.
Defined.

(** X2. An exception of the database read leaves [query_data] as the same
    exception, after exactly one record, logged at ERROR. *)
Theorem query_data_reraises (e : exn) :
  fst (DataIngestion.query_data (Raise e)) = Raise e /\
  exists msg, snd (DataIngestion.query_data (Raise e)) = [(ERROR, msg)].
Proof.
  unfold DataIngestion.query_data.
  destruct (DataIngestion.is_ValueError e); cbn [fst snd emit List.app];
    split; try reflexivity; eexists; reflexivity.
Qed.

(** X3. [read_from_web_CSV] hands on what [pd.read_csv] did, table or
    exception, unchanged; it logs one record, at INFO for a table and at
    ERROR for an exception. *)
Theorem read_from_web_CSV_transparent (r : outcome DataFrame) :
  fst (DataIngestion.read_from_web_CSV r) = r /\
  exists msg,
    snd (DataIngestion.read_from_web_CSV r)
    = [(match r with Return _ => INFO | Raise _ => ERROR end, msg)].
Proof.
  destruct r as [d|e]; [split; [reflexivity | eexists; reflexivity]|].
  destruct e; split; try reflexivity; eexists; reflexivity.
Qed.

(** X4. [create_db_engine] never lets an ImportError out: when
    [create_engine] or the test connection raises one, the caller gets an
    UnboundLocalError for the name [e]. *)
Theorem create_db_engine_masks_import_error (w : FieldRun.World) (db_path : string) :
  (forall msg,
     FieldRun.create_engine w db_path = FieldRun.Err (FieldRun.ImportError msg) ->
     fst (FieldRun.create_db_engine w db_path)
     = FieldRun.Err (FieldRun.UnboundLocalError "e")) /\
  (forall msg,
     fst (FieldRun.create_db_engine w db_path)
     <> FieldRun.Err (FieldRun.ImportError msg)).
Proof.
  unfold FieldRun.create_db_engine. split.
  - intros msg H. rewrite H. reflexivity.
  - intros msg.
    destruct (FieldRun.create_engine w db_path) as [en|e].
    + destruct (FieldRun.connect w en) as [e|]; [|discriminate].
      destruct e; discriminate.
    + destruct e; discriminate.
Qed.

Lemma create_db_engine_masks_import_error_witness :
  fst (FieldRun.create_db_engine
         (FieldRun.mkWorld
            (fun _ => FieldRun.Err (FieldRun.ImportError "No module named 'psycopg2'"))
            (fun _ => None) (fun _ _ => Return []) (fun _ => Return []))
         "postgresql://localhost/maji_ndogo")
  = FieldRun.Err (FieldRun.UnboundLocalError "e").
Proof.
  destruct (create_db_engine_masks_import_error
              (FieldRun.mkWorld
                 (fun _ => FieldRun.Err (FieldRun.ImportError "No module named 'psycopg2'"))
                 (fun _ => None) (fun _ _ => Return []) (fun _ => Return []))
              "postgresql://localhost/maji_ndogo") as [H _].
  apply (H "No module named 'psycopg2'"). reflexivity.
Defined.

(** X5. When [create_db_engine] returns an engine, it is the one
    [create_engine] made and the test connection to it succeeded; an
    exception other than ImportError comes out as it was raised. *)
Theorem create_db_engine_returns_tested_engine (w : FieldRun.World)
    (db_path : string) :
  (forall en, fst (FieldRun.create_db_engine w db_path) = FieldRun.Ok en ->
     FieldRun.create_engine w db_path = FieldRun.Ok en /\
     FieldRun.connect w en = None) /\
  (forall e, fst (FieldRun.create_db_engine w db_path) = FieldRun.Err (FieldRun.Exn e) ->
     FieldRun.create_engine w db_path = FieldRun.Err (FieldRun.Exn e) \/
     exists en, FieldRun.create_engine w db_path = FieldRun.Ok en /\
                FieldRun.connect w en = Some (FieldRun.Exn e)).
Proof.
  unfold FieldRun.create_db_engine. split.
  - intros en.
    destruct (FieldRun.create_engine w db_path) as [en0|e].
    + destruct (FieldRun.connect w en0) as [e|] eqn:Ec.
      * destruct e; discriminate.
      * intros H. injection H as <-. auto.
    + destruct e; discriminate.
  - intros e.
    destruct (FieldRun.create_engine w db_path) as [en0|e0].
    + destruct (FieldRun.connect w en0) as [e1|] eqn:Ec; [|discriminate].
      destruct e1; try discriminate.
      intros H. injection H as <-. right. eauto.
    + destruct e0; try discriminate.
      intros H. injection H as <-. now left.
Qed.

Lemma create_db_engine_returns_tested_engine_witness :
  FieldRun.create_engine
    (FieldRun.mkWorld (fun p => FieldRun.Ok p) (fun _ => None)
       (fun _ _ => Return survey_table) (fun _ => Return mapping_table))
    "sqlite:///Maji_Ndogo_farm_survey_small.db"
  = FieldRun.Ok "sqlite:///Maji_Ndogo_farm_survey_small.db" /\
  FieldRun.connect
    (FieldRun.mkWorld (fun p => FieldRun.Ok p) (fun _ => None)
       (fun _ _ => Return survey_table) (fun _ => Return mapping_table))
    "sqlite:///Maji_Ndogo_farm_survey_small.db"
  = None.
Proof.
  destruct (create_db_engine_returns_tested_engine
              (FieldRun.mkWorld (fun p => FieldRun.Ok p) (fun _ => None)
                 (fun _ _ => Return survey_table) (fun _ => Return mapping_table))
              "sqlite:///Maji_Ndogo_farm_survey_small.db") as [H _].
  apply (H "sqlite:///Maji_Ndogo_farm_survey_small.db"). reflexivity.
Defined.

(** ** The column swap, further *)

Lemma string_app_assoc (s t u : string) : (s ++ t) ++ u = s ++ (t ++ u).
Proof. induction s as [|c s IH]; simpl; [reflexivity | now rewrite IH]. Qed.

Lemma string_app_empty (s : string) : s ++ "" = s.
Proof. induction s as [|c s IH]; simpl; [reflexivity | now rewrite IH]. Qed.

Lemma underscores_length (n : nat) : String.length (underscores n) = n.
Proof. induction n as [|n IH]; simpl; [reflexivity | now rewrite IH]. Qed.

Lemma while_in_columns_candidates (cols : list string) (t : string) :
  exists n,
    Field.while_in_columns cols t = t ++ underscores n /\
    (forall m, m < n -> In (t ++ underscores m) cols) /\
    ~ In (t ++ underscores n) cols.
Proof.
  funelim (Field.while_in_columns cols t).
  - destruct H as [n [Hn [Hlt Hfree]]].
    exists (S n). rewrite Hn. cbn [underscores].
    rewrite <- !string_app_assoc. split; [reflexivity|]. split; [|exact Hfree].
    intros m Hm. destruct m as [|m].
    + cbn [underscores]. rewrite string_app_empty.
      now apply Field.existsb_eqb_In.
    + cbn [underscores]. rewrite <- string_app_assoc. apply Hlt. lia.
  - exists 0. cbn [underscores]. rewrite string_app_empty.
    split; [reflexivity|]. split; [intros m Hm; lia|].
    intros Hin. apply Field.existsb_eqb_In in Hin. congruence.
Qed.

Lemma candidates_bounded (cols : list string) (t : string) (n : nat) :
  (forall m, m < n -> In (t ++ underscores m) cols) -> n <= List.length cols.
Proof.
  intros H.
  replace n with (List.length (map (fun m => t ++ underscores m) (seq 0 n)))
    by (rewrite length_map; apply length_seq).
  apply NoDup_incl_length.
  - assert (Hnd : forall k s, NoDup (map (fun m => t ++ underscores m) (seq s k))).
    { induction k as [|k IH]; intros s; cbn [seq map]; constructor; [|apply IH].
      intros Hin. apply in_map_iff in Hin. destruct Hin as [m [Heq Hm]].
      apply in_seq in Hm. apply (f_equal String.length) in Heq.
      rewrite !Field.length_append, !underscores_length in Heq. lia. }
    apply Hnd.
  - intros x Hx. apply in_map_iff in Hx. destruct Hx as [m [<- Hm]].
    apply in_seq in Hm. apply H. lia.
Qed.

(** X6. The temporary name is the marker followed by the least number of
    underscores that makes it different from every label; that number is at
    most the number of columns. *)
Theorem temporary_name_is_first_free (cols : list string) :
  exists n,
    Field.while_in_columns cols "__temp_name_for_swap__"
      = "__temp_name_for_swap__" ++ underscores n /\
    n <= List.length cols /\
    ~ In ("__temp_name_for_swap__" ++ underscores n) cols /\
    forall m, m < n -> In ("__temp_name_for_swap__" ++ underscores m) cols.
Proof.
  destruct (while_in_columns_candidates cols "__temp_name_for_swap__")
    as [n [Hn [Hlt Hfree]]].
  exists n. split; [exact Hn|].
  split; [exact (candidates_bounded cols "__temp_name_for_swap__" n Hlt)|].
  split; assumption.
Qed.

Lemma temporary_name_is_first_free_witness :
  exists n,
    Field.while_in_columns (columns swap_table) "__temp_name_for_swap__"
      = "__temp_name_for_swap__" ++ underscores n /\
    n <= List.length (columns swap_table) /\
    ~ In ("__temp_name_for_swap__" ++ underscores n) (columns swap_table) /\
    forall m, m < n ->
      In ("__temp_name_for_swap__" ++ underscores m) (columns swap_table).
Proof. apply (temporary_name_is_first_free (columns swap_table)). Defined.

Lemma swap_label_involutive (a b l : string) :
  swap_label a b (swap_label a b l) = l.
Proof.
  unfold swap_label.
  destruct (String.eqb_spec l a) as [->|Hla].
  - destruct (String.eqb_spec b a) as [->|Hba]; [reflexivity|].
    now rewrite String.eqb_refl.
  - destruct (String.eqb_spec l b) as [->|Hlb].
    + now rewrite String.eqb_refl.
    + destruct (String.eqb_spec l a); [contradiction|].
      destruct (String.eqb_spec l b); [contradiction | reflexivity].
Qed.

Lemma relabel_swap_twice (a b : string) (d : DataFrame) :
  relabel (swap_label a b) (relabel (swap_label a b) d) = d.
Proof.
  unfold relabel. rewrite map_map. rewrite <- (map_id d) at 2.
  apply map_ext. intros [l s]. cbn [fst snd]. now rewrite swap_label_involutive.
Qed.

Lemma columns_relabel (f : string -> string) (d : DataFrame) :
  columns (relabel f d) = map f (columns d).
Proof. unfold columns, relabel. rewrite !map_map. reflexivity. Qed.

Lemma swap_label_second (a b : string) : swap_label a b b = a.
Proof.
  unfold swap_label. destruct (String.eqb_spec b a) as [->|H]; [reflexivity|].
  now rewrite String.eqb_refl.
Qed.

(** X7. With both names among the labels, running [rename_columns] a
    second time undoes the first: the table is the one before. *)
Theorem rename_columns_twice_restores (st : Field.FieldDataProcessor)
    (d : DataFrame) (a b : string) (rest : dict string string) :
  Field.df st = Some d ->
  Field.columns_to_rename st = (a, b) :: rest ->
  In a (columns d) -> In b (columns d) ->
  exists st1 st2,
    Field.rename_columns st = (Return tt, st1) /\
    Field.rename_columns st1 = (Return tt, st2) /\
    Field.df st2 = Some d.
Proof.
  intros Hd Hc Ha Hb.
  pose proof (rename_columns_relabels st d a b rest Hd Hc Ha) as H1.
  eexists. eexists. split; [exact H1|].
  split.
  - apply (rename_columns_relabels _ (relabel (swap_label a b) d) a b rest).
    + reflexivity.
    + exact Hc.
    + rewrite columns_relabel. apply in_map_iff. exists b.
      split; [apply swap_label_second | exact Hb].
  - cbn [Field.log Field.set_df Field.df]. now rewrite relabel_swap_twice.
Qed.

Lemma rename_columns_twice_restores_witness :
  exists st1 st2,
    Field.rename_columns swap_processor = (Return tt, st1) /\
    Field.rename_columns st1 = (Return tt, st2) /\
    Field.df st2 = Some swap_table.
Proof.
  apply (rename_columns_twice_restores swap_processor swap_table
           "Annual_yield" "Crop_type" []).
  - reflexivity.
  - reflexivity.
  - simpl. auto.
  - simpl. auto.
Defined.




(** X9. [rename_columns] raises IndexError when the directive is empty,
    and AttributeError when there is a directive but no table; in both
    cases the processor is left as it was and nothing is logged. *)
Theorem rename_columns_without_directive_or_table (st : Field.FieldDataProcessor) :
  (Field.columns_to_rename st = [] ->
   Field.rename_columns st = (Raise IndexError, st)) /\
  (Field.columns_to_rename st <> [] -> Field.df st = None ->
   Field.rename_columns st = (Raise AttributeError, st)).
Proof.
  unfold Field.rename_columns. split.
  - intros ->. reflexivity.
  - intros Hne Hd. destruct (Field.columns_to_rename st) as [|[a b] rest];
      [contradiction|].
    cbn [dict_keys dict_values map fst snd index0]. rewrite Hd. reflexivity.
Qed.

Lemma rename_columns_without_directive_or_table_witness :
  Field.rename_columns (Field.mk "" "" [] [] "" (Some swap_table) [])
    = (Raise IndexError, Field.mk "" "" [] [] "" (Some swap_table) []) /\
  Field.rename_columns
    (Field.mk "" "" [("Annual_yield", "Crop_type")] [] "" None [])
    = (Raise AttributeError,
       Field.mk "" "" [("Annual_yield", "Crop_type")] [] "" None []).
Proof.
  split.
  - apply (rename_columns_without_directive_or_table
             (Field.mk "" "" [] [] "" (Some swap_table) [])).
    reflexivity.
  - apply (rename_columns_without_directive_or_table
             (Field.mk "" "" [("Annual_yield", "Crop_type")] [] "" None [])).
    + discriminate.
    + reflexivity.
Defined.

(** ** Corrections, further *)

Lemma not_In_columns_setitem (d : DataFrame) (n m : string) (s : Series) :
  In n (columns d) -> ~ In m (columns d) -> ~ In m (columns (setitem d n s)).
Proof. intros Hn Hm. now rewrite columns_setitem. Qed.

(** X10. Without an 'Elevation' column [apply_corrections] raises
    KeyError and changes nothing.  With numeric elevations and no 'Crop_type'
    column it raises KeyError too, but the elevations of the stored table
    have been replaced by their absolute values by then. *)
Theorem apply_corrections_missing_column (cn ac : string)
    (st : Field.FieldDataProcessor) (d : DataFrame) :
  Field.df st = Some d ->
  (~ In "Elevation" (columns d) ->
   Field.apply_corrections cn ac st = (Raise (KeyError "Elevation"), st)) /\
  (forall elevation,
     getitem d "Elevation" = Return elevation -> has_str elevation = false ->
     ~ In "Crop_type" (columns d) ->
     Field.apply_corrections cn ac st
     = (Raise (KeyError "Crop_type"),
        Field.set_df st (Some (setitem d "Elevation" (map cell_abs elevation))))).
Proof.
  intros Hd. unfold Field.apply_corrections. rewrite Hd. split.
  - intros H. rewrite (getitem_missing _ _ H). reflexivity.
  - intros e He Hs Hc. rewrite He. cbn [obind].
    rewrite (Series_abs_numeric _ Hs).
    rewrite getitem_missing; [reflexivity|].
    apply not_In_columns_setitem; [|exact Hc].
    exact (getitem_in_columns _ _ _ He).
Qed.

Lemma apply_corrections_missing_column_witness :
  Field.apply_corrections "Crop_type" "Elevation"
    (Field.mk "" "" [] [] ""
       (Some [("Field_ID", [Num 1; Num 2]); ("Elevation", [Num (-3); Num 4])]) [])
  = (Raise (KeyError "Crop_type"),
     Field.mk "" "" [] [] ""
       (Some [("Field_ID", [Num 1; Num 2]); ("Elevation", [Num 3; Num 4])]) []).
Proof.
  destruct (apply_corrections_missing_column "Crop_type" "Elevation"
              (Field.mk "" "" [] [] ""
                 (Some [("Field_ID", [Num 1; Num 2]);
                        ("Elevation", [Num (-3); Num 4])]) [])
              [("Field_ID", [Num 1; Num 2]); ("Elevation", [Num (-3); Num 4])]
              eq_refl) as [_ H].
  apply (H [Num (-3); Num 4]).
  - reflexivity.
  - reflexivity.
  - simpl. intros [E|[E|E]]; [discriminate E | discriminate E | exact E].
Defined.

(** X11. Text in the 'Elevation' column makes [apply_corrections] raise
    TypeError, and the processor is left as it was. *)
Theorem apply_corrections_text_elevation (cn ac : string)
    (st : Field.FieldDataProcessor) (d : DataFrame) (elevation : Series) :
  Field.df st = Some d ->
  getitem d "Elevation" = Return elevation ->
  has_str elevation = true ->
  exists msg, Field.apply_corrections cn ac st = (Raise (TypeError msg), st).
Proof.
  intros Hd He Hs. unfold Field.apply_corrections. rewrite Hd, He. cbn [obind].
  destruct (Series_abs_text _ Hs) as [msg ->]. eexists. reflexivity.
Qed.

Lemma apply_corrections_text_elevation_witness :
  exists msg,
    Field.apply_corrections "Crop_type" "Elevation"
      (Field.mk "" "" [] [] ""
         (Some [("Elevation", [Num 3; Str "n/a"]); ("Crop_type", [Str "tea"; Str "tea"])])
         [])
    = (Raise (TypeError msg),
       Field.mk "" "" [] [] ""
         (Some [("Elevation", [Num 3; Str "n/a"]); ("Crop_type", [Str "tea"; Str "tea"])])
         []).
Proof.
  apply (apply_corrections_text_elevation "Crop_type" "Elevation"
           (Field.mk "" "" [] [] ""
              (Some [("Elevation", [Num 3; Str "n/a"]);
                     ("Crop_type", [Str "tea"; Str "tea"])]) [])
           [("Elevation", [Num 3; Str "n/a"]); ("Crop_type", [Str "tea"; Str "tea"])]
           [Num 3; Str "n/a"]).
  - reflexivity.
  - reflexivity.
  - reflexivity.
Defined.

Lemma setitem_same (d : DataFrame) (n : string) (s : Series) :
  getitem d n = Return s -> setitem d n s = d.
Proof.
  unfold getitem. induction d as [|[l s'] d IH]; cbn [find setitem fst snd];
    [discriminate|].
  destruct (String.eqb l n).
  - intros H. injection H as ->. reflexivity.
  - intros H. now rewrite (IH H).
Qed.

(** X12. When no value of the value-rename map is itself one of its keys,
    a second [apply_corrections] changes nothing at all: it returns with the
    processor the first run left. *)
Theorem apply_corrections_twice_same (cn ac : string)
    (st : Field.FieldDataProcessor) (d : DataFrame) (elevation crop : Series) :
  Field.df st = Some d ->
  getitem d "Elevation" = Return elevation ->
  getitem d "Crop_type" = Return crop ->
  has_str elevation = false ->
  (forall k v, dict_get cell_eqb (Field.values_to_rename st) k = Some v ->
               dict_get cell_eqb (Field.values_to_rename st) v = None) ->
  exists st1,
    Field.apply_corrections cn ac st = (Return tt, st1) /\
    Field.apply_corrections cn ac st1 = (Return tt, st1).
Proof.
  intros Hd He Hc Hs Hmap.
  pose proof (apply_corrections_returns cn ac st d elevation crop Hd He Hc Hs) as H1.
  set (remap := fun c => dict_get_default cell_eqb (Field.values_to_rename st) c c) in *.
  set (d1 := setitem (setitem d "Elevation" (map cell_abs elevation)) "Crop_type"
               (map remap crop)) in *.
  assert (He1 : getitem d1 "Elevation" = Return (map cell_abs elevation)).
  { unfold d1. rewrite getitem_setitem_other by discriminate.
    apply getitem_setitem_same. }
  assert (Hc1 : getitem d1 "Crop_type" = Return (map remap crop)).
  { unfold d1. apply getitem_setitem_same. }
  exists (Field.set_df st (Some d1)). split; [exact H1|].
  pose proof (apply_corrections_returns cn ac (Field.set_df st (Some d1)) d1
                (map cell_abs elevation) (map remap crop) eq_refl He1 Hc1) as H2.
  rewrite has_str_map_cell_abs in H2. rewrite (H2 Hs). clear H1 H2.
  assert (Ea : map cell_abs (map cell_abs elevation) = map cell_abs elevation).
  { rewrite map_map. apply map_ext. intros c. apply cell_abs_idem. }
  assert (Er : map remap (map remap crop) = map remap crop).
  { rewrite map_map. apply map_ext. intros c. unfold remap, dict_get_default.
    destruct (dict_get cell_eqb (Field.values_to_rename st) c) as [v|] eqn:E.
    - now rewrite (Hmap c v E).
    - now rewrite E. }
  unfold Field.set_df.
  cbn [Field.values_to_rename Field.db_path Field.sql_query
       Field.columns_to_rename Field.weather_map_data Field.logger].
  fold remap. rewrite Ea, Er.
  rewrite (setitem_same d1 "Elevation" _ He1).
  rewrite (setitem_same d1 "Crop_type" _ Hc1). reflexivity.
Qed.

Lemma apply_corrections_twice_same_witness :
  exists st1,
    Field.apply_corrections "Crop_type" "Elevation" survey_processor = (Return tt, st1) /\
    Field.apply_corrections "Crop_type" "Elevation" st1 = (Return tt, st1).
Proof.
  apply (apply_corrections_twice_same "Crop_type" "Elevation" survey_processor
           survey_table
           [Num (-786.0558); Num 0; Num 201.3; Null]
           [Str "cassaval"; Str "tea"; Str "wheatn"; Str "cassava "]).
  - reflexivity.
  - reflexivity.
  - reflexivity.
  - reflexivity.
  - intros k v. cbn [survey_processor Field.values_to_rename dict_get].
    destruct (cell_eqb (Str "cassaval") k);
      [intros H; injection H as <-; reflexivity|].
    destruct (cell_eqb (Str "wheatn") k);
      [intros H; injection H as <-; reflexivity|].
    destruct (cell_eqb (Str "teaa") k);
      [intros H; injection H as <-; reflexivity|].
    discriminate.
Defined.

(** X13. After [apply_corrections] has returned, no number in the
    'Elevation' column is negative, nor is the negative infinity in it. *)
Theorem apply_corrections_no_negative_elevation (cn ac : string)
    (st : Field.FieldDataProcessor) (d : DataFrame) (elevation crop : Series) :
  Field.df st = Some d ->
  getitem d "Elevation" = Return elevation ->
  getitem d "Crop_type" = Return crop ->
  has_str elevation = false ->
  exists d1 elevation1,
    Field.df (snd (Field.apply_corrections cn ac st)) = Some d1 /\
    getitem d1 "Elevation" = Return elevation1 /\
    (forall q, In (Num q) elevation1 -> (0 <= q)%Q) /\
    ~ In (Inf true) elevation1.
Proof.
  intros Hd He Hc Hs.
  rewrite (apply_corrections_returns cn ac st d elevation crop Hd He Hc Hs).
  eexists. exists (map cell_abs elevation). split; [reflexivity|]. split; [|split].
  - rewrite getitem_setitem_other by discriminate. apply getitem_setitem_same.
  - intros q Hq. apply in_map_iff in Hq. destruct Hq as [c [Hc' _]].
    destruct c as [q'| | |n]; try discriminate. injection Hc' as <-.
    apply Qabs_nonneg.
  - intros Hq. apply in_map_iff in Hq. destruct Hq as [c [Hc' _]].
    destruct c as [q'| | |n]; discriminate.
Qed.

Lemma apply_corrections_no_negative_elevation_witness :
  exists d1 elevation1,
    Field.df (snd (Field.apply_corrections "Crop_type" "Elevation" survey_processor))
      = Some d1 /\
    getitem d1 "Elevation" = Return elevation1 /\
    (forall q, In (Num q) elevation1 -> (0 <= q)%Q) /\
    ~ In (Inf true) elevation1.
Proof.
  apply (apply_corrections_no_negative_elevation "Crop_type" "Elevation"
           survey_processor survey_table
           [Num (-786.0558); Num 0; Num 201.3; Null]
           [Str "cassaval"; Str "tea"; Str "wheatn"; Str "cassava "]).
  - reflexivity.
  - reflexivity.
  - reflexivity.
  - reflexivity.
Defined.

(** ** The join with the station mapping, further *)

Lemma suffix_x_not_artifact (l : string) : l ++ "_x" <> "Unnamed: 0".
Proof.
  destruct l as [|a1 [|a2 [|a3 [|a4 [|a5 [|a6 [|a7 [|a8 [|a9 l]]]]]]]]]; simpl;
    intros H; try discriminate H.
  apply (f_equal String.length) in H. simpl in H.
  rewrite Field.length_append in H. simpl in H. lia.
Qed.

Lemma suffix_y_not_artifact (l : string) : l ++ "_y" <> "Unnamed: 0".
Proof.
  destruct l as [|a1 [|a2 [|a3 [|a4 [|a5 [|a6 [|a7 [|a8 [|a9 l]]]]]]]]]; simpl;
    intros H; try discriminate H.
  apply (f_equal String.length) in H. simpl in H.
  rewrite Field.length_append in H. simpl in H. lia.
Qed.

Lemma has_label_In (l : string) (d : DataFrame) :
  has_label l d = true <-> In l (columns d).
Proof. unfold has_label. apply Field.existsb_eqb_In. Qed.

(** A label of the merge is the artifact label only when it was one that
    the other table does not have. *)
Lemma suffixed_is_artifact (suffix : string) (other : DataFrame) (l : string) :
  suffix = "_x" \/ suffix = "_y" ->
  suffixed "Field_ID" suffix other l = "Unnamed: 0" ->
  l = "Unnamed: 0" /\ ~ In "Unnamed: 0" (columns other).
Proof.
  intros Hs. unfold suffixed.
  destruct (negb (String.eqb l "Field_ID") && has_label l other) eqn:E.
  - intros H. exfalso. destruct Hs as [-> | ->];
      [now apply suffix_x_not_artifact in H | now apply suffix_y_not_artifact in H].
  - intros ->. split; [reflexivity|]. intros Hin.
    apply has_label_In in Hin. rewrite Hin in E. discriminate.
Qed.

Lemma artifact_in_merged (d meta : DataFrame) (lix : list nat)
    (rix : list (option nat)) :
  in_columns "Unnamed: 0"
    (map (fun c => (suffixed "Field_ID" "_x" meta (fst c), take (snd c) lix)) d
     ++ map (fun c => (suffixed "Field_ID" "_y" d (fst c), take_or_null (snd c) rix))
          (filter (fun c => negb (String.eqb (fst c) "Field_ID")) meta))%list
  = true ->
  (In "Unnamed: 0" (columns d) /\ ~ In "Unnamed: 0" (columns meta)) \/
  (In "Unnamed: 0" (columns meta) /\ ~ In "Unnamed: 0" (columns d)).
Proof.
  unfold in_columns, columns. intros H. apply Field.existsb_eqb_In in H.
  rewrite map_app, !map_map in H. cbn [fst] in H.
  apply in_app_or in H. destruct H as [H|H]; apply in_map_iff in H;
    destruct H as [[l s] [Hl Hin]]; cbn [fst] in Hl.
  - apply suffixed_is_artifact in Hl; [|now left]. destruct Hl as [-> Hn].
    left. split; [|exact Hn]. apply (in_map fst) in Hin. exact Hin.
  - apply suffixed_is_artifact in Hl; [|now right]. destruct Hl as [-> Hn].
    right. split; [|exact Hn]. apply filter_In in Hin. destruct Hin as [Hin _].
    apply (in_map fst) in Hin. exact Hin.
Qed.

(** X14. When the artifact column 'Unnamed: 0' is a label of both tables
    or of neither, [weather_station_mapping] raises KeyError for it, and
    the stored table is by then the merged one, not the field table. *)
Theorem weather_station_mapping_artifact_clash
    (web : string -> outcome DataFrame) (st : Field.FieldDataProcessor)
    (d meta : DataFrame) (lk rk : Series) :
  Field.df st = Some d ->
  web (Field.weather_map_data st) = Return meta ->
  getitem d "Field_ID" = Return lk ->
  getitem meta "Field_ID" = Return rk ->
  (In "Unnamed: 0" (columns d) <-> In "Unnamed: 0" (columns meta)) ->
  exists merged,
    merge_left d meta "Field_ID" = Return merged /\
    Field.weather_station_mapping web st
    = (Raise (KeyError "Unnamed: 0"), Field.set_df st (Some merged)).
Proof.
  intros Hd Hweb Hlk Hrk Hiff.
  unfold Field.weather_station_mapping. rewrite Hweb, Hd.
  cbn [DataIngestion.read_from_web_CSV fst].
  unfold merge_left. rewrite Hrk, Hlk. cbn [obind].
  eexists. split; [reflexivity|].
  unfold drop.
  destruct (in_columns "Unnamed: 0" _) eqn:E; [|reflexivity].
  apply artifact_in_merged in E. tauto.
Qed.

Lemma weather_station_mapping_artifact_clash_witness :
  exists merged,
    merge_left field_table
      [("Field_ID", [Num 30629; Num 40734]); ("Weather_station", [Num 0; Num 4])]
      "Field_ID" = Return merged /\
    Field.weather_station_mapping
      (fun _ => Return [("Field_ID", [Num 30629; Num 40734]);
                        ("Weather_station", [Num 0; Num 4])])
      (mapping_processor field_table)
    = (Raise (KeyError "Unnamed: 0"),
       Field.set_df (mapping_processor field_table) (Some merged)).
Proof.
  apply (weather_station_mapping_artifact_clash
           (fun _ => Return [("Field_ID", [Num 30629; Num 40734]);
                             ("Weather_station", [Num 0; Num 4])])
           (mapping_processor field_table) field_table
           [("Field_ID", [Num 30629; Num 40734]); ("Weather_station", [Num 0; Num 4])]
           [Num 40734; Num 30629; Num 39924] [Num 30629; Num 40734]).
  - reflexivity.
  - reflexivity.
  - reflexivity.
  - reflexivity.
  - simpl. split.
    + intros [H|[H|[H|H]]]; try discriminate H. contradiction.
    + intros [H|[H|H]]; try discriminate H. contradiction.
Defined.

(** X15. A failed fetch leaves [weather_station_mapping] with the same
    exception, and a missing 'Field_ID' column in either table with KeyError;
    in both cases the processor is left as it was. *)
Theorem weather_station_mapping_fetch_or_key_failure
    (web : string -> outcome DataFrame) (st : Field.FieldDataProcessor) :
  (forall e, web (Field.weather_map_data st) = Raise e ->
     Field.weather_station_mapping web st = (Raise e, st)) /\
  (forall d meta,
     Field.df st = Some d -> web (Field.weather_map_data st) = Return meta ->
     ~ In "Field_ID" (columns meta) \/ ~ In "Field_ID" (columns d) ->
     Field.weather_station_mapping web st = (Raise (KeyError "Field_ID"), st)).
Proof.
  unfold Field.weather_station_mapping. split.
  - intros e ->. destruct e; reflexivity.
  - intros d meta Hd -> H. cbn [DataIngestion.read_from_web_CSV fst].
    rewrite Hd. unfold merge_left.
    destruct (getitem meta "Field_ID") as [rk|e] eqn:Er.
    + destruct H as [H|H];
        [apply getitem_in_columns in Er; contradiction|].
      cbn [obind]. rewrite (getitem_missing _ _ H). reflexivity.
    + destruct (in_dec string_dec "Field_ID" (columns meta)) as [Hin|Hn].
      * destruct (getitem_present _ _ Hin) as [s Hs]. congruence.
      * rewrite (getitem_missing _ _ Hn) in Er. injection Er as <-. reflexivity.
Qed.

Lemma weather_station_mapping_fetch_or_key_failure_witness :
  Field.weather_station_mapping (fun _ => Raise EmptyDataError)
    (mapping_processor field_table)
    = (Raise EmptyDataError, mapping_processor field_table) /\
  Field.weather_station_mapping
    (fun _ => Return [("Unnamed: 0", [Num 0]); ("Weather_station", [Num 4])])
    (mapping_processor field_table)
    = (Raise (KeyError "Field_ID"), mapping_processor field_table).
Proof.
  split.
  - destruct (weather_station_mapping_fetch_or_key_failure
                (fun _ => Raise EmptyDataError) (mapping_processor field_table))
      as [H _].
    apply H. reflexivity.
  - destruct (weather_station_mapping_fetch_or_key_failure
                (fun _ => Return [("Unnamed: 0", [Num 0]); ("Weather_station", [Num 4])])
                (mapping_processor field_table)) as [_ H].
    apply (H field_table
             [("Unnamed: 0", [Num 0]); ("Weather_station", [Num 4])]).
    + reflexivity.
    + reflexivity.
    + left. simpl. intros [E|[E|E]]; [discriminate E | discriminate E | exact E].
Defined.

Lemma weather_station_mapping_returns_join
    (web : string -> outcome DataFrame) (st : Field.FieldDataProcessor)
    (d meta : DataFrame) (lk rk : Series) :
  Field.df st = Some d ->
  web (Field.weather_map_data st) = Return meta ->
  getitem d "Field_ID" = Return lk ->
  getitem meta "Field_ID" = Return rk ->
  In "Unnamed: 0" (columns meta) ->
  ~ In "Unnamed: 0" (columns d) ->
  Field.weather_station_mapping web st
  = (Return (joined d meta lk rk),
     Field.set_df st (Some (joined d meta lk rk))).
Proof.
  intros Hd Hweb Hlk Hrk Hum Hud.
  unfold Field.weather_station_mapping. rewrite Hweb, Hd.
  cbn [DataIngestion.read_from_web_CSV fst].
  unfold merge_left. rewrite Hrk, Hlk. cbn [obind].
  unfold drop.
  match goal with |- context [in_columns "Unnamed: 0" ?m] =>
    assert (Hdrop : in_columns "Unnamed: 0" m = true) end.
  { unfold in_columns, columns. apply Field.existsb_eqb_In.
    rewrite map_app. apply in_or_app. right. rewrite map_map.
    cbn [fst]. apply in_map_iff in Hum. destruct Hum as [[l s] [Hl Hin]].
    simpl in Hl. subst l. apply in_map_iff. exists ("Unnamed: 0", s). split.
    - cbn [fst]. apply suffixed_absent. exact Hud.
    - apply filter_In. split; [exact Hin | reflexivity]. }
  rewrite Hdrop. reflexivity.
Qed.

Lemma left_join_from_unique (i : nat) (lk rk : Series) :
  (forall c, In c lk -> match_count rk c <= 1) ->
  map fst (left_join_from i lk rk) = seq i (List.length lk).
Proof.
  revert i. induction lk as [|c lk IH]; intros i H; [reflexivity|].
  cbn [left_join_from List.length seq]. rewrite map_app.
  rewrite IH by (intros; apply H; now right).
  pose proof (matches_from_length 0 rk c) as Hl.
  specialize (H c (or_introl eq_refl)).
  destruct (matches_from 0 rk c) as [|j [|j' js]]; [reflexivity | reflexivity|].
  simpl in Hl. lia.
Qed.

Lemma take_all_from (pre s : Series) :
  take (pre ++ s)%list (seq (List.length pre) (List.length s)) = s.
Proof.
  unfold take. revert pre. induction s as [|x s IH]; intros pre; [reflexivity|].
  cbn [List.length seq map]. f_equal.
  - rewrite app_nth2 by lia. now rewrite Nat.sub_diag.
  - specialize (IH (pre ++ [x])%list). rewrite <- app_assoc in IH.
    rewrite length_app in IH. cbn [List.length] in IH.
    rewrite Nat.add_1_r in IH. exact IH.
Qed.

Lemma take_all (s : Series) : take s (seq 0 (List.length s)) = s.
Proof. exact (take_all_from [] s). Qed.

(** X16. When no key of the field table occurs twice in the metadata, the
    join keeps every field column as it is: the same cells in the same
    order, under its label or, for a label the metadata has too, under that
    label with '_x' appended. *)
Theorem weather_station_mapping_keeps_field_columns
    (web : string -> outcome DataFrame) (st : Field.FieldDataProcessor)
    (d meta : DataFrame) (lk rk : Series) :
  Field.df st = Some d ->
  web (Field.weather_map_data st) = Return meta ->
  Forall (fun c => List.length (snd c) = nrows d) d ->
  getitem d "Field_ID" = Return lk ->
  getitem meta "Field_ID" = Return rk ->
  In "Unnamed: 0" (columns meta) ->
  ~ In "Unnamed: 0" (columns d) ->
  (forall c, In c lk -> match_count rk c <= 1) ->
  exists d',
    fst (Field.weather_station_mapping web st) = Return d' /\
    forall l s, In (l, s) d -> In (suffixed "Field_ID" "_x" meta l, s) d'.
Proof.
  intros Hd Hweb Hall Hlk Hrk Hum Hud Huniq.
  rewrite (weather_station_mapping_returns_join web st d meta lk rk
             Hd Hweb Hlk Hrk Hum Hud).
  cbn [fst]. eexists. split; [reflexivity|].
  intros l s Hin. unfold joined. apply filter_In. split.
  - apply in_or_app. left. apply in_map_iff. exists (l, s). split; [|exact Hin].
    cbn [fst snd]. f_equal. unfold left_join_indexers.
    rewrite (left_join_from_unique 0 lk rk Huniq).
    rewrite (getitem_length d "Field_ID" lk (nrows d) Hall Hlk).
    rewrite Forall_forall in Hall. specialize (Hall (l, s) Hin). cbn [snd] in Hall.
    rewrite <- Hall. apply take_all.
  - cbn [fst]. apply negb_true_iff. apply String.eqb_neq. intros E.
    apply (suffixed_is_artifact "_x" meta l (or_introl eq_refl)) in E.
    destruct E as [-> _]. apply Hud. apply (in_map fst) in Hin. exact Hin.
Qed.

Lemma weather_station_mapping_keeps_field_columns_witness :
  exists d',
    fst (Field.weather_station_mapping (fun _ => Return mapping_table)
           (mapping_processor field_table)) = Return d' /\
    forall l s, In (l, s) field_table ->
                In (suffixed "Field_ID" "_x" mapping_table l, s) d'.
Proof.
  apply (weather_station_mapping_keeps_field_columns (fun _ => Return mapping_table)
           (mapping_processor field_table) field_table mapping_table
           [Num 40734; Num 30629; Num 39924] [Num 30629; Num 40734]).
  - reflexivity.
  - reflexivity.
  - repeat constructor.
  - reflexivity.
  - reflexivity.
  - simpl. auto.
  - simpl. intros [H|[H|[H|H]]]; try discriminate H. exact H.
  - intros c [<-|[<-|[<-|[]]]]; vm_compute; lia.
Defined.

Lemma In_matches_from (j0 j : nat) (rk : Series) (c x : Cell) :
  nth_error rk j = Some x -> cell_eqb x c = true ->
  In (j0 + j) (matches_from j0 rk c).
Proof.
  revert j0 j. induction rk as [|y rk IH]; intros j0 j; [destruct j; discriminate|].
  destruct j as [|j]; cbn [nth_error matches_from].
  - intros H Hx. injection H as ->. rewrite Hx, Nat.add_0_r. now left.
  - intros H Hx. replace (j0 + S j) with (S j0 + j) by lia.
    destruct (cell_eqb y c); [right|]; now apply IH.
Qed.

Lemma left_join_from_matched (i : nat) (lk rk : Series) :
  Forall (fun e => exists c, nth_error lk (fst e - i) = Some c /\ i <= fst e /\
                             match snd e with
                             | Some j => In j (matches_from 0 rk c)
                             | None => matches_from 0 rk c = []
                             end)
         (left_join_from i lk rk).
Proof.
  revert i. induction lk as [|c lk IH]; intros i; [constructor|].
  cbn [left_join_from]. apply Forall_app. split.
  - destruct (matches_from 0 rk c) as [|j js] eqn:Em.
    + constructor; [|constructor]. exists c. cbn [fst snd].
      rewrite Nat.sub_diag. auto.
    + apply Forall_forall. intros e He. apply in_map_iff in He.
      destruct He as [j' [<- Hj']]. exists c. cbn [fst snd].
      rewrite Nat.sub_diag, Em. auto.
  - specialize (IH (S i)). eapply Forall_impl; [|exact IH].
    intros e [c' [H1 [H2 H3]]]. exists c'. repeat split; [|lia|exact H3].
    replace (fst e - i) with (S (fst e - S i)) by lia. exact H1.
Qed.

Lemma getitem_joined_key (d meta : DataFrame) (lk rk : Series) :
  getitem d "Field_ID" = Return lk ->
  getitem (joined d meta lk rk) "Field_ID"
  = Return (take lk (map fst (left_join_indexers lk rk))).
Proof.
  intros Hlk. unfold joined.
  rewrite getitem_filter_other by discriminate.
  apply getitem_app_left. now apply getitem_merged_key.
Qed.

(** X17. In a row of the join whose key has exactly one metadata row, every
    metadata column other than the key and the artifact holds the cell of
    that metadata row. *)
Theorem weather_station_mapping_matched_rows
    (web : string -> outcome DataFrame) (st : Field.FieldDataProcessor)
    (d meta : DataFrame) (lk rk : Series) :
  Field.df st = Some d ->
  web (Field.weather_map_data st) = Return meta ->
  getitem d "Field_ID" = Return lk ->
  getitem meta "Field_ID" = Return rk ->
  In "Unnamed: 0" (columns meta) ->
  ~ In "Unnamed: 0" (columns d) ->
  exists d' key',
    fst (Field.weather_station_mapping web st) = Return d' /\
    getitem d' "Field_ID" = Return key' /\
    forall r c j x,
      nth_error key' r = Some c -> match_count rk c = 1 ->
      nth_error rk j = Some x -> cell_eqb x c = true ->
      forall l s, In (l, s) meta -> l <> "Field_ID" -> l <> "Unnamed: 0" ->
        exists s', In (suffixed "Field_ID" "_y" d l, s') d' /\
                   nth_error s' r = Some (nth j s Null).
Proof.
  intros Hd Hweb Hlk Hrk Hum Hud.
  rewrite (weather_station_mapping_returns_join web st d meta lk rk
             Hd Hweb Hlk Hrk Hum Hud).
  cbn [fst]. exists (joined d meta lk rk). eexists.
  split; [reflexivity|]. split; [now apply getitem_joined_key|].
  intros r c j x Hr Hc Hj Hx l s Hin Hlk' Hlu.
  exists (take_or_null s (map snd (left_join_indexers lk rk))). split.
  - unfold joined. apply filter_In. split.
    + apply in_or_app. right. apply in_map_iff. exists (l, s).
      split; [reflexivity|]. apply filter_In. split; [exact Hin|].
      cbn [fst]. apply negb_true_iff. now apply String.eqb_neq.
    + cbn [fst]. apply negb_true_iff. apply String.eqb_neq. intros E.
      apply (suffixed_is_artifact "_y" d l (or_intror eq_refl)) in E.
      now destruct E.
  - unfold take in Hr. unfold take_or_null.
    rewrite !nth_error_map in *.
    destruct (nth_error (left_join_indexers lk rk) r) as [e|] eqn:He;
      [|discriminate].
    cbn [option_map] in *. injection Hr as Hr.
    pose proof (left_join_from_matched 0 lk rk) as Hf.
    rewrite Forall_forall in Hf. apply nth_error_In in He.
    destruct (Hf e He) as [c' [H1 [_ H3]]].
    rewrite Nat.sub_0_r in H1.
    rewrite (nth_error_nth _ _ Null H1) in Hr. subst c'.
    pose proof (matches_from_length 0 rk c) as Hl. rewrite Hc in Hl.
    pose proof (In_matches_from 0 j rk c x Hj Hx) as Hjin. cbn [Nat.add] in Hjin.
    destruct (matches_from 0 rk c) as [|j0 [|j1 js]]; try discriminate Hl.
    destruct Hjin as [<-|[]].
    destruct (snd e) as [j'|]; [|discriminate H3].
    destruct H3 as [<-|[]]. reflexivity.
Qed.

Lemma weather_station_mapping_matched_rows_witness :
  exists d' key',
    fst (Field.weather_station_mapping (fun _ => Return mapping_table)
           (mapping_processor field_table)) = Return d' /\
    getitem d' "Field_ID" = Return key' /\
    forall r c j x,
      nth_error key' r = Some c -> match_count [Num 30629; Num 40734] c = 1 ->
      nth_error [Num 30629; Num 40734] j = Some x -> cell_eqb x c = true ->
      forall l s, In (l, s) mapping_table -> l <> "Field_ID" -> l <> "Unnamed: 0" ->
        exists s', In (suffixed "Field_ID" "_y" field_table l, s') d' /\
                   nth_error s' r = Some (nth j s Null).
Proof.
  apply (weather_station_mapping_matched_rows (fun _ => Return mapping_table)
           (mapping_processor field_table) field_table mapping_table
           [Num 40734; Num 30629; Num 39924] [Num 30629; Num 40734]).
  - reflexivity.
  - reflexivity.
  - reflexivity.
  - reflexivity.
  - simpl. auto.
  - simpl. intros [H|[H|[H|H]]]; try discriminate H. exact H.
Defined.

(** ** Ingestion and the whole field pipeline *)

Lemma create_db_engine_ok (w : FieldRun.World) (db_path : string) (en : FieldRun.Engine) :
  FieldRun.create_engine w db_path = FieldRun.Ok en ->
  FieldRun.connect w en = None ->
  fst (FieldRun.create_db_engine w db_path) = FieldRun.Ok en.
Proof. intros H1 H2. unfold FieldRun.create_db_engine. now rewrite H1, H2. Qed.

Lemma query_data_nonempty (d : DataFrame) :
  nrows d <> 0 -> fst (DataIngestion.query_data (Return d)) = Return d.
Proof.
  intros H. unfold DataIngestion.query_data, df_empty.
  destruct d as [|[l s] d]; [contradiction|]. cbn [nrows] in *.
  cbn [List.length Nat.eqb orb].
  destruct (List.length s); [contradiction | reflexivity].
Qed.

Lemma query_data_empty (d : DataFrame) :
  nrows d = 0 ->
  fst (DataIngestion.query_data (Return d))
  = Raise (ValueError "The query returned an empty DataFrame.").
Proof.
  intros H. unfold DataIngestion.query_data, df_empty.
  destruct d as [|[l s] d]; [reflexivity|]. cbn [nrows] in *.
  cbn [List.length Nat.eqb orb]. rewrite H. reflexivity.
Qed.

Lemma ingest_sql_data_loads (w : FieldRun.World) (i : FieldRun.Instance)
    (en : FieldRun.Engine) (d : DataFrame) :
  FieldRun.create_engine w (Field.db_path (FieldRun.fields i)) = FieldRun.Ok en ->
  FieldRun.connect w en = None ->
  FieldRun.read_sql_query w en (Field.sql_query (FieldRun.fields i)) = Return d ->
  nrows d <> 0 ->
  FieldRun.ingest_sql_data w i
  = (FieldRun.Ok d,
     FieldRun.mkInstance (Some en)
       (Field.log INFO "Sucessfully loaded data."
          (Field.set_df (FieldRun.fields i) (Some d)))).
Proof.
  intros H1 H2 H3 H4. unfold FieldRun.ingest_sql_data.
  rewrite (create_db_engine_ok w _ en H1 H2), H3, (query_data_nonempty d H4).
  reflexivity.
Qed.

(** X18. When the engine is created and the query gives a table without
    rows, [ingest_sql_data] raises ValueError; the table of the processor is
    what it was, nothing is logged on its logger, and its [engine] attribute
    has been set all the same. *)
Theorem ingest_sql_data_empty_result (w : FieldRun.World) (i : FieldRun.Instance)
    (en : FieldRun.Engine) (d : DataFrame) :
  FieldRun.create_engine w (Field.db_path (FieldRun.fields i)) = FieldRun.Ok en ->
  FieldRun.connect w en = None ->
  FieldRun.read_sql_query w en (Field.sql_query (FieldRun.fields i)) = Return d ->
  nrows d = 0 ->
  FieldRun.ingest_sql_data w i
  = (FieldRun.Err (FieldRun.Exn (ValueError "The query returned an empty DataFrame.")),
     FieldRun.mkInstance (Some en) (FieldRun.fields i)).
Proof.
  intros H1 H2 H3 H4. unfold FieldRun.ingest_sql_data.
  rewrite (create_db_engine_ok w _ en H1 H2), H3, (query_data_empty d H4).
  reflexivity.
Qed.

Lemma ingest_sql_data_empty_result_witness :
  FieldRun.ingest_sql_data
    (sample_world [("Field_ID", []); ("Elevation", [])] mapping_table)
    (farm_instance [("Annual_yield", "Crop_type")])
  = (FieldRun.Err (FieldRun.Exn (ValueError "The query returned an empty DataFrame.")),
     FieldRun.mkInstance (Some "sqlite:///Maji_Ndogo_farm_survey_small.db")
       (FieldRun.fields (farm_instance [("Annual_yield", "Crop_type")]))).
Proof.
  apply (ingest_sql_data_empty_result
           (sample_world [("Field_ID", []); ("Elevation", [])] mapping_table)
           (farm_instance [("Annual_yield", "Crop_type")])
           "sqlite:///Maji_Ndogo_farm_survey_small.db"
           [("Field_ID", []); ("Elevation", [])]).
  - reflexivity.
  - reflexivity.
  - reflexivity.
  - reflexivity.
Defined.

(** X19. With an empty rename directive [process] raises IndexError in its
    second stage: the table the query gave stays loaded, and neither the
    corrections nor the join are run. *)
Theorem process_stops_at_empty_directive (w : FieldRun.World) (i : FieldRun.Instance)
    (en : FieldRun.Engine) (d : DataFrame) :
  FieldRun.create_engine w (Field.db_path (FieldRun.fields i)) = FieldRun.Ok en ->
  FieldRun.connect w en = None ->
  FieldRun.read_sql_query w en (Field.sql_query (FieldRun.fields i)) = Return d ->
  nrows d <> 0 ->
  Field.columns_to_rename (FieldRun.fields i) = [] ->
  FieldRun.process w i
  = (FieldRun.Err (FieldRun.Exn IndexError),
     FieldRun.mkInstance (Some en)
       (Field.log INFO "Sucessfully loaded data."
          (Field.set_df (FieldRun.fields i) (Some d)))).
Proof.
  intros H1 H2 H3 H4 H5. unfold FieldRun.process.
  rewrite (ingest_sql_data_loads w i en d H1 H2 H3 H4).
  unfold FieldRun.lift, Field.rename_columns.
  cbn [FieldRun.fields Field.log Field.set_df Field.columns_to_rename].
  rewrite H5. reflexivity.
Qed.

Lemma process_stops_at_empty_directive_witness :
  FieldRun.process (sample_world farm_table mapping_table) (farm_instance [])
  = (FieldRun.Err (FieldRun.Exn IndexError),
     FieldRun.mkInstance (Some "sqlite:///Maji_Ndogo_farm_survey_small.db")
       (Field.log INFO "Sucessfully loaded data."
          (Field.set_df (FieldRun.fields (farm_instance [])) (Some farm_table)))).
Proof.
  apply (process_stops_at_empty_directive (sample_world farm_table mapping_table)
           (farm_instance []) "sqlite:///Maji_Ndogo_farm_survey_small.db" farm_table).
  - reflexivity.
  - reflexivity.
  - reflexivity.
  - discriminate.
  - reflexivity.
Defined.

Lemma nrows_joined (d meta : DataFrame) (lk rk : Series) :
  getitem d "Field_ID" = Return lk ->
  nrows (joined d meta lk rk) = List.length (left_join_indexers lk rk).
Proof.
  intros Hlk.
  apply (nrows_all_length _ _ "Field_ID"
           (take lk (map fst (left_join_indexers lk rk)))).
  - unfold joined. apply Forall_forall. intros c Hc.
    apply filter_In in Hc. destruct Hc as [Hc _].
    apply in_app_or in Hc. destruct Hc as [Hc|Hc]; apply in_map_iff in Hc;
      destruct Hc as [c0 [<- _]]; cbn [snd]; unfold take, take_or_null;
      now rewrite !length_map.
  - now apply getitem_joined_key.
Qed.

Lemma relabel_lengths (f : string -> string) (d : DataFrame) (n : nat) :
  Forall (fun c => List.length (snd c) = n) d ->
  Forall (fun c => List.length (snd c) = n) (relabel f d).
Proof.
  intros H. unfold relabel. apply Forall_map. eapply Forall_impl; [|exact H].
  intros c Hc. exact Hc.
Qed.

(** X20. When the query gives a table with rows, the first directive names
    one of its columns, the renamed table has numeric elevations, crop types
    and a 'Field_ID' column, and the mapping has 'Field_ID' and alone the
    'Unnamed: 0' column, [process] runs its four stages to the end.  The
    table it leaves is the join of the mapping onto the renamed and corrected
    query result; it has at least the rows of the query result, and as many
    when no key occurs twice in the mapping. *)
Theorem process_runs_the_four_stages (w : FieldRun.World) (i : FieldRun.Instance)
    (en : FieldRun.Engine) (d0 d1 meta : DataFrame) (a b : string)
    (rest : dict string string) (elevation crop lk rk : Series) :
  FieldRun.create_engine w (Field.db_path (FieldRun.fields i)) = FieldRun.Ok en ->
  FieldRun.connect w en = None ->
  FieldRun.read_sql_query w en (Field.sql_query (FieldRun.fields i)) = Return d0 ->
  nrows d0 <> 0 ->
  Forall (fun c => List.length (snd c) = nrows d0) d0 ->
  Field.columns_to_rename (FieldRun.fields i) = (a, b) :: rest ->
  In a (columns d0) ->
  d1 = relabel (swap_label a b) d0 ->
  getitem d1 "Elevation" = Return elevation ->
  has_str elevation = false ->
  getitem d1 "Crop_type" = Return crop ->
  getitem d1 "Field_ID" = Return lk ->
  FieldRun.read_csv w (Field.weather_map_data (FieldRun.fields i)) = Return meta ->
  getitem meta "Field_ID" = Return rk ->
  In "Unnamed: 0" (columns meta) ->
  ~ In "Unnamed: 0" (columns d1) ->
  exists i' final,
    FieldRun.process w i = (FieldRun.Ok tt, i') /\
    FieldRun.engine i' = Some en /\
    Field.df (FieldRun.fields i') = Some final /\
    final
    = joined
        (setitem (setitem d1 "Elevation" (map cell_abs elevation)) "Crop_type"
           (map (fun c => dict_get_default cell_eqb
                            (Field.values_to_rename (FieldRun.fields i)) c c) crop))
        meta lk rk /\
    nrows d0 <= nrows final /\
    ((forall x, In x lk -> match_count rk x <= 1) -> nrows final = nrows d0).
Proof.
  intros H1 H2 H3 H4 Hall Hc Ha Hd1 He Hs Hcr Hlk Hcsv Hrk Hum Hud.
  unfold FieldRun.process.
  rewrite (ingest_sql_data_loads w i en d0 H1 H2 H3 H4).
  set (st1 := Field.log INFO "Sucessfully loaded data."
                (Field.set_df (FieldRun.fields i) (Some d0))).
  unfold FieldRun.lift at 1. cbn [FieldRun.fields FieldRun.engine].
  rewrite (rename_columns_relabels st1 d0 a b rest eq_refl Hc Ha).
  rewrite <- Hd1. cbn [fst snd FieldRun.of_outcome].
  set (st2 := Field.log INFO ("Swapped columns: " ++ a ++ " with " ++ b)
                (Field.set_df st1 (Some d1))).
  unfold FieldRun.lift at 1. cbn [FieldRun.fields FieldRun.engine].
  rewrite (apply_corrections_returns "Crop_type" "Elevation" st2 d1 elevation crop
             eq_refl He Hcr Hs).
  cbn [fst snd FieldRun.of_outcome].
  change (Field.values_to_rename st2)
    with (Field.values_to_rename (FieldRun.fields i)).
  set (d2 := setitem (setitem d1 "Elevation" (map cell_abs elevation)) "Crop_type"
               (map (fun c => dict_get_default cell_eqb
                                (Field.values_to_rename (FieldRun.fields i)) c c)
                    crop)).
  assert (Hlk2 : getitem d2 "Field_ID" = Return lk).
  { unfold d2. rewrite !getitem_setitem_other by discriminate. exact Hlk. }
  assert (Hud2 : ~ In "Unnamed: 0" (columns d2)).
  { unfold d2. rewrite columns_setitem.
    - rewrite columns_setitem; [exact Hud|]. exact (getitem_in_columns _ _ _ He).
    - rewrite columns_setitem by exact (getitem_in_columns _ _ _ He).
      exact (getitem_in_columns _ _ _ Hcr). }
  unfold FieldRun.lift. cbn [FieldRun.fields FieldRun.engine].
  rewrite (weather_station_mapping_returns_join (FieldRun.read_csv w)
             (Field.set_df st2 (Some d2)) d2 meta lk rk
             eq_refl Hcsv Hlk2 Hrk Hum Hud2).
  cbn [fst snd FieldRun.of_outcome].
  eexists. exists (joined d2 meta lk rk).
  split; [reflexivity|]. split; [reflexivity|]. split; [reflexivity|].
  split; [reflexivity|].
  assert (Hn : List.length lk = nrows d0).
  { apply (getitem_length d1 "Field_ID" lk (nrows d0)); [|exact Hlk].
    rewrite Hd1. now apply relabel_lengths. }
  rewrite (nrows_joined d2 meta lk rk Hlk2). unfold left_join_indexers.
  rewrite left_join_from_length, <- Hn.
  split; [apply list_sum_max1_ge | apply list_sum_max1_unique].
Qed.

Lemma process_runs_the_four_stages_witness :
  exists i' final,
    FieldRun.process (sample_world farm_table mapping_table)
      (farm_instance [("Annual_yield", "Crop_type")])
      = (FieldRun.Ok tt, i') /\
    FieldRun.engine i' = Some "sqlite:///Maji_Ndogo_farm_survey_small.db" /\
    Field.df (FieldRun.fields i') = Some final /\
    final
    = joined
        (setitem
           (setitem (relabel (swap_label "Annual_yield" "Crop_type") farm_table)
              "Elevation"
              (map cell_abs [Num (-786.0558); Num 674.3341; Num 826.5339]))
           "Crop_type"
           (map (fun c => dict_get_default cell_eqb
                            (Field.values_to_rename
                               (FieldRun.fields
                                  (farm_instance [("Annual_yield", "Crop_type")]))) c c)
                [Str "cassaval"; Str "tea"; Str "wheatn"]))
        mapping_table [Num 40734; Num 30629; Num 39924] [Num 30629; Num 40734] /\
    nrows farm_table <= nrows final /\
    ((forall x, In x [Num 40734; Num 30629; Num 39924] ->
                match_count [Num 30629; Num 40734] x <= 1) ->
     nrows final = nrows farm_table).
Proof.
  apply (process_runs_the_four_stages (sample_world farm_table mapping_table)
           (farm_instance [("Annual_yield", "Crop_type")])
           "sqlite:///Maji_Ndogo_farm_survey_small.db" farm_table
           (relabel (swap_label "Annual_yield" "Crop_type") farm_table)
           mapping_table "Annual_yield" "Crop_type" []).
  - reflexivity.
  - reflexivity.
  - reflexivity.
  - discriminate.
  - repeat constructor.
  - reflexivity.
  - simpl. auto.
  - reflexivity.
  - reflexivity.
  - reflexivity.
  - reflexivity.
  - reflexivity.
  - reflexivity.
  - reflexivity.
  - simpl. auto.
  - simpl. intros [H|[H|[H|[H|H]]]]; try discriminate H. exact H.
Defined.

(** The table [process] leaves on the sample farm data. *)
Example process_farm_table :
  Field.df (FieldRun.fields
              (snd (FieldRun.process (sample_world farm_table mapping_table)
                      (farm_instance [("Annual_yield", "Crop_type")]))))
  = Some [("Field_ID", [Num 40734; Num 30629; Num 39924]);
          ("Elevation", [Num 786.0558; Num 674.3341; Num 826.5339]);
          ("Crop_type", [Str "cassava"; Str "tea"; Str "wheat"]);
          ("Annual_yield", [Num 0.75; Num 0.5; Num 0.25]);
          ("Weather_station", [Num 4; Num 0; Null])].
Proof. vm_compute. reflexivity. Qed.

(** ** Message processing, further *)

Section ProcessMessages.
Variable re_search : string -> Cell -> Weather.re_result.
Variable float : string -> option Float.

Lemma extract_measurement_keeps (m : Cell) (st : Weather.WeatherDataProcessor) :
  Weather.weather_df (snd (Weather.extract_measurement re_search float m st))
    = Weather.weather_df st /\
  Weather.patterns (snd (Weather.extract_measurement re_search float m st))
    = Weather.patterns st /\
  Weather.weather_station_data (snd (Weather.extract_measurement re_search float m st))
    = Weather.weather_station_data st.
Proof.
  unfold Weather.extract_measurement.
  destruct (Weather.extract_loop _ _ _ _ _). cbn. auto.
Qed.

Lemma apply_extract_keeps (s : Series) (st : Weather.WeatherDataProcessor) :
  Weather.weather_df (snd (Weather.apply_extract re_search float s st))
    = Weather.weather_df st /\
  Weather.patterns (snd (Weather.apply_extract re_search float s st))
    = Weather.patterns st /\
  Weather.weather_station_data (snd (Weather.apply_extract re_search float s st))
    = Weather.weather_station_data st.
Proof.
  revert st. induction s as [|m s IH]; intros st; [cbn; auto|].
  cbn [Weather.apply_extract].
  pose proof (extract_measurement_keeps m st) as Hk.
  destruct (Weather.extract_measurement re_search float m st) as [[r|e] st1];
    cbn [snd] in *; [|exact Hk].
  specialize (IH st1).
  destruct (Weather.apply_extract re_search float s st1) as [[rs|e] st2];
    cbn [snd] in *; destruct Hk as [K1 [K2 K3]]; destruct IH as [I1 [I2 I3]];
    repeat split; congruence.
Qed.

Lemma extract_loop_result_any_log (items : list (string * string)) (m : Cell)
    (logs logs' : list LogRecord) :
  fst (Weather.extract_loop re_search float items m logs)
  = fst (Weather.extract_loop re_search float items m logs').
Proof.
  induction items as [|[k p] items IH]; [reflexivity|].
  cbn [Weather.extract_loop]. destruct (re_search p m); [reflexivity | exact IH|].
  reflexivity.
Qed.

Lemma fst_extract_measurement_patterns (m : Cell)
    (st st' : Weather.WeatherDataProcessor) :
  Weather.patterns st = Weather.patterns st' ->
  fst (Weather.extract_measurement re_search float m st)
  = fst (Weather.extract_measurement re_search float m st').
Proof.
  intros H. rewrite !fst_extract_measurement, H.
  apply extract_loop_result_any_log.
Qed.

Lemma apply_extract_result_patterns (s : Series)
    (st st' : Weather.WeatherDataProcessor) :
  Weather.patterns st = Weather.patterns st' ->
  fst (Weather.apply_extract re_search float s st)
  = fst (Weather.apply_extract re_search float s st').
Proof.
  revert st st'. induction s as [|m s IH]; intros st st' H; [reflexivity|].
  cbn [Weather.apply_extract].
  pose proof (fst_extract_measurement_patterns m st st' H) as Hf.
  pose proof (extract_measurement_keeps m st) as [_ [Hp _]].
  pose proof (extract_measurement_keeps m st') as [_ [Hp' _]].
  destruct (Weather.extract_measurement re_search float m st) as [[r|e] st1];
    destruct (Weather.extract_measurement re_search float m st') as [[r'|e'] st1'];
    cbn [fst snd] in *; try discriminate Hf; [|congruence].
  injection Hf as <-.
  assert (H1 : Weather.patterns st1 = Weather.patterns st1') by congruence.
  specialize (IH st1 st1' H1).
  destruct (Weather.apply_extract re_search float s st1) as [[rs|e] st2];
    destruct (Weather.apply_extract re_search float s st1') as [[rs'|e'] st2'];
    cbn [fst] in *; congruence.
Qed.





(** X21. On a loaded table [process_messages] raises KeyError when there
    is no 'Message' column and ValueError when that column has no rows; in
    both cases the processor is left as it was, warning-free. *)
Theorem process_messages_needs_messages (st : Weather.WeatherDataProcessor)
    (d : DataFrame) :
  Weather.weather_df st = Some d ->
  (~ In "Message" (columns d) ->
   Weather.process_messages re_search float st = (Raise (KeyError "Message"), st)) /\
  (getitem d "Message" = Return [] ->
   Weather.process_messages re_search float st
   = (Raise (ValueError "not enough values to unpack (expected 2, got 0)"), st)).
Proof.
  intros Hd. unfold Weather.process_messages. rewrite Hd. split.
  - intros H. rewrite (getitem_missing _ _ H). reflexivity.
  - intros ->. reflexivity.
Qed.


(** X23. When [process_messages] raises on a loaded table, the table is
    left as it was, without a half-filled 'Measurement' or 'Value' column;
    the patterns are untouched as well. *)
Theorem process_messages_all_or_nothing (st st' : Weather.WeatherDataProcessor)
    (d : DataFrame) (e : exn) :
  Weather.weather_df st = Some d ->
  Weather.process_messages re_search float st = (Raise e, st') ->
  Weather.weather_df st' = Some d /\ Weather.patterns st' = Weather.patterns st.
Proof.
  intros Hd. unfold Weather.process_messages. rewrite Hd.
  destruct (getitem d "Message") as [messages|e0].
  - pose proof (apply_extract_keeps messages st) as [H1 [H2 _]].
    destruct (Weather.apply_extract re_search float messages st) as [[rs|e1] st1];
      cbn [snd] in *.
    + destruct rs as [|r rs]; [|discriminate].
      intros H. injection H as _ <-. split; congruence.
    + intros H. injection H as _ <-. split; congruence.
  - intros H. injection H as _ <-. auto.
Qed.

(** X24. Running [process_messages] again on what it returned gives the
    same table: the second run replaces the two columns by themselves. *)
Theorem process_messages_twice_same_table (st st1 : Weather.WeatherDataProcessor)
    (d0 d1 : DataFrame) :
  Weather.weather_df st = Some d0 ->
  Weather.process_messages re_search float st = (Return (Some d1), st1) ->
  exists st2,
    Weather.process_messages re_search float st1 = (Return (Some d1), st2) /\
    Weather.weather_df st2 = Some d1.
Proof.
  intros Hd Hp.
  destruct (process_messages_columns re_search float st st1 d0 d1 Hd Hp)
    as [messages [result [sta [Hm [Ha [Hd1 Heq]]]]]].
  assert (Hp1 : Weather.patterns st1 = Weather.patterns st).
  { revert Hp. unfold Weather.process_messages. rewrite Hd, Hm, Ha.
    destruct result as [|r rs]; [discriminate|].
    intros H. injection H as _ <-. cbn.
    pose proof (apply_extract_keeps messages st) as [_ [H2 _]].
    rewrite Ha in H2. exact H2. }
  assert (Hm1 : getitem d1 "Message" = Return messages).
  { rewrite Heq. rewrite !getitem_setitem_other by discriminate. exact Hm. }
  pose proof (apply_extract_result_patterns messages st1 st Hp1) as Hr.
  rewrite Ha in Hr. cbn [fst] in Hr.
  unfold Weather.process_messages. rewrite Hd1, Hm1.
  destruct (Weather.apply_extract re_search float messages st1) as [[rs|e] stb];
    cbn [fst] in Hr; [|discriminate].
  injection Hr as ->.
  destruct result as [|r rs].
  { revert Hp. unfold Weather.process_messages. rewrite Hd, Hm, Ha. discriminate. }
  set (kinds := map (fun r => Weather.kind_cell (fst r)) (r :: rs)) in *.
  set (values := map (fun r => Weather.value_cell (snd r)) (r :: rs)) in *.
  assert (Hk : getitem d1 "Measurement" = Return kinds).
  { rewrite Heq. rewrite getitem_setitem_other by discriminate.
    apply getitem_setitem_same. }
  assert (Hv : getitem d1 "Value" = Return values).
  { rewrite Heq. apply getitem_setitem_same. }
  rewrite (setitem_same d1 "Measurement" kinds Hk).
  rewrite (setitem_same d1 "Value" values Hv).
  eexists. split; reflexivity.
Qed.
End ProcessMessages.

Lemma process_messages_needs_messages_witness :
  Weather.process_messages sample_re_search sample_float
    (scenario_processor (Some [("Weather_station_ID", [Str "A"])]))
    = (Raise (KeyError "Message"),
       scenario_processor (Some [("Weather_station_ID", [Str "A"])])) /\
  Weather.process_messages sample_re_search sample_float
    (scenario_processor (Some [("Weather_station_ID", []); ("Message", [])]))
    = (Raise (ValueError "not enough values to unpack (expected 2, got 0)"),
       scenario_processor (Some [("Weather_station_ID", []); ("Message", [])])).
Proof.
  split.
  - destruct (process_messages_needs_messages sample_re_search sample_float
                (scenario_processor (Some [("Weather_station_ID", [Str "A"])]))
                [("Weather_station_ID", [Str "A"])] eq_refl) as [H _].
    apply H. simpl. intros [E|E]; [discriminate E | exact E].
  - destruct (process_messages_needs_messages sample_re_search sample_float
                (scenario_processor (Some [("Weather_station_ID", []); ("Message", [])]))
                [("Weather_station_ID", []); ("Message", [])] eq_refl) as [_ H].
    apply H. reflexivity.
Defined.


(** A reading of 'nan' is a float to Python: the row gets its kind, and a
    null value. *)
Example process_messages_nan_reading :
  fst (Weather.process_messages sample_re_search sample_float
         (reading_processor (Some tenth_table)))
  = Return (Some tenth_processed_table) /\
  getitem tenth_processed_table "Measurement"
  = Return [Str "temp"; Str "temp"; Str "temp"; Str "level"] /\
  getitem tenth_processed_table "Value"
  = Return [Num tenth; Num tenth; Num tenth; Null].
Proof. repeat split. Qed.

Lemma process_messages_all_or_nothing_witness :
  Weather.weather_df
    (snd (Weather.process_messages sample_re_search sample_float
            (scenario_processor (Some unparsable_table))))
    = Some unparsable_table /\
  Weather.patterns
    (snd (Weather.process_messages sample_re_search sample_float
            (scenario_processor (Some unparsable_table))))
    = Weather.patterns (scenario_processor (Some unparsable_table)).
Proof.
  apply (process_messages_all_or_nothing sample_re_search sample_float
           (scenario_processor (Some unparsable_table)) _ unparsable_table
           (ValueError "could not convert string to float: '.'")).
  - reflexivity.
  - vm_compute. reflexivity.
Defined.

Lemma process_messages_twice_same_table_witness :
  exists st2,
    Weather.process_messages sample_re_search sample_float scenario_processed
      = (Return (Some scenario_processed_table), st2) /\
    Weather.weather_df st2 = Some scenario_processed_table.
Proof.
  apply (process_messages_twice_same_table sample_re_search sample_float
           (scenario_processor (Some scenario_table)) scenario_processed
           scenario_table scenario_processed_table).
  - reflexivity.
  - vm_compute. reflexivity.
Defined.

(** ** Means, further *)

Section ProcessThenMeans.
Variable re_search : string -> Cell -> Weather.re_result.
Variable float : string -> option Float.

Lemma process_messages_loaded_returns_table (st st' : Weather.WeatherDataProcessor)
    (d : DataFrame) (r : option DataFrame) :
  Weather.weather_df st = Some d ->
  Weather.process_messages re_search float st = (Return r, st') ->
  exists d', r = Some d'.
Proof.
  intros Hd. unfold Weather.process_messages. rewrite Hd.
  destruct (getitem d "Message"); [|discriminate].
  destruct (Weather.apply_extract re_search float a st) as [[rs|e] st1];
    [|discriminate].
  destruct rs; [discriminate|]. intros H. injection H as <- _. eauto.
Qed.

(** X25. After [process] has returned on a fetched table that has a
    'Weather_station_ID' column, [calculate_means] returns a table: it
    neither takes the warning path nor raises. *)
Theorem process_then_calculate_means (web : string -> outcome DataFrame)
    (mean : list Float -> Float)
    (st st' : Weather.WeatherDataProcessor) (d : DataFrame) (stations : Series) :
  web (Weather.weather_station_data st) = Return d ->
  getitem d "Weather_station_ID" = Return stations ->
  Weather.process re_search float web st = (Return tt, st') ->
  exists t, fst (Weather.calculate_means mean st') = Return (Some t).
Proof.
  intros Hweb Hst. unfold Weather.process, Weather.weather_station_mapping.
  rewrite Hweb. cbn [DataIngestion.read_from_web_CSV fst].
  set (st1 := Weather.log INFO _ (Weather.set_weather_df st (Some d))).
  destruct (Weather.process_messages re_search float st1) as [[r|e] st2] eqn:Ep;
    [|discriminate].
  intros H. injection H as <-.
  destruct (process_messages_loaded_returns_table st1 st2 d r eq_refl Ep) as [d' ->].
  destruct (process_messages_columns re_search float st1 st2 d d' eq_refl Ep)
    as [messages [result [sta [_ [_ [Hd' Heq]]]]]].
  destruct (calculate_means_pivot mean
              (Weather.log INFO "Data processing completed." st2) d' stations
              (map (fun r => Weather.kind_cell (fst r)) result)
              (map (fun r => Weather.value_cell (snd r)) result)) as [t [Ht _]].
  - exact Hd'.
  - rewrite Heq, !getitem_setitem_other by discriminate. exact Hst.
  - rewrite Heq, getitem_setitem_other by discriminate. apply getitem_setitem_same.
  - rewrite Heq. apply getitem_setitem_same.
  - apply value_cells_numeric.
  - exists t. now rewrite Ht.
Qed.
End ProcessThenMeans.

Lemma process_then_calculate_means_witness :
  exists t,
    fst (Weather.calculate_means sample_mean
           (snd (Weather.process sample_re_search sample_float
                   (fun _ => Return scenario_table) (scenario_processor None))))
    = Return (Some t).
Proof.
  apply (process_then_calculate_means sample_re_search sample_float
           (fun _ => Return scenario_table) sample_mean (scenario_processor None) _
           scenario_table
           [Str "A"; Str "A"; Str "B"; Str "B"; Str "B"; Str "B"]).
  - reflexivity.
  - reflexivity.
  - vm_compute. reflexivity.
Defined.

(** X26. On a table with both grouping columns and no 'Value' column
    [calculate_means] raises KeyError for the column; it logs nothing and
    leaves the processor as it was. *)
Theorem calculate_means_without_value (mean : list Float -> Float)
    (st : Weather.WeatherDataProcessor) (d : DataFrame) :
  Weather.weather_df st = Some d ->
  In "Weather_station_ID" (columns d) ->
  In "Measurement" (columns d) ->
  ~ In "Value" (columns d) ->
  Weather.calculate_means mean st
  = (Raise (KeyError "Column not found: Value"), st).
Proof.
  intros Hd Ha Hb Hv. unfold Weather.calculate_means, groupby_mean. rewrite Hd.
  destruct (getitem_present _ _ Ha) as [ka ->].
  destruct (getitem_present _ _ Hb) as [kb ->]. cbn [obind].
  rewrite (getitem_missing _ _ Hv). reflexivity.
Qed.

Lemma calculate_means_without_value_witness :
  Weather.calculate_means sample_mean
    (scenario_processor
       (Some [("Weather_station_ID", [Str "A"]); ("Measurement", [Str "temp"])]))
  = (Raise (KeyError "Column not found: Value"),
     scenario_processor
       (Some [("Weather_station_ID", [Str "A"]); ("Measurement", [Str "temp"])])).
Proof.
  apply (calculate_means_without_value sample_mean _
           [("Weather_station_ID", [Str "A"]); ("Measurement", [Str "temp"])]).
  - reflexivity.
  - simpl. auto.
  - simpl. auto.
  - simpl. intros [E|[E|E]]; [discriminate E | discriminate E | exact E].
Defined.

(** ** The shared logger *)

Section LoggerProperties.
Variable upper : string -> string.

Lemma initialize_logging_keeps_disabled (lvl : string) (lg : Logging.Logger) :
  Logging.disabled lg = true ->
  Logging.disabled (Logging.initialize_logging upper lvl lg) = true.
Proof.
  intros H. unfold Logging.initialize_logging.
  destruct (String.eqb (upper lvl) "DEBUG");
    [cbn; destruct (Logging.handlers lg); exact H|].
  destruct (String.eqb (upper lvl) "INFO");
    [cbn; destruct (Logging.handlers lg); exact H|].
  destruct (String.eqb (upper lvl) "NONE"); [reflexivity|].
  cbn; destruct (Logging.handlers lg); exact H.
Qed.

Lemma initialize_all_keeps_disabled (levels : list string) (lg : Logging.Logger) :
  Logging.disabled lg = true ->
  Logging.disabled (initialize_all upper levels lg) = true.
Proof.
  revert lg. induction levels as [|lvl levels IH]; intros lg H; [exact H|].
  unfold initialize_all; cbn [fold_left]; fold (initialize_all upper). apply IH.
  now apply initialize_logging_keeps_disabled.
Qed.

(** X28. Once a processor has been created with the level 'NONE', the
    logger of its class stays disabled whatever levels later processors are
    created with: no record of any level is enabled again. *)
Theorem initialize_logging_none_is_final (first : string) (levels : list string)
    (lg : Logging.Logger) (root lvl : Level) :
  upper first = "NONE" ->
  Logging.disabled
    (initialize_all upper levels (Logging.initialize_logging upper first lg)) = true /\
  Logging.is_enabled_for root
    (initialize_all upper levels (Logging.initialize_logging upper first lg)) lvl = false.
Proof.
  intros H.
  assert (Hd : Logging.disabled
                 (initialize_all upper levels (Logging.initialize_logging upper first lg))
               = true).
  { apply initialize_all_keeps_disabled. unfold Logging.initialize_logging.
    rewrite H. reflexivity. }
  split; [exact Hd|]. unfold Logging.is_enabled_for. now rewrite Hd.
Qed.

Lemma initialize_logging_handlers (lvl : string) (lg : Logging.Logger) :
  List.length (Logging.handlers (Logging.initialize_logging upper lvl lg))
  <= Nat.max 1 (List.length (Logging.handlers lg)).
Proof.
  unfold Logging.initialize_logging.
  destruct (Logging.handlers lg) as [|h hs] eqn:E;
    destruct (String.eqb (upper lvl) "DEBUG");
    destruct (String.eqb (upper lvl) "INFO");
    destruct (String.eqb (upper lvl) "NONE");
    cbn [Logging.handlers Logging.propagate Logging.disabled Logging.level];
    rewrite ?E; cbn [Logging.handlers List.length]; lia.
Qed.

(** X29. However many processors are created, a logger that began without
    a handler has at most one: a record is never written twice. *)
Theorem initialize_logging_one_handler (levels : list string) (lg : Logging.Logger) :
  Logging.handlers lg = [] ->
  Logging.copies_written (initialize_all upper levels lg) <= 1.
Proof.
  intros H. unfold Logging.copies_written.
  assert (Hg : forall ls l, List.length (Logging.handlers l) <= 1 ->
                 List.length (Logging.handlers (initialize_all upper ls l)) <= 1).
  { induction ls as [|lvl ls IH]; intros l Hl; [exact Hl|].
    unfold initialize_all; cbn [fold_left]; fold (initialize_all upper). apply IH.
    pose proof (initialize_logging_handlers lvl l). lia. }
  apply Hg. rewrite H. cbn. lia.
Qed.

(** X30. After [initialize_logging] with a level other than 'NONE' on a
    logger that is not disabled, INFO, WARNING and ERROR records are enabled
    and DEBUG records are enabled exactly when the level is 'DEBUG' (in any
    letter case); the logger has a handler and does not propagate. *)
Theorem initialize_logging_levels (lvl : string) (lg : Logging.Logger)
    (root : Level) :
  Logging.disabled lg = false ->
  upper lvl <> "NONE" ->
  Logging.is_enabled_for root (Logging.initialize_logging upper lvl lg) INFO = true /\
  Logging.is_enabled_for root (Logging.initialize_logging upper lvl lg) WARNING = true /\
  Logging.is_enabled_for root (Logging.initialize_logging upper lvl lg) ERROR = true /\
  (Logging.is_enabled_for root (Logging.initialize_logging upper lvl lg) DEBUG = true
   <-> upper lvl = "DEBUG") /\
  1 <= Logging.copies_written (Logging.initialize_logging upper lvl lg) /\
  Logging.propagate (Logging.initialize_logging upper lvl lg) = false.
Proof.
  intros Hd Hn. unfold Logging.initialize_logging, Logging.is_enabled_for,
    Logging.copies_written.
  destruct (String.eqb_spec (upper lvl) "DEBUG") as [E|E].
  - cbn. destruct (Logging.handlers lg); cbn; rewrite Hd; cbn;
      repeat split; auto; try lia.
  - destruct (String.eqb_spec (upper lvl) "INFO") as [E1|E1].
    + cbn. destruct (Logging.handlers lg); cbn; rewrite Hd; cbn;
        repeat split; auto; try lia; try discriminate; intros; contradiction.
    + destruct (String.eqb_spec (upper lvl) "NONE") as [E2|E2]; [contradiction|].
      cbn. destruct (Logging.handlers lg); cbn; rewrite Hd; cbn;
        repeat split; auto; try lia; try discriminate; intros; contradiction.
Qed.
End LoggerProperties.

Lemma initialize_logging_none_is_final_witness :
  Logging.disabled
    (initialize_all Logging.upper_ascii ["INFO"; "debug"]
       (Logging.initialize_logging Logging.upper_ascii "none" Logging.new_logger))
    = true /\
  Logging.is_enabled_for INFO
    (initialize_all Logging.upper_ascii ["INFO"; "debug"]
       (Logging.initialize_logging Logging.upper_ascii "none" Logging.new_logger))
    ERROR = false.
Proof.
  apply (initialize_logging_none_is_final Logging.upper_ascii "none"
           ["INFO"; "debug"] Logging.new_logger INFO ERROR).
  reflexivity.
Defined.

Lemma initialize_logging_one_handler_witness :
  Logging.copies_written
    (initialize_all Logging.upper_ascii ["INFO"; "DEBUG"; "verbose"; "INFO"]
       Logging.new_logger) <= 1.
Proof.
  apply (initialize_logging_one_handler Logging.upper_ascii
           ["INFO"; "DEBUG"; "verbose"; "INFO"] Logging.new_logger).
  reflexivity.
Defined.

Lemma initialize_logging_levels_witness :
  Logging.is_enabled_for INFO
    (Logging.initialize_logging Logging.upper_ascii "Debug" Logging.new_logger) INFO
    = true /\
  Logging.is_enabled_for INFO
    (Logging.initialize_logging Logging.upper_ascii "Debug" Logging.new_logger) WARNING
    = true /\
  Logging.is_enabled_for INFO
    (Logging.initialize_logging Logging.upper_ascii "Debug" Logging.new_logger) ERROR
    = true /\
  (Logging.is_enabled_for INFO
     (Logging.initialize_logging Logging.upper_ascii "Debug" Logging.new_logger) DEBUG
   = true <-> Logging.upper_ascii "Debug" = "DEBUG") /\
  1 <= Logging.copies_written
         (Logging.initialize_logging Logging.upper_ascii "Debug" Logging.new_logger) /\
  Logging.propagate
    (Logging.initialize_logging Logging.upper_ascii "Debug" Logging.new_logger)
  = false.
Proof.
  apply (initialize_logging_levels Logging.upper_ascii "Debug" Logging.new_logger INFO).
  - reflexivity.
  - vm_compute. discriminate.
Defined.
